(** * Vulnerability index and similarity graph: a shallow embedding

    The development follows the two scripts of the repository,
    [Fastgreedy.py] and [leiden_semfiltro/Leiden_semfiltro.py]:
    the scoring functions, the loader, the vulnerability index, and the
    construction of the similarity graph.

    Conventions of the embedding.
    - A spreadsheet cell is a [valor]: the float [NaN], a finite number
      (a rational: every IEEE double is one), or a character string.
    - A Python exception is a constructor of [excecao]; a function that
      may raise returns a [result].
    - Python [float] arithmetic is read over [Q].  All constants the code
      compares against (759.0, 1518.0, 2277.0, 0.5, 1.0, 1.5, 2.0, ...)
      are exactly representable, and no statement below depends on how
      a quotient is rounded. *)

From Stdlib Require Import ZArith QArith Qabs List String Ascii Bool Lia Arith.
From Stdlib Require Import DecimalString.
Import ListNotations.

Set Implicit Arguments.

(** ** Python values and exceptions *)

Inductive valor : Type :=
| NaN : valor
| Num (x : Q) : valor
| Str (s : string) : valor.

Inductive excecao : Type :=
| KeyError (col : string)
| ValueError_linhas (linhas : list nat)
| ValueError_comprimento (valores indice : nat)
| TypeError
| FileNotFoundError (caminho : string)
| RuntimeError.

Inductive result (A : Type) : Type :=
| Ok (a : A)
| Raise (e : excecao).

Arguments Ok {A} a.
Arguments Raise {A} e.

Definition bind {A B : Type} (m : result A) (k : A -> result B) : result B :=
  match m with
  | Ok a => k a
  | Raise e => Raise e
  end.

Declare Scope py_scope.
Delimit Scope py_scope with py.
Notation "x <- m ;; k" := (bind m (fun x => k))
  (at level 61, m at next level, right associativity) : py_scope.

(** [pd.isna]: true on the missing value only. *)
Definition isna (v : valor) : bool :=
  match v with
  | NaN => true
  | _ => false
  end.

(** [isinstance(v, str)]. *)
Definition is_str (v : valor) : bool :=
  match v with
  | Str _ => true
  | _ => false
  end.

Definition Qlt_bool (a b : Q) : bool := negb (Qle_bool b a).

(** ** Strings: [strip], [lower] and the [in] test

    Strings are byte strings in UTF-8.  [lower] folds the ASCII capitals
    and the capitals of the Latin-1 supplement (the two-byte sequences
    that start with 0xC3), which covers Portuguese text.  [strip]
    removes at both ends every character that [str.isspace] accepts:
    the ASCII white space and, in their UTF-8 encoding, U+0085, U+00A0,
    U+1680, U+2000 to U+200A, U+2028, U+2029, U+202F, U+205F and
    U+3000. *)

Definition is_space (c : ascii) : bool :=
  let n := nat_of_ascii c in
  ((9 <=? n) && (n <=? 13) || (28 <=? n) && (n <=? 32))%nat.

Definition lower_ascii (c : ascii) : ascii :=
  let n := nat_of_ascii c in
  if ((65 <=? n) && (n <=? 90))%nat then ascii_of_nat (n + 32) else c.

(** Second byte of a two-byte sequence 0xC3 xx: U+00C0..U+00DE except
    the multiplication sign U+00D7. *)
Definition lower_latin1 (c : ascii) : ascii :=
  let n := nat_of_ascii c in
  if ((128 <=? n) && (n <=? 158) && negb (n =? 151))%nat
  then ascii_of_nat (n + 32) else c.

Fixpoint lower (s : string) : string :=
  match s with
  | EmptyString => EmptyString
  | String c t =>
      if (nat_of_ascii c =? 195)%nat then
        match t with
        | EmptyString => String c EmptyString
        | String d t' => String c (String (lower_latin1 d) (lower t'))
        end
      else String (lower_ascii c) (lower t)
  end.

(** A white space of two bytes: U+0085 and U+00A0. *)
Definition espaco2 (c d : ascii) : bool :=
  let a := nat_of_ascii c in
  let b := nat_of_ascii d in
  ((a =? 194) && ((b =? 133) || (b =? 160)))%nat.

(** A white space of three bytes: U+1680, U+2000 to U+200A, U+2028,
    U+2029, U+202F, U+205F, U+3000. *)
Definition espaco3 (c d e : ascii) : bool :=
  let a := nat_of_ascii c in
  let b := nat_of_ascii d in
  let x := nat_of_ascii e in
  ((a =? 225) && (b =? 154) && (x =? 128)
   || (a =? 226) && (b =? 128)
      && ((128 <=? x) && (x <=? 138) || (x =? 168) || (x =? 169) || (x =? 175))
   || (a =? 226) && (b =? 129) && (x =? 159)
   || (a =? 227) && (b =? 128) && (x =? 128))%nat.

Section Tira.

(** What counts as a white space of one, two and three bytes at the
    head of the list. *)
Variable p1 : ascii -> bool.
Variable p2 : ascii -> ascii -> bool.
Variable p3 : ascii -> ascii -> ascii -> bool.

(** Remove the white space at the head of a list of bytes. *)
Fixpoint tira (l : list ascii) : list ascii :=
  match l with
  | [] => []
  | c :: t =>
      if p1 c then tira t
      else
        match t with
        | [] => l
        | d :: t' =>
            if p2 c d then tira t'
            else
              match t' with
              | [] => l
              | e :: t'' => if p3 c d e then tira t'' else l
              end
        end
  end.

(** The list starts with a white space. *)
Definition comeca (l : list ascii) : bool :=
  match l with
  | [] => false
  | c :: t =>
      p1 c ||
      match t with
      | [] => false
      | d :: t' =>
          p2 c d ||
          match t' with
          | [] => false
          | e :: _ => p3 c d e
          end
      end
  end.

End Tira.

(** At the left end the bytes of a character come in reading order, at
    the right end, on the reversed list, last byte first. *)
Definition tira_esquerda : list ascii -> list ascii :=
  tira is_space espaco2 espaco3.

Definition tira_direita : list ascii -> list ascii :=
  tira is_space (fun d c => espaco2 c d) (fun e d c => espaco3 c d e).

Definition lstrip (s : string) : string :=
  string_of_list_ascii (tira_esquerda (list_ascii_of_string s)).

Definition rstrip (s : string) : string :=
  string_of_list_ascii (rev (tira_direita (rev (list_ascii_of_string s)))).

Definition strip (s : string) : string := rstrip (lstrip s).

(** [needle in hay] on strings. *)
Fixpoint contem (needle hay : string) : bool :=
  if prefix needle hay then true
  else match hay with
       | EmptyString => false
       | String _ t => contem needle t
       end.

(** [x in (a, b, c)] on a tuple of strings. *)
Definition pertence (x : string) (l : list string) : bool :=
  existsb (String.eqb x) l.

(** [str(i)] for a non-negative integer. *)
Definition str_nat (i : nat) : string := NilEmpty.string_of_uint (Nat.to_uint i).


(** ** Small list utilities *)

(** [sorted(set(l))] on row numbers: insertion into a strictly
    increasing list. *)
Fixpoint inserir (x : nat) (l : list nat) : list nat :=
  match l with
  | [] => [x]
  | y :: t =>
      if (x <? y)%nat then x :: l
      else if (x =? y)%nat then l
      else y :: inserir x t
  end.

Definition sorted_set (l : list nat) : list nat :=
  fold_right inserir [] l.

(** Run a fallible function over a list, left to right; the first
    exception wins. *)
Fixpoint mapM {A B : Type} (f : A -> result B) (l : list A) : result (list B) :=
  match l with
  | [] => Ok []
  | a :: t =>
      match f a with
      | Raise e => Raise e
      | Ok b =>
          match mapM f t with
          | Raise e => Raise e
          | Ok bs => Ok (b :: bs)
          end
      end
  end.

(** Replace position [k] of a list ([l] unchanged when out of range). *)
Fixpoint substituir {A : Type} (k : nat) (x : A) (l : list A) : list A :=
  match l, k with
  | [], _ => []
  | _ :: t, O => x :: t
  | a :: t, S k' => a :: substituir k' x t
  end.

(** Remove position [k] of a list. *)
Fixpoint remover {A : Type} (k : nat) (l : list A) : list A :=
  match l, k with
  | [], _ => []
  | _ :: t, O => t
  | a :: t, S k' => a :: remover k' t
  end.

(** ** Data frames

    A frame is a header and its rows; every row is aligned with the
    header (a short row reads as missing cells).  The row index is the
    position. *)

Record DataFrame : Type := mkDF {
  columns : list string;
  values : list (list valor)
}.

Definition len (df : DataFrame) : nat := List.length (values df).

(** Position of the first column with a given name. *)
Fixpoint posicao (c : string) (cols : list string) : option nat :=
  match cols with
  | [] => None
  | h :: t =>
      if String.eqb c h then Some O
      else option_map S (posicao c t)
  end.

(** [col in df.columns]. *)
Definition tem_coluna (c : string) (cols : list string) : bool :=
  existsb (String.eqb c) cols.

(** [row[c]] *)
Definition celula (cols : list string) (row : list valor) (c : string) : result valor :=
  match posicao c cols with
  | Some k => Ok (nth k row NaN)
  | None => Raise (KeyError c)
  end.

(** [row.get(c, padrao)] *)
Definition celula_get (cols : list string) (row : list valor) (c : string) (padrao : valor) : valor :=
  match posicao c cols with
  | Some k => nth k row NaN
  | None => padrao
  end.

(** A row cut or padded with missing cells to the width of the header. *)
Definition alinhar (w : nat) (row : list valor) : list valor :=
  firstn w (row ++ repeat NaN w).

(** [df[c] = col]: replaces the column when it exists, appends it
    otherwise; on a frame with rows pandas refuses a column whose
    length differs from the frame's.  (On a frame without rows pandas
    takes a list of any length and grows the frame to it; the
    statements that depend on the refusal are about frames with
    rows.) *)
Definition atribuir_coluna (df : DataFrame) (c : string) (col : list valor) : result DataFrame :=
  let w := List.length (columns df) in
  if negb (List.length col =? len df)%nat then
    Raise (ValueError_comprimento (List.length col) (len df))
  else
    match posicao c (columns df) with
    | Some k =>
        Ok (mkDF (columns df)
                 (map (fun rv => substituir k (snd rv) (alinhar w (fst rv)))
                      (combine (values df) col)))
    | None =>
        Ok (mkDF (columns df ++ [c])
                 (map (fun rv => alinhar w (fst rv) ++ [snd rv])
                      (combine (values df) col)))
    end.

(** [df[c] = df[c].map(f)] for an existing column. *)
Definition transformar_coluna (df : DataFrame) (c : string) (f : valor -> valor) : DataFrame :=
  match posicao c (columns df) with
  | Some k => mkDF (columns df) (map (fun row => substituir k (f (nth k row NaN)) row) (values df))
  | None => df
  end.

(** [df[cols]]: the frame restricted to the listed columns, in that order. *)
Definition selecionar (df : DataFrame) (cols : list string) : result DataFrame :=
  match mapM (fun c => match posicao c (columns df) with
                       | Some k => Ok k
                       | None => Raise (KeyError c)
                       end) cols with
  | Raise e => Raise e
  | Ok ks => Ok (mkDF cols (map (fun row => map (fun k => nth k row NaN) ks) (values df)))
  end.

(** [df.drop(columns=[c])] *)
Definition drop_coluna (df : DataFrame) (c : string) : result DataFrame :=
  match posicao c (columns df) with
  | Some k => Ok (mkDF (remover k (columns df)) (map (remover k) (values df)))
  | None => Raise (KeyError c)
  end.

(** Row numbers whose cell in column [c] is missing:
    [df[df[c].isna()].index.tolist()]. *)
Definition linhas_na (df : DataFrame) (c : string) : list nat :=
  match posicao c (columns df) with
  | Some k =>
      map fst (filter (fun ir => isna (nth k (snd ir) NaN))
                      (combine (seq 0 (len df)) (values df)))
  | None => []
  end.

(** What [pd.read_excel] delivered: the sheet, or the exception it
    raised. *)
Inductive leitura : Type :=
| Planilha (df : DataFrame)
| ArquivoInexistente
| FalhaDeLeitura (e : excecao).

(** ** The mixed-type distance of the [gower] package *)

Section Gower.

Local Open Scope Q_scope.

(** The matrix holds floats: [None] stands for NaN. *)
Definition matriz : Type := list (list (option Q)).

Definition coluna (X : list (list valor)) (k : nat) : list valor :=
  map (fun row => nth k row NaN) X.

Definition numeros (col : list valor) : list Q :=
  flat_map (fun v => match v with Num x => [x] | _ => [] end) col.

Definition Qmaior (a b : Q) : Q := if Qle_bool a b then b else a.
Definition Qmenor (a b : Q) : Q := if Qle_bool a b then a else b.

(** Range (max - min) of the numbers of a column, missing cells ignored. *)
Definition amplitude (col : list valor) : Q :=
  match numeros col with
  | [] => 0
  | x :: t => fold_left Qmaior t x - fold_left Qmenor t x
  end.

(** A field is categorical when the first row holds a string there. *)
Definition categorica (X : list (list valor)) (k : nat) : bool :=
  match X with
  | [] => false
  | row0 :: _ => is_str (nth k row0 NaN)
  end.

(** [a == b] on cells; NaN differs from everything, itself included. *)
Definition valor_eqb (a b : valor) : bool :=
  match a, b with
  | Num x, Num y => Qeq_bool x y
  | Str s, Str t => String.eqb s t
  | _, _ => false
  end.

(** Contribution of field [k]: 0 or 1 by equality for a categorical
    field, the absolute difference scaled by the range for a numeric
    one (0 when the range is 0, NaN when a number is missing). *)
Definition parcela (X : list (list valor)) (k : nat) (a b : valor) : option Q :=
  if categorica X k then Some (if valor_eqb a b then 0 else 1)
  else
    match a, b with
    | Num x, Num y =>
        let r := amplitude (coluna X k) in
        Some (if Qeq_bool r 0 then 0 else Qabs (x - y) / r)
    | _, _ => None
    end.

Definition largura (X : list (list valor)) : nat :=
  match X with
  | [] => O
  | row0 :: _ => List.length row0
  end.

Definition soma_opt (a b : option Q) : option Q :=
  match a, b with
  | Some x, Some y => Some (x + y)
  | _, _ => None
  end.

(** Modelled from the spec: the [gower] package is not among the
    sources.  Section 4.1 describes its distance: numeric fields scaled
    by range, categorical fields by equality, normalised by the number
    of fields; the result lies in [0, 1] and is 0 on identical rows. *)
Definition gower_dist (X : list (list valor)) (ri rj : list valor) : option Q :=
  let p := largura X in
  match p with
  | O => None
  | _ =>
      option_map (fun s => s / inject_Z (Z.of_nat p))
        (fold_left (fun acc k => soma_opt acc (parcela X k (nth k ri NaN) (nth k rj NaN)))
                   (seq 0 p) (Some 0))
  end.

(** Modelled from the spec: [gower.gower_matrix(X)], the N x N matrix
    of the pairwise distances of the rows of [X]. *)
Definition gower_matrix (X : list (list valor)) : matriz :=
  map (fun ri => map (fun rj => gower_dist X ri rj) X) X.

(** [m[i][j]]; the matrices indexed below are N x N and the indices
    stay below N. *)
Definition entrada (m : matriz) (i j : nat) : option Q :=
  nth j (nth i m []) None.

(** The similarity in the words of the specification: one minus the
    normalised distance. *)
Definition similaridade_spec (X : list (list valor)) (i j : nat) : option Q :=
  option_map (fun d => 1 - d) (entrada (gower_matrix X) i j).

End Gower.

(** ** igraph graphs *)

Record Graph : Type := mkGraph {
  vcount : nat;
  directed : bool;
  es : list (nat * nat);
  es_weight : list Q;
  vs_label : list string
}.

(** The least number of vertices that covers every endpoint of an edge
    list: 0 for the empty list, else the largest endpoint plus one. *)
Definition cobertura (edges : list (nat * nat)) : nat :=
  fold_right (fun e m => Nat.max (S (Nat.max (fst e) (snd e))) m) O edges.

(** [ig.Graph(edges=edges, directed=d)]: the number of vertices is not
    given, so it starts from its default 0 and is raised to cover the
    largest endpoint of the edge list. *)
Definition ig_Graph (edges : list (nat * nat)) (d : bool) : Graph :=
  {| vcount := cobertura edges;
     directed := d;
     es := edges;
     es_weight := [];
     vs_label := [] |}.

(** Assignment of a list to an attribute of a sequence of [k] vertices
    or edges: the list is reused cyclically or cut to [k] values; an
    empty list is refused when [k] is positive. *)
Definition atribuir_seq {A : Type} (k : nat) (vals : list A) (d : A) : option (list A) :=
  match vals, k with
  | [], S _ => None
  | _, _ => Some (map (fun i => nth (i mod List.length vals) vals d) (seq 0 k))
  end.

(** [g.es['weight'] = weights] *)
Definition set_es_weight (g : Graph) (weights : list Q) : result Graph :=
  match atribuir_seq (List.length (es g)) weights 0%Q with
  | Some ws => Ok {| vcount := vcount g; directed := directed g; es := es g;
                     es_weight := ws; vs_label := vs_label g |}
  | None => Raise (ValueError_comprimento 0 (List.length (es g)))
  end.

(** [g.vs['label'] = labels] *)
Definition set_vs_label (g : Graph) (labels : list string) : result Graph :=
  match atribuir_seq (vcount g) labels EmptyString with
  | Some ls => Ok {| vcount := vcount g; directed := directed g; es := es g;
                     es_weight := es_weight g; vs_label := ls |}
  | None => Raise (ValueError_comprimento 0 (vcount g))
  end.

(** ** The similarity graph

    The two scripts build the graph with the same code; only the name of
    the index column that is dropped first differs. *)

Section ConstruirGrafo.

Variable coluna_indice : string.

(** Body of the inner loop: one pair (i, j). *)
Definition passo (matriz_sim : matriz) (limiar : Q) (i : nat)
    (acc : list (nat * nat) * list Q) (j : nat) : list (nat * nat) * list Q :=
  match entrada matriz_sim i j with
  | Some sim =>
      if Qle_bool limiar sim then (fst acc ++ [(i, j)], snd acc ++ [sim])
      else acc
  | None => acc
  end.

(** [for i in range(n): for j in range(i + 1, n): ...] *)
Definition laco (matriz_sim : matriz) (limiar : Q) (n : nat) : list (nat * nat) * list Q :=
  fold_left
    (fun acc i => fold_left (passo matriz_sim limiar i) (seq (S i) (n - S i)) acc)
    (seq 0 n) ([], []).

Local Open Scope py_scope.

Definition construir_grafo_de (df : DataFrame) (limiar : Q) : result (Graph * list Q) :=
  df_sim <- drop_coluna df coluna_indice ;;
  let matriz_sim := gower_matrix (values df_sim) in
  let n := len df_sim in
  let edges := fst (laco matriz_sim limiar n) in
  let weights := snd (laco matriz_sim limiar n) in
  let g := ig_Graph edges false in
  g <- set_es_weight g weights ;;
  g <- set_vs_label g (map str_nat (seq 0 n)) ;;
  Ok (g, weights).

End ConstruirGrafo.

(** ** Statistics per group

    Shared by the two scripts up to the names of the columns.  The
    standard deviation is kept as the sample variance it is the square
    root of ([None] for a group of one, where pandas gives NaN).
    Missing index values are skipped; a text among the index values
    makes the aggregation raise a TypeError. *)

Record estatistica : Type := mkEstat {
  Grupo : nat;
  Media : option Q;
  Variancia : option Q;
  N_de_Estudantes : nat
}.

Section Estatisticas.

Variables coluna_grupo coluna_indice : string.

Local Open Scope Q_scope.

Definition soma (l : list Q) : Q := fold_right Qplus 0 l.

Definition media (l : list Q) : option Q :=
  match l with
  | [] => None
  | _ => Some (soma l / inject_Z (Z.of_nat (List.length l)))
  end.

Definition variancia (l : list Q) : option Q :=
  match l, media l with
  | _ :: _ :: _, Some m =>
      Some (soma (map (fun x => (x - m) * (x - m)) l)
            / inject_Z (Z.of_nat (List.length l - 1)))
  | _, _ => None
  end.

Definition do_grupo (k : nat) (membership : list nat) (indices : list valor) : list Q :=
  numeros (map snd (filter (fun gv => (fst gv =? k)%nat) (combine membership indices))).

Local Open Scope py_scope.

Definition estatisticas_por_grupo (df : DataFrame) (membership : list nat)
  : result (DataFrame * list estatistica) :=
  df_annotated <- atribuir_coluna df coluna_grupo
                    (map (fun k => Num (inject_Z (Z.of_nat k))) membership) ;;
  match posicao coluna_indice (columns df_annotated) with
  | None => Raise (KeyError coluna_indice)
  | Some k =>
      let indices := coluna (values df_annotated) k in
      if existsb is_str indices then Raise TypeError
      else
        Ok (df_annotated,
            map (fun grp =>
                   let vs := do_grupo grp membership indices in
                   mkEstat grp (media vs) (variancia vs) (List.length vs))
                (sorted_set membership))
  end.

End Estatisticas.

(** ** Constants shared by the two scripts *)

Definition SALARIO_MINIMO : Q := 1518.
Definition SIMILARIDADE_LIMIAR : Q := 0.5.

(** * First script: Fastgreedy.py *)

Module Fastgreedy.

Local Open Scope Q_scope.
Local Open Scope string_scope.

Definition EXCEL_PATH : string := "./Solicitantes de Auxílio Estudantil - 2018.xlsx".

Definition pontos_renda (r : valor) : result Z :=
  match r with
  | NaN => Ok 0%Z
  | Str _ => Raise TypeError
  | Num r =>
      if Qlt_bool r (0.5 * SALARIO_MINIMO) then Ok 40%Z
      else if Qlt_bool r (1.0 * SALARIO_MINIMO) then Ok 30%Z
      else if Qle_bool r (1.5 * SALARIO_MINIMO) then Ok 20%Z
      else Ok 0%Z
  end.

Definition pontos_moradia (m : valor) : result Z :=
  match m with
  | Str m =>
      let m_lower := lower (strip m) in
      if contem "alugada" m_lower then Ok 15%Z
      else if contem "pagamento" m_lower then Ok 12%Z
      else if contem "quitada" m_lower then Ok 5%Z
      else if contem "herança" m_lower || contem "heranca" m_lower then Ok 2%Z
      else Ok 0%Z
  | _ => Ok 0%Z
  end.

(** [v == 0]: false on a string and on NaN. *)
Definition igual_zero (v : valor) : bool :=
  match v with
  | Num x => Qeq_bool x 0
  | _ => false
  end.

Definition pontos_despesas (dp rp : valor) : result Z :=
  if isna dp || isna rp || igual_zero rp then Ok 10%Z
  else
    match dp, rp with
    | Num dp, Num rp =>
        let rel := dp / rp in
        if Qlt_bool 2.0 rel then Ok 10%Z
        else if Qlt_bool 1.5 rel then Ok 7%Z
        else if Qlt_bool 1.0 rel then Ok 4%Z
        else Ok 0%Z
    | _, _ => Raise TypeError
    end.

Definition pontos_bens (v : valor) : result Z :=
  match v with
  | NaN => Ok 0%Z
  | Str _ => Raise TypeError
  | Num v =>
      if Qeq_bool v 0 then Ok 15%Z
      else if Qlt_bool v 10000 then Ok 10%Z
      else if Qlt_bool v 100000 then Ok 5%Z
      else Ok 0%Z
  end.

Definition col_moradia : string := "Qual a situação da MORADIA DO GRUPO FAMILIAR?".
Definition col_transporte : string :=
  "Qual o principal meio de transporte que você utiliza para vir até a Universidade?".

Definition colunas : list string :=
  [ col_moradia; col_transporte; "Renda per capita"; "Despesas per capita";
    "Valor Total dos bens familiares" ].

Definition colunas_criticas : list string :=
  [ "Renda per capita"; "Despesas per capita"; "Valor Total dos bens familiares" ].

Local Open Scope py_scope.

Section Carga.

(** [str(x)] of a float, as [astype(str)] writes it. *)
Variable str_float : Q -> string.

Definition astype_str (v : valor) : string :=
  match v with
  | Str s => s
  | NaN => "nan"
  | Num x => str_float x
  end.

Definition carregar_dados (excel_path : string) (lido : leitura) : result DataFrame :=
  match lido with
  | ArquivoInexistente => Raise (FileNotFoundError excel_path)
  | FalhaDeLeitura _ => Raise RuntimeError
  | Planilha df =>
      _ <- mapM (fun col => if tem_coluna col (columns df) then Ok tt
                            else Raise (KeyError col)) colunas ;;
      df <- selecionar df colunas ;;
      let df := transformar_coluna df (nth 0 colunas "") (fun v => Str (strip (astype_str v))) in
      let df := transformar_coluna df (nth 1 colunas "") (fun v => Str (strip (astype_str v))) in
      let linhas_invalidas := sorted_set (flat_map (linhas_na df) colunas_criticas) in
      match linhas_invalidas with
      | [] => Ok df
      | _ :: _ => Raise (ValueError_linhas linhas_invalidas)
      end
  end.

End Carga.

(** The lambda applied to every row. *)
Definition pontuar (cols : list string) (row : list valor) : result Z :=
  r <- celula cols row "Renda per capita" ;;
  a <- pontos_renda r ;;
  m <- celula cols row col_moradia ;;
  b <- pontos_moradia m ;;
  dp <- celula cols row "Despesas per capita" ;;
  rp <- celula cols row "Renda per capita" ;;
  c <- pontos_despesas dp rp ;;
  v <- celula cols row "Valor Total dos bens familiares" ;;
  d <- pontos_bens v ;;
  Ok (a + b + c + d)%Z.

Definition calcular_indice_vulnerabilidade (df : DataFrame) : result DataFrame :=
  indices <- mapM (pontuar (columns df)) (values df) ;;
  atribuir_coluna df "Indice Vulnerabilidade" (map (fun z => Num (inject_Z z)) indices).

Definition construir_grafo (df : DataFrame) (limiar : Q) : result (Graph * list Q) :=
  construir_grafo_de "Indice Vulnerabilidade" df limiar.

Definition calcular_estatisticas_por_grupo (df : DataFrame) (membership : list nat)
  : result (DataFrame * list estatistica) :=
  estatisticas_por_grupo "Grupo FastGreedy" "Indice Vulnerabilidade" df membership.

Section Fluxo.

Variable str_float : Q -> string.

(** [community_fastgreedy(...).as_clustering().membership]: one label
    per vertex of the graph it is given.  The algorithm belongs to
    igraph and stays abstract. *)
Variable community_fastgreedy : Graph -> list nat.

Record resultado : Type := mkResultado {
  num_comunidades : nat;
  membership : list nat
}.

(** Layout, plot and modularity are left out: no statement is about them. *)
Definition rodar_fastgreedy (g : Graph) (weights : list Q) : resultado :=
  let m := community_fastgreedy g in
  mkResultado (List.length (sorted_set m)) m.

(** The main flow, from the loaded sheet to the statistics. *)
Definition principal (lido : leitura) : result (DataFrame * list estatistica) :=
  df_raw <- carregar_dados str_float EXCEL_PATH lido ;;
  df_vul <- calcular_indice_vulnerabilidade df_raw ;;
  gp <- construir_grafo df_vul SIMILARIDADE_LIMIAR ;;
  let resultado_fg := rodar_fastgreedy (fst gp) (snd gp) in
  calcular_estatisticas_por_grupo df_vul (membership resultado_fg).

End Fluxo.

End Fastgreedy.

(** * Second script: leiden_semfiltro/Leiden_semfiltro.py *)

Module Leiden.

Local Open Scope Q_scope.
Local Open Scope string_scope.

Definition EXCEL_PATH : string := "./Solicitantes de Auxílio Estudantil - 2018.xlsx".

Definition pontos_renda (r : valor) : result Z :=
  match r with
  | NaN => Ok 0%Z
  | Str _ => Raise TypeError
  | Num r =>
      if Qle_bool r (0.5 * SALARIO_MINIMO) then Ok 40%Z
      else if Qle_bool r (1.0 * SALARIO_MINIMO) then Ok 30%Z
      else if Qle_bool r (1.5 * SALARIO_MINIMO) then Ok 20%Z
      else Ok 0%Z
  end.

Definition pontos_bens (v : valor) : result Z :=
  match v with
  | NaN => Ok 0%Z
  | Str _ => Raise TypeError
  | Num v =>
      if Qeq_bool v 0 then Ok 15%Z
      else if Qle_bool v 20000 then Ok 10%Z
      else if Qle_bool v 50000 then Ok 5%Z
      else Ok 0%Z
  end.

(** [v > 0]: false on NaN, a TypeError on a string. *)
Definition maior_zero (v : valor) : result bool :=
  match v with
  | Num x => Ok (Qlt_bool 0 x)
  | NaN => Ok false
  | Str _ => Raise TypeError
  end.

(** [v == 0]: false on a string and on NaN. *)
Definition igual_zero (v : valor) : bool :=
  match v with
  | Num x => Qeq_bool x 0
  | _ => false
  end.

Definition col_procedencia : string := "qual sua procedencia escolar?".
Definition col_moradia_aluno : string := "qual a situacao da moradia do aluno?".
Definition col_moradia_familia : string := "qual a situacao da moradia do grupo familiar?".
Definition col_filhos : string := "quantos filhos o solicitante possui?".
Definition col_renda : string := "renda per capita".
Definition col_bens : string := "valor total dos bens familiares".
Definition col_doenca : string := "quantidade de individuos com doenca grave no grupo familiar".
Definition col_superior : string := "familiares com superior completo ou pos".
Definition col_transporte : string :=
  "qual o principal meio de transporte que voce utiliza para vir ate a universidade?".

Definition colunas_obrigatorias : list string :=
  [ "id_discente"; col_procedencia; col_moradia_aluno; col_moradia_familia;
    col_filhos; col_renda; col_bens; col_doenca; col_superior; col_transporte ].

(** The columns converted with [pd.to_numeric], in the order of the
    script. *)
Definition colunas_numericas : list string :=
  [ col_renda; col_bens; col_filhos; col_doenca; col_superior ].

Local Open Scope py_scope.

Section Externas.

(** [unidecode.unidecode]: transliteration to ASCII. *)
Variable unidecode : string -> string.

(** [str(x)] of a float. *)
Variable str_float : Q -> string.

(** [pd.to_numeric] on a text cell: the number it reads, if any. *)
Variable to_numeric_str : string -> option Q.

Definition moradia_onerosa (m : valor) : bool :=
  match m with
  | Str s => pertence (unidecode (lower (strip s))) ["aluguel"; "financiado"; "financiamento"]
  | _ => false
  end.

Definition pontos_moradia (moradia_aluno moradia_familia : valor) : result Z :=
  let pontos := 0%Z in
  let pontos := if moradia_onerosa moradia_aluno then (pontos + 8)%Z else pontos in
  let pontos := if moradia_onerosa moradia_familia then (pontos + 7)%Z else pontos in
  Ok (Z.min pontos 15).

Definition pontos_procedencia (escola : valor) : result Z :=
  match escola with
  | Str s =>
      let e := unidecode (lower (strip s)) in
      if contem "publica" e then Ok 10%Z
      else if contem "bolsa" e || contem "filantropica" e then Ok 5%Z
      else Ok 0%Z
  | _ => Ok 0%Z
  end.

(** [str(v)] of a cell. *)
Definition str_valor (v : valor) : string :=
  match v with
  | Str s => s
  | NaN => "nan"
  | Num x => str_float x
  end.

Definition pontos_savs (cols : list string) (row : list valor) : result Z :=
  let pontos := 0%Z in
  doente <- maior_zero (celula_get cols row col_doenca (Num 0)) ;;
  let pontos := if (doente : bool) then (pontos + 5)%Z else pontos in
  filhos <- maior_zero (celula_get cols row col_filhos (Num 0)) ;;
  let pontos := if (filhos : bool) then (pontos + 5)%Z else pontos in
  let transporte := unidecode (lower (str_valor (celula_get cols row col_transporte (Str "")))) in
  let pontos :=
    if existsb (fun x => contem x transporte) ["zona rural"; "cidade vizinha"; "intermunicipal"]
    then (pontos + 5)%Z else pontos in
  let pontos :=
    if igual_zero (celula_get cols row col_superior (Num 0)) then (pontos + 5)%Z else pontos in
  Ok (Z.min pontos 20).

(** [pd.to_numeric(col, errors='coerce').fillna(0)] on one cell. *)
Definition to_numeric_fillna (v : valor) : valor :=
  match v with
  | Num x => Num x
  | NaN => Num 0
  | Str s =>
      match to_numeric_str s with
      | Some x => Num x
      | None => Num 0
      end
  end.

(** [df[df[c] <= teto]] *)
Definition filtrar_le (df : DataFrame) (c : string) (teto : Q) : DataFrame :=
  match posicao c (columns df) with
  | Some k =>
      mkDF (columns df)
           (filter (fun row => match nth k row NaN with
                               | Num x => Qle_bool x teto
                               | _ => false
                               end) (values df))
  | None => df
  end.

(** The header occurs more than once: [df[c]] is then a frame, not a
    column, and [pd.to_numeric] refuses it with a TypeError. *)
Definition repetida (c : string) (cols : list string) : bool :=
  (1 <? List.length (filter (String.eqb c) cols))%nat.

(** The script has no [try] around [read_excel]: what it raises goes
    through. *)
Definition carregar_dados (excel_path : string) (lido : leitura) : result DataFrame :=
  match lido with
  | ArquivoInexistente => Raise (FileNotFoundError excel_path)
  | FalhaDeLeitura e => Raise e
  | Planilha df =>
      let df := mkDF (map (fun col => unidecode (lower (strip col))) (columns df)) (values df) in
      _ <- mapM (fun col => if tem_coluna col (columns df) then Ok tt
                            else Raise (KeyError col)) colunas_obrigatorias ;;
      _ <- mapM (fun col => if repetida col (columns df) then Raise TypeError
                            else Ok tt) colunas_numericas ;;
      let df := transformar_coluna df col_renda to_numeric_fillna in
      let df := transformar_coluna df col_bens to_numeric_fillna in
      let df := transformar_coluna df col_filhos to_numeric_fillna in
      let df := transformar_coluna df col_doenca to_numeric_fillna in
      let df := transformar_coluna df col_superior to_numeric_fillna in
      let df := filtrar_le df col_renda (1.5 * SALARIO_MINIMO) in
      Ok df
  end.

(** The sum of the five contributions of a row, before the cap. *)
Definition pontuar (cols : list string) (row : list valor) : result Z :=
  r <- celula cols row col_renda ;;
  a <- pontos_renda r ;;
  ma <- celula cols row col_moradia_aluno ;;
  mf <- celula cols row col_moradia_familia ;;
  b <- pontos_moradia ma mf ;;
  e <- celula cols row col_procedencia ;;
  c <- pontos_procedencia e ;;
  v <- celula cols row col_bens ;;
  d <- pontos_bens v ;;
  s <- pontos_savs cols row ;;
  Ok (a + b + c + d + s)%Z.

(** [Series.clip(upper=100)] on one value. *)
Definition clip_upper (teto v : Z) : Z := Z.min v teto.

Definition calcular_indice_vulnerabilidade (df : DataFrame) : result DataFrame :=
  brutos <- mapM (pontuar (columns df)) (values df) ;;
  atribuir_coluna df "indice vulnerabilidade"
    (map (fun z => Num (inject_Z (clip_upper 100 z))) brutos).

End Externas.

Definition construir_grafo (df : DataFrame) (limiar : Q) : result (Graph * list Q) :=
  construir_grafo_de "indice vulnerabilidade" df limiar.

Definition calcular_estatisticas_por_grupo (df : DataFrame) (membership : list nat)
  : result (DataFrame * list estatistica) :=
  estatisticas_por_grupo "grupo leiden" "indice vulnerabilidade" df membership.

End Leiden.

(** A transliteration for tests: the identity, which is what
    [unidecode] is on ASCII text. *)
Definition unidecode_ascii (s : string) : string := s.

(** Stand-ins for the float printer and the number reader in examples
    whose cells never reach them. *)
Definition str_float_nulo (x : Q) : string := EmptyString.
Definition to_numeric_nulo (s : string) : option Q := None.

(** ** Predicates and sample inputs used in the statements *)

(** No text in the three numeric columns of a row of the first script. *)
Definition linha_numerica (cols : list string) (row : list valor) : Prop :=
  forall c, In c Fastgreedy.colunas_criticas ->
    forall v, celula cols row c = Ok v -> is_str v = false.

(** Some required column is not in the header. *)
Definition falta_coluna (obrigatorias cols : list string) : Prop :=
  exists c, In c obrigatorias /\ tem_coluna c cols = false.


(** The frame that the loader of the first script hands back when
    the columns sit at positions [k0] ... [k4] of the sheet. *)
Definition preparada (str_float : Q -> string) (df : DataFrame) (k0 k1 k2 k3 k4 : nat)
  : DataFrame :=
  mkDF Fastgreedy.colunas
       (map (fun row =>
               [ Str (strip (Fastgreedy.astype_str str_float (nth k0 row NaN)));
                 Str (strip (Fastgreedy.astype_str str_float (nth k1 row NaN)));
                 nth k2 row NaN; nth k3 row NaN; nth k4 row NaN ])
            (values df)).

(** The pairs (i, j), i < j < n, whose matrix entry reaches the
    threshold, each with that entry, in the order the loops visit them. *)
Definition candidatos (m : matriz) (limiar : Q) (i : nat) (js : list nat)
  : list ((nat * nat) * Q) :=
  flat_map (fun j => match entrada m i j with
                     | Some sim => if Qle_bool limiar sim then [((i, j), sim)] else []
                     | None => []
                     end) js.

Definition arestas_pesadas (m : matriz) (limiar : Q) (n : nat) : list ((nat * nat) * Q) :=
  flat_map (fun i => candidatos m limiar i (seq (S i) (n - S i))) (seq 0 n).

(** [g] joins [i] and [j] by an edge of weight [w]; in an undirected
    graph the order of the endpoints of the stored pair is immaterial. *)
Definition tem_aresta (g : Graph) (i j : nat) (w : Q) : Prop :=
  exists k a b,
    nth_error (es g) k = Some (a, b) /\
    nth_error (es_weight g) k = Some w /\
    ((a = i /\ b = j) \/ (directed g = false /\ a = j /\ b = i)).

Definition mesmos_extremos (e1 e2 : nat * nat) : Prop :=
  e1 = e2 \/ e1 = (snd e2, fst e2).

(** Undirected, one weight per edge, symmetric, without loops and
    without two edges on the same pair of vertices. *)
Definition grafo_simples (g : Graph) : Prop :=
  directed g = false /\
  List.length (es_weight g) = List.length (es g) /\
  (forall i j w, tem_aresta g i j w -> tem_aresta g j i w) /\
  (forall i w, ~ tem_aresta g i i w) /\
  (forall k1 k2 e1 e2,
     nth_error (es g) k1 = Some e1 -> nth_error (es g) k2 = Some e2 ->
     mesmos_extremos e1 e2 -> k1 = k2).

(** A detector that puts every vertex in a community of its own. *)
Definition detector_unitario (g : Graph) : list nat := seq 0 (vcount g).

(** Three respondents of the first script: the first two differ in four
    of the five fields, the third lies half way between them. *)
Definition planilha_tres : DataFrame :=
  mkDF Fastgreedy.colunas
       [ [Str "alugada"; Str "onibus"; Num 0; Num 0; Num 0];
         [Str "quitada"; Str "carro"; Num 1000; Num 1000; Num 0];
         [Str "alugada"; Str "carro"; Num 500; Num 500; Num 0] ].

(** Two respondents with the same answers. *)
Definition planilha_identicos : DataFrame :=
  mkDF Fastgreedy.colunas
       [ [Str "alugada"; Str "onibus"; Num 800; Num 400; Num 5000];
         [Str "alugada"; Str "onibus"; Num 800; Num 400; Num 5000] ].

(** Two respondents that differ in every field. *)
Definition planilha_opostos : DataFrame :=
  mkDF Fastgreedy.colunas
       [ [Str "alugada"; Str "onibus"; Num 0; Num 0; Num 0];
         [Str "quitada"; Str "carro"; Num 1000; Num 1000; Num 90000] ].

(** A sheet of the second script whose only respondent left the income
    blank. *)
Definition planilha_leiden_sem_renda : DataFrame :=
  mkDF Leiden.colunas_obrigatorias
       [ [Num 17; Str "escola publica"; Str "aluguel"; Str "propria";
          Num 0; NaN; Num 30000; Num 0; Num 1; Str "onibus"] ].

(** A sheet of the first script whose second respondent left the
    income blank. *)
Definition planilha_sem_renda : DataFrame :=
  mkDF Fastgreedy.colunas
       [ [Str "alugada"; Str "onibus"; Num 800; Num 400; Num 5000];
         [Str "quitada"; Str "carro"; NaN; Num 400; Num 5000] ].



(** Two annotated frames, one whose index column holds a text. *)
Definition planilha_indice_numerico : DataFrame :=
  mkDF ["ID_DISCENTE"%string; "Indice Vulnerabilidade"%string]
       [[Num 0; Num 40]; [Num 1; Num 55]].

Definition planilha_indice_texto : DataFrame :=
  mkDF ["ID_DISCENTE"%string; "Indice Vulnerabilidade"%string]
       [[Num 0; Num 40]; [Num 1; Str "sem indice"]].


(** * Properties *)

(** ** The error monad and the list utilities *)

Lemma bind_Ok_inv (A B : Type) (m : result A) (k : A -> result B) (b : B) :
  bind m k = Ok b -> exists a, m = Ok a /\ k a = Ok b.
Proof.
  destruct m as [a | e]; simpl; intros H.
  - exists a. split; [reflexivity | exact H].
  - discriminate H.
Qed.

Lemma mapM_Ok_Forall2 (A B : Type) (f : A -> result B) (l : list A) (l' : list B) :
  mapM f l = Ok l' -> Forall2 (fun a b => f a = Ok b) l l'.
Proof.
  revert l'. induction l as [| a t IH]; simpl; intros l' H.
  - injection H as <-. constructor.
  - destruct (f a) as [b | e] eqn:Ea; [| discriminate H].
    destruct (mapM f t) as [bs | e] eqn:Et; [| discriminate H].
    injection H as <-. constructor; [exact Ea | apply IH; reflexivity].
Qed.

Lemma mapM_total (A B : Type) (f : A -> result B) (l : list A) :
  (forall a, In a l -> exists b, f a = Ok b) -> exists l', mapM f l = Ok l'.
Proof.
  induction l as [| a t IH]; simpl; intros H.
  - eexists; reflexivity.
  - destruct (H a (or_introl eq_refl)) as [b ->].
    destruct IH as [bs ->]; [intros x Hx; apply H; right; exact Hx |].
    eexists; reflexivity.
Qed.

Lemma mapM_Raise_first (A B : Type) (f : A -> result B) (l : list A) (e : excecao) :
  mapM f l = Raise e -> exists a, In a l /\ f a = Raise e.
Proof.
  induction l as [| a t IH]; simpl; intros H; [discriminate H |].
  destruct (f a) as [b | e'] eqn:Ea.
  - destruct (mapM f t) as [bs | e''] eqn:Et; [discriminate H |].
    injection H as <-. destruct (IH eq_refl) as [x [Hx Hf]].
    exists x. split; [right; exact Hx | exact Hf].
  - injection H as <-. exists a. split; [left; reflexivity | exact Ea].
Qed.

Lemma posicao_Some (c : string) (cols : list string) (k : nat) :
  posicao c cols = Some k -> (k < List.length cols)%nat /\ nth_error cols k = Some c.
Proof.
  revert k. induction cols as [| h t IH]; simpl; intros k H; [discriminate H |].
  destruct (String.eqb c h) eqn:E.
  - injection H as <-. apply String.eqb_eq in E. subst h. split; [lia | reflexivity].
  - destruct (posicao c t) as [k' |]; [| discriminate H].
    injection H as <-. destruct (IH k' eq_refl) as [Hlt Hn].
    split; [lia | exact Hn].
Qed.

Lemma posicao_None (c : string) (cols : list string) :
  posicao c cols = None <-> tem_coluna c cols = false.
Proof.
  unfold tem_coluna. induction cols as [| h t IH]; simpl; [tauto |].
  destruct (String.eqb c h); simpl.
  - split; discriminate.
  - destruct (posicao c t); simpl in *; [| exact IH].
    split; [discriminate |]. intros H. apply IH in H. discriminate H.
Qed.

Lemma posicao_app_novo (c : string) (cols : list string) :
  posicao c cols = None -> posicao c (cols ++ [c]) = Some (List.length cols).
Proof.
  induction cols as [| h t IH]; simpl; intros H.
  - rewrite String.eqb_refl. reflexivity.
  - destruct (String.eqb c h); [discriminate H |].
    destruct (posicao c t); [discriminate H |].
    rewrite IH; reflexivity.
Qed.

Lemma alinhar_length (w : nat) (row : list valor) : List.length (alinhar w row) = w.
Proof.
  unfold alinhar. rewrite length_firstn, length_app, repeat_length. lia.
Qed.

Lemma nth_substituir (A : Type) (k : nat) (x d : A) (l : list A) :
  (k < List.length l)%nat -> nth k (substituir k x l) d = x.
Proof.
  revert k. induction l as [| a t IH]; simpl; intros k H; [lia |].
  destruct k as [| k']; simpl; [reflexivity |]. apply IH. lia.
Qed.

(** Reading back a column that was just assigned gives, row by row,
    the assigned values. *)
Lemma atribuir_coluna_le (df df' : DataFrame) (c : string) (col : list valor) :
  atribuir_coluna df c col = Ok df' ->
  List.length (values df') = List.length col /\
  forall i row, nth_error (values df') i = Some row ->
    exists v, nth_error col i = Some v /\ celula (columns df') row c = Ok v.
Proof.
  unfold atribuir_coluna, len. intros H.
  destruct (List.length col =? List.length (values df))%nat eqn:El; simpl in H; [| discriminate H].
  apply Nat.eqb_eq in El.
  destruct (posicao c (columns df)) as [k |] eqn:Ep; injection H as <-; simpl.
  - split; [rewrite length_map, length_combine; lia |].
    intros i row Hi. rewrite nth_error_map in Hi.
    destruct (nth_error (combine (values df) col) i) as [[r v] |] eqn:Ec; [| discriminate Hi].
    injection Hi as <-. simpl.
    exists v. split.
    + clear -Ec. revert col i Ec. generalize (values df) as rs.
      induction rs as [| r0 rs IH]; intros [| v0 col] [| i] Ec; simpl in *; try discriminate.
      * injection Ec as _ <-. reflexivity.
      * eapply IH; exact Ec.
    + unfold celula. rewrite Ep. f_equal. apply nth_substituir.
      rewrite alinhar_length. apply (posicao_Some _ _ Ep).
  - split; [rewrite length_map, length_combine; lia |].
    intros i row Hi. rewrite nth_error_map in Hi.
    destruct (nth_error (combine (values df) col) i) as [[r v] |] eqn:Ec; [| discriminate Hi].
    injection Hi as <-. simpl.
    exists v. split.
    + clear -Ec. revert col i Ec. generalize (values df) as rs.
      induction rs as [| r0 rs IH]; intros [| v0 col] [| i] Ec; simpl in *; try discriminate.
      * injection Ec as _ <-. reflexivity.
      * eapply IH; exact Ec.
    + unfold celula. rewrite (posicao_app_novo _ _ Ep). f_equal.
      rewrite app_nth2; rewrite alinhar_length; [| lia].
      rewrite Nat.sub_diag. reflexivity.
Qed.

Lemma Forall2_nth_error_r (A B : Type) (R : A -> B -> Prop) (l : list A) (l' : list B)
    (i : nat) (b : B) :
  Forall2 R l l' -> nth_error l' i = Some b -> exists a, nth_error l i = Some a /\ R a b.
Proof.
  intros H. revert i. induction H as [| a0 b0 l l' Hab _ IH]; intros [| i] Hi; simpl in *;
    try discriminate.
  - injection Hi as <-. exists a0. split; [reflexivity | exact Hab].
  - apply IH. exact Hi.
Qed.

(** ** Bounds of the scoring functions *)

(** Case analysis on every test of a banded score. *)
Ltac faixas H :=
  repeat match type of H with
         | context [if ?b then _ else _] => destruct b
         end;
  try discriminate H; injection H as <-; lia.

Module FastgreedyFacts.
Import Fastgreedy.

Lemma pontos_renda_limites (r : valor) (a : Z) :
  pontos_renda r = Ok a -> (0 <= a <= 40)%Z.
Proof. unfold pontos_renda. destruct r; intros H; faixas H. Qed.

Lemma pontos_moradia_limites (m : valor) (b : Z) :
  pontos_moradia m = Ok b -> (0 <= b <= 15)%Z.
Proof. unfold pontos_moradia. destruct m; intros H; faixas H. Qed.

Lemma pontos_despesas_limites (dp rp : valor) (c : Z) :
  pontos_despesas dp rp = Ok c -> (0 <= c <= 10)%Z.
Proof.
  unfold pontos_despesas. intros H.
  destruct (isna dp || isna rp || igual_zero rp); [injection H as <-; lia |].
  destruct dp, rp; faixas H.
Qed.

Lemma pontos_bens_limites (v : valor) (d : Z) :
  pontos_bens v = Ok d -> (0 <= d <= 15)%Z.
Proof. unfold pontos_bens. destruct v; intros H; faixas H. Qed.

(** The index of a row is the sum of four bounded contributions. *)
Lemma pontuar_decomposto (cols : list string) (row : list valor) (v : Z) :
  pontuar cols row = Ok v ->
  exists a b c d : Z,
    v = (a + b + c + d)%Z /\
    (0 <= a <= 40)%Z /\ (0 <= b <= 15)%Z /\ (0 <= c <= 10)%Z /\ (0 <= d <= 15)%Z.
Proof.
  unfold pontuar. intros H.
  repeat match type of H with
         | bind _ _ = Ok _ =>
             let x := fresh "x" in
             let Hx := fresh "Hx" in
             apply bind_Ok_inv in H; destruct H as [x [Hx H]]
         end.
  injection H as <-.
  exists x0, x2, x5, x7. split; [reflexivity |].
  repeat split;
    first [ eapply pontos_renda_limites; eassumption
          | eapply pontos_moradia_limites; eassumption
          | eapply pontos_despesas_limites; eassumption
          | eapply pontos_bens_limites; eassumption ].
Qed.

Lemma pontos_renda_total (r : valor) :
  is_str r = false -> exists a, pontos_renda r = Ok a.
Proof.
  unfold pontos_renda. destruct r; simpl; intros H; try discriminate H;
    repeat match goal with |- context [if ?b then _ else _] => destruct b end;
    eexists; reflexivity.
Qed.

Lemma pontos_bens_total (r : valor) :
  is_str r = false -> exists a, pontos_bens r = Ok a.
Proof.
  unfold pontos_bens. destruct r; simpl; intros H; try discriminate H;
    repeat match goal with |- context [if ?b then _ else _] => destruct b end;
    eexists; reflexivity.
Qed.

Lemma pontos_despesas_total (dp rp : valor) :
  is_str dp = false -> is_str rp = false -> exists a, pontos_despesas dp rp = Ok a.
Proof.
  unfold pontos_despesas. destruct dp, rp; simpl; intros H1 H2; try discriminate;
    repeat match goal with |- context [if ?b then _ else _] => destruct b end;
    eexists; reflexivity.
Qed.

Lemma pontos_moradia_total (m : valor) : exists a, pontos_moradia m = Ok a.
Proof.
  unfold pontos_moradia. destruct m;
    repeat match goal with |- context [if ?b then _ else _] => destruct b end;
    eexists; reflexivity.
Qed.

(** On a row that has the five columns and no text in the numeric
    ones, the index is computed: nothing is raised. *)
Lemma pontuar_total (cols : list string) (row : list valor) :
  (forall c, In c colunas -> tem_coluna c cols = true) ->
  linha_numerica cols row ->
  exists v, pontuar cols row = Ok v.
Proof.
  intros Hc Hn. unfold pontuar.
  assert (Hcel : forall c, In c colunas -> exists x, celula cols row c = Ok x).
  { intros c Hin. unfold celula.
    destruct (posicao c cols) eqn:E; [eexists; reflexivity |].
    apply posicao_None in E. rewrite (Hc c Hin) in E. discriminate E. }
  destruct (Hcel "Renda per capita"%string) as [r Hr]; [simpl; tauto |].
  destruct (Hcel col_moradia) as [m Hm]; [simpl; tauto |].
  destruct (Hcel "Despesas per capita"%string) as [dp Hdp]; [simpl; tauto |].
  destruct (Hcel "Valor Total dos bens familiares"%string) as [b Hb]; [simpl; tauto |].
  rewrite Hr. simpl.
  destruct (pontos_renda_total r) as [a ->]; [eapply Hn; [| exact Hr]; simpl; tauto |].
  simpl. rewrite Hm. simpl.
  destruct (pontos_moradia_total m) as [a' ->]. simpl.
  rewrite Hdp. simpl.
  destruct (pontos_despesas_total dp r) as [a'' ->];
    [eapply Hn; [| exact Hdp]; simpl; tauto | eapply Hn; [| exact Hr]; simpl; tauto |].
  simpl. rewrite Hb. simpl.
  destruct (pontos_bens_total b) as [a''' ->]; [eapply Hn; [| exact Hb]; simpl; tauto |].
  simpl. eexists; reflexivity.
Qed.

End FastgreedyFacts.

Module LeidenFacts.
Import Leiden.

Section Externas.

Variable unidecode : string -> string.
Variable str_float : Q -> string.

Lemma pontos_renda_limites_leiden (r : valor) (a : Z) :
  pontos_renda r = Ok a -> (0 <= a <= 40)%Z.
Proof. unfold pontos_renda. destruct r; intros H; faixas H. Qed.

Lemma pontos_moradia_limites_leiden (ma mf : valor) (b : Z) :
  pontos_moradia unidecode ma mf = Ok b -> (0 <= b <= 15)%Z.
Proof. unfold pontos_moradia. intros H; faixas H. Qed.

Lemma pontos_procedencia_limites_leiden (e : valor) (c : Z) :
  pontos_procedencia unidecode e = Ok c -> (0 <= c <= 10)%Z.
Proof. unfold pontos_procedencia. destruct e; intros H; faixas H. Qed.

Lemma pontos_bens_limites_leiden (v : valor) (d : Z) :
  pontos_bens v = Ok d -> (0 <= d <= 15)%Z.
Proof. unfold pontos_bens. destruct v; intros H; faixas H. Qed.

Lemma pontos_savs_limites_leiden (cols : list string) (row : list valor) (s : Z) :
  pontos_savs unidecode str_float cols row = Ok s -> (0 <= s <= 20)%Z.
Proof.
  unfold pontos_savs. intros H.
  apply bind_Ok_inv in H. destruct H as [doente [_ H]].
  apply bind_Ok_inv in H. destruct H as [filhos [_ H]].
  faixas H.
Qed.

(** The raw sum of a row is the sum of five bounded contributions. *)
Lemma pontuar_decomposto_leiden (cols : list string) (row : list valor) (v : Z) :
  pontuar unidecode str_float cols row = Ok v ->
  exists a b c d s : Z,
    v = (a + b + c + d + s)%Z /\
    (0 <= a <= 40)%Z /\ (0 <= b <= 15)%Z /\ (0 <= c <= 10)%Z /\
    (0 <= d <= 15)%Z /\ (0 <= s <= 20)%Z.
Proof.
  unfold pontuar. intros H.
  repeat match type of H with
         | bind _ _ = Ok _ =>
             let x := fresh "x" in
             let Hx := fresh "Hx" in
             apply bind_Ok_inv in H; destruct H as [x [Hx H]]
         end.
  injection H as <-.
  exists x0, x3, x5, x7, x8. split; [reflexivity |].
  repeat split;
    first [ eapply pontos_renda_limites_leiden; eassumption
          | eapply pontos_moradia_limites_leiden; eassumption
          | eapply pontos_procedencia_limites_leiden; eassumption
          | eapply pontos_bens_limites_leiden; eassumption
          | eapply pontos_savs_limites_leiden; eassumption ].
Qed.

End Externas.

End LeidenFacts.

(** ** The index column of a frame *)

(** Whatever the per-row score [f] and the final adjustment [g], every
    row of the frame that comes out carries in column [c] the adjusted
    score of a row of the frame that went in. *)
Lemma coluna_de_indices (f : list valor -> result Z) (g : Z -> Z) (c : string)
    (df df' : DataFrame) :
  bind (mapM f (values df))
       (fun zs => atribuir_coluna df c (map (fun z => Num (inject_Z (g z))) zs)) = Ok df' ->
  forall row', In row' (values df') ->
    exists row z, In row (values df) /\ f row = Ok z /\
                  celula (columns df') row' c = Ok (Num (inject_Z (g z))).
Proof.
  intros H row' Hin.
  apply bind_Ok_inv in H. destruct H as [zs [Hm Ha]].
  apply mapM_Ok_Forall2 in Hm.
  apply atribuir_coluna_le in Ha. destruct Ha as [_ Ha].
  apply In_nth_error in Hin. destruct Hin as [i Hi].
  destruct (Ha i row' Hi) as [v [Hv Hc]].
  rewrite nth_error_map in Hv.
  destruct (nth_error zs i) as [z |] eqn:Ez; [| discriminate Hv].
  injection Hv as <-.
  destruct (Forall2_nth_error_r i Hm Ez) as [row [Hr Hf]].
  exists row, z. split; [eapply nth_error_In; exact Hr |]. split; assumption.
Qed.

(** The assignment of the index column cannot fail: one score per row. *)
Lemma coluna_de_indices_total (f : list valor -> result Z) (g : Z -> Z) (c : string)
    (df : DataFrame) :
  (forall row, In row (values df) -> exists z, f row = Ok z) ->
  exists df',
    bind (mapM f (values df))
         (fun zs => atribuir_coluna df c (map (fun z => Num (inject_Z (g z))) zs)) = Ok df'.
Proof.
  intros H. destruct (mapM_total f (values df) H) as [zs Hz].
  rewrite Hz. simpl. unfold atribuir_coluna, len.
  pose proof (mapM_Ok_Forall2 _ _ Hz) as HF. apply Forall2_length in HF.
  rewrite length_map, <- HF, Nat.eqb_refl. simpl.
  destruct (posicao c (columns df)); eexists; reflexivity.
Qed.

(** ** The index: worked example and bounds *)

Local Open Scope Q_scope.

Lemma tres_vezes (rp : Q) : ~ rp == 0 -> Qlt_bool 2.0 (3 * rp / rp) = true.
Proof.
  intros Hrp. unfold Qlt_bool.
  destruct (Qle_bool (3 * rp / rp) 2.0) eqn:E; [| reflexivity].
  apply Qle_bool_iff in E. rewrite Qdiv_mult_l in E by exact Hrp.
  exfalso. revert E. unfold Qle. simpl. lia.
Qed.

(** C6. Under the rules of the first script a respondent with income
    per head 0, housing "alugada" and family assets 0 scores
    40 + 15 + 10 + 15 = 80: 40 for the income, 15 for the housing,
    10 for the expenses (whatever they are, since the income is 0, and
    likewise whenever the expenses are three times the income),
    15 for the assets.  [calcular_indice_vulnerabilidade] writes that
    80 in the index column of the respondent's row, after the answers,
    which it leaves as they are; and it does so row by row, next to a
    respondent with another score. *)
Theorem exemplo_indice_80 :
  Fastgreedy.pontos_renda (Num 0) = Ok 40%Z /\
  Fastgreedy.pontos_moradia (Str "alugada") = Ok 15%Z /\
  (forall dp, Fastgreedy.pontos_despesas dp (Num 0) = Ok 10%Z) /\
  (forall rp, Fastgreedy.pontos_despesas (Num (3 * rp)) (Num rp) = Ok 10%Z) /\
  Fastgreedy.pontos_bens (Num 0) = Ok 15%Z /\
  (forall dp transporte,
     Fastgreedy.pontuar Fastgreedy.colunas
       [Str "alugada"; transporte; Num 0; dp; Num 0] = Ok (40 + 15 + 10 + 15)%Z) /\
  (40 + 15 + 10 + 15 = 80)%Z /\
  (forall dp transporte,
     Fastgreedy.calcular_indice_vulnerabilidade
       (mkDF Fastgreedy.colunas [[Str "alugada"; transporte; Num 0; dp; Num 0]])
     = Ok (mkDF (Fastgreedy.colunas ++ ["Indice Vulnerabilidade"%string])
             [[Str "alugada"; transporte; Num 0; dp; Num 0; Num (inject_Z 80)]])) /\
  (forall dp transporte,
     Fastgreedy.calcular_indice_vulnerabilidade
       (mkDF Fastgreedy.colunas
          [ [Str "quitada"; Str "carro"; Num 1000; Num 1000; Num 90000];
            [Str "alugada"; transporte; Num 0; dp; Num 0] ])
     = Ok (mkDF (Fastgreedy.colunas ++ ["Indice Vulnerabilidade"%string])
             [ [Str "quitada"; Str "carro"; Num 1000; Num 1000; Num 90000;
                Num (inject_Z 40)];
               [Str "alugada"; transporte; Num 0; dp; Num 0; Num (inject_Z 80)] ])).
Proof.
  repeat split; try reflexivity.
  - intros dp. unfold Fastgreedy.pontos_despesas. destruct dp; reflexivity.
  - intros rp. unfold Fastgreedy.pontos_despesas. simpl.
    destruct (Qeq_bool rp 0) eqn:E; [reflexivity |].
    rewrite tres_vezes; [reflexivity |].
    intros H. apply Qeq_bool_iff in H. rewrite H in E. discriminate E.
  - intros dp transporte. unfold Fastgreedy.pontuar, celula. simpl.
    unfold Fastgreedy.pontos_despesas. destruct dp; reflexivity.
  - intros dp transporte. destruct dp; vm_compute; reflexivity.
  - intros dp transporte. destruct dp; vm_compute; reflexivity.
Qed.



(** The index of the first script is computed, with nothing raised, on
    every frame that has the five columns and no text in the numeric
    ones. *)
Lemma indice_fastgreedy_total (df : DataFrame) :
  (forall c, In c Fastgreedy.colunas -> tem_coluna c (columns df) = true) ->
  (forall row, In row (values df) -> linha_numerica (columns df) row) ->
  exists df', Fastgreedy.calcular_indice_vulnerabilidade df = Ok df'.
Proof.
  intros Hc Hn.
  apply (coluna_de_indices_total (Fastgreedy.pontuar (columns df)) (fun z => z)).
  intros row Hin. apply FastgreedyFacts.pontuar_total; [exact Hc | apply Hn; exact Hin].
Qed.


(** C10. In the second script the raw sum of the five contributions
    of a row is at most 40 + 15 + 10 + 15 + 20 = 100, so the cap
    [clip(upper=100)] changes nothing: the index column is the column
    of the raw sums. *)
Theorem clip_e_identidade
    (unidecode : string -> string) (str_float : Q -> string) (df : DataFrame) :
  (forall row v, Leiden.pontuar unidecode str_float (columns df) row = Ok v ->
     exists a b c d s : Z,
       v = (a + b + c + d + s)%Z /\
       (0 <= a <= 40)%Z /\ (0 <= b <= 15)%Z /\ (0 <= c <= 10)%Z /\
       (0 <= d <= 15)%Z /\ (0 <= s <= 20)%Z /\
       (v <= 100)%Z /\ Leiden.clip_upper 100 v = v) /\
  Leiden.calcular_indice_vulnerabilidade unidecode str_float df =
    bind (mapM (Leiden.pontuar unidecode str_float (columns df)) (values df))
         (fun brutos => atribuir_coluna df "indice vulnerabilidade"
                          (map (fun z => Num (inject_Z z)) brutos)).
Proof.
  assert (Hrow : forall row v,
             Leiden.pontuar unidecode str_float (columns df) row = Ok v ->
             exists a b c d s : Z,
               v = (a + b + c + d + s)%Z /\
               (0 <= a <= 40)%Z /\ (0 <= b <= 15)%Z /\ (0 <= c <= 10)%Z /\
               (0 <= d <= 15)%Z /\ (0 <= s <= 20)%Z /\
               (v <= 100)%Z /\ Leiden.clip_upper 100 v = v).
  { intros row v Hv.
    destruct (LeidenFacts.pontuar_decomposto_leiden _ _ _ _ Hv)
      as [a [b [c [d [s [-> [Ha [Hb [Hc [Hd Hs]]]]]]]]]].
    exists a, b, c, d, s. unfold Leiden.clip_upper.
    repeat split; try assumption; try lia. }
  split; [exact Hrow |].
  unfold Leiden.calcular_indice_vulnerabilidade.
  destruct (mapM (Leiden.pontuar unidecode str_float (columns df)) (values df))
    as [brutos | e] eqn:Em; simpl; [| reflexivity].
  f_equal. apply map_ext_in. intros z Hz.
  apply mapM_Ok_Forall2 in Em.
  apply In_nth_error in Hz. destruct Hz as [i Hi].
  destruct (Forall2_nth_error_r i Em Hi) as [row [_ Hr]].
  destruct (Hrow row z Hr) as [a [b [c [d [s [_ [_ [_ [_ [_ [_ [_ Hclip]]]]]]]]]]]].
  rewrite Hclip. reflexivity.
Qed.


Lemma clip_e_identidade_witness :
  exists a b c d s : Z,
    23%Z = (a + b + c + d + s)%Z /\
    (0 <= a <= 40)%Z /\ (0 <= b <= 15)%Z /\ (0 <= c <= 10)%Z /\
    (0 <= d <= 15)%Z /\ (0 <= s <= 20)%Z /\
    (23 <= 100)%Z /\ Leiden.clip_upper 100 23 = 23%Z.
Proof.
  apply (proj1 (@clip_e_identidade unidecode_ascii str_float_nulo planilha_leiden_sem_renda)
           [Num 17; Str "escola publica"; Str "aluguel"; Str "propria"; Num 0; NaN;
            Num 30000; Num 0; Num 1; Str "onibus"]).
  vm_compute. reflexivity.
Defined.

(** ** Missing and invalid values in the scoring functions *)

(** C3, as stated, fails: a missing expenses value scores 10 in
    [pontos_despesas], not 0, and a text where a number is expected
    makes [pontos_renda] raise. *)
Lemma despesas_ausentes_valem_10 :
  Fastgreedy.pontos_despesas NaN (Num 100) = Ok 10%Z /\
  Fastgreedy.pontos_despesas NaN (Num 100) <> Ok 0%Z /\
  Fastgreedy.pontos_renda (Str "abc") = Raise TypeError.
Proof.
  repeat split. intros H. discriminate H.
Qed.

(** C3, amended. A missing value (NaN) scores 0 in [pontos_renda] and
    [pontos_bens], and any value that is not a string scores 0 in
    [pontos_moradia]; in [pontos_despesas] a missing expenses or income
    value scores 10.  None of the four raises on such a value.  The
    same holds in the second script for its [pontos_renda], [pontos_bens]
    and two-argument [pontos_moradia]. *)
Theorem pontos_com_valor_ausente (unidecode : string -> string) :
  Fastgreedy.pontos_renda NaN = Ok 0%Z /\
  Fastgreedy.pontos_bens NaN = Ok 0%Z /\
  (forall m, is_str m = false -> Fastgreedy.pontos_moradia m = Ok 0%Z) /\
  (forall dp rp, isna dp = true \/ isna rp = true ->
     Fastgreedy.pontos_despesas dp rp = Ok 10%Z) /\
  Leiden.pontos_renda NaN = Ok 0%Z /\
  Leiden.pontos_bens NaN = Ok 0%Z /\
  (forall ma mf, is_str ma = false -> is_str mf = false ->
     Leiden.pontos_moradia unidecode ma mf = Ok 0%Z).
Proof.
  repeat split.
  - intros m Hm. destruct m; [reflexivity | reflexivity | discriminate Hm].
  - intros dp rp [H | H]; unfold Fastgreedy.pontos_despesas.
    + rewrite H. reflexivity.
    + rewrite H. rewrite orb_true_r. reflexivity.
  - intros ma mf Ha Hf. destruct ma, mf; try discriminate; reflexivity.
Qed.

Lemma pontos_com_valor_ausente_witness :
  Fastgreedy.pontos_moradia (Num 3) = Ok 0%Z /\
  Fastgreedy.pontos_despesas (Num 250) NaN = Ok 10%Z /\
  Leiden.pontos_moradia unidecode_ascii NaN (Num 2) = Ok 0%Z.
Proof.
  destruct (pontos_com_valor_ausente unidecode_ascii) as [_ [_ [Hm [Hd [_ [_ Hl]]]]]].
  split; [apply Hm; reflexivity |].
  split; [apply Hd; right; reflexivity |].
  apply Hl; reflexivity.
Defined.

(** ** The loaders *)

Lemma tem_coluna_posicao (c : string) (cols : list string) :
  tem_coluna c cols = true -> exists k, posicao c cols = Some k.
Proof.
  intros H. destruct (posicao c cols) as [k |] eqn:E; [exists k; reflexivity |].
  apply posicao_None in E. rewrite H in E. discriminate E.
Qed.

(** The check of the required columns: it passes exactly when all of
    them are there, and otherwise names one that is not. *)
Lemma verificacao_passa (obrigatorias cols : list string) :
  (forall c, In c obrigatorias -> tem_coluna c cols = true) ->
  exists us, mapM (fun col => if tem_coluna col cols then Ok tt
                              else Raise (KeyError col)) obrigatorias = Ok us.
Proof.
  intros H. apply mapM_total. intros c Hc. rewrite (H c Hc). exists tt. reflexivity.
Qed.

Lemma verificacao_falha (obrigatorias cols : list string) :
  falta_coluna obrigatorias cols ->
  exists c, In c obrigatorias /\ tem_coluna c cols = false /\
            mapM (fun col => if tem_coluna col cols then Ok tt
                             else Raise (KeyError col)) obrigatorias = Raise (KeyError c).
Proof.
  intros [c0 [Hin Hc0]].
  destruct (mapM (fun col => if tem_coluna col cols then Ok tt else Raise (KeyError col))
                 obrigatorias) as [us | e] eqn:E.
  - apply mapM_Ok_Forall2 in E.
    apply In_nth_error in Hin. destruct Hin as [i Hi].
    assert (Hlen : (i < List.length us)%nat).
    { rewrite <- (Forall2_length E). apply nth_error_Some. rewrite Hi. discriminate. }
    apply nth_error_Some in Hlen.
    destruct (nth_error us i) as [u |] eqn:Eu; [| contradiction].
    destruct (Forall2_nth_error_r i E Eu) as [c [Hc Hf]].
    rewrite Hi in Hc. injection Hc as <-. rewrite Hc0 in Hf. discriminate Hf.
  - destruct (mapM_Raise_first _ _ E) as [c [Hc Hf]].
    destruct (tem_coluna c cols) eqn:Et; [discriminate Hf |].
    injection Hf as <-. exists c. repeat split; assumption.
Qed.

Lemma In_inserir (x y : nat) (l : list nat) : In y (inserir x l) <-> y = x \/ In y l.
Proof.
  induction l as [| z t IH]; simpl; [intuition |].
  destruct (x <? z)%nat; simpl; [intuition |].
  destruct (x =? z)%nat eqn:E; simpl.
  - apply Nat.eqb_eq in E. subst z. intuition.
  - rewrite IH. intuition.
Qed.

Lemma In_sorted_set (y : nat) (l : list nat) : In y (sorted_set l) <-> In y l.
Proof.
  unfold sorted_set. induction l as [| x t IH]; simpl; [tauto |].
  rewrite In_inserir, IH. intuition.
Qed.

Lemma In_combine_seq (A : Type) (l : list A) (s i : nat) (x : A) :
  In (i, x) (combine (seq s (List.length l)) l) <->
  (s <= i)%nat /\ nth_error l (i - s) = Some x.
Proof.
  revert s. induction l as [| a t IH]; intros s; simpl.
  - split; [tauto |]. intros [_ H]. destruct (i - s)%nat; discriminate H.
  - rewrite IH. split.
    + intros [H | [Hle Hn]].
      * injection H as <- <-. split; [lia |]. rewrite Nat.sub_diag. reflexivity.
      * split; [lia |]. replace (i - s)%nat with (S (i - S s)) by lia. exact Hn.
    + intros [Hle Hn]. destruct (i - s)%nat as [| m] eqn:E.
      * left. injection Hn as <-. f_equal. lia.
      * right. split; [lia |]. replace (i - S s)%nat with m by lia. exact Hn.
Qed.

Lemma In_linhas_na (df : DataFrame) (c : string) (k i : nat) :
  posicao c (columns df) = Some k ->
  (In i (linhas_na df c) <->
   exists row, nth_error (values df) i = Some row /\ isna (nth k row NaN) = true).
Proof.
  intros Hp. unfold linhas_na, len. rewrite Hp. rewrite in_map_iff. split.
  - intros [[i' row] [Hi Hin]]. simpl in Hi. subst i'.
    apply filter_In in Hin. destruct Hin as [Hin Hna]. simpl in Hna.
    apply In_combine_seq in Hin. destruct Hin as [_ Hn].
    rewrite Nat.sub_0_r in Hn. exists row. split; assumption.
  - intros [row [Hn Hna]]. exists (i, row). split; [reflexivity |].
    apply filter_In. split; [| exact Hna].
    apply In_combine_seq. split; [lia |]. rewrite Nat.sub_0_r. exact Hn.
Qed.

Lemma transformar_mkDF (cols : list string) (rows : list (list valor)) (c : string)
    (f : valor -> valor) (k : nat) :
  posicao c cols = Some k ->
  transformar_coluna (mkDF cols rows) c f
  = mkDF cols (map (fun row => substituir k (f (nth k row NaN)) row) rows).
Proof.
  intros H. unfold transformar_coluna. simpl. rewrite H. reflexivity.
Qed.

Lemma transformar_textos (str_float : Q -> string) (rows : list (list valor))
    (k0 k1 k2 k3 k4 : nat) :
  transformar_coluna
    (transformar_coluna
       (mkDF Fastgreedy.colunas
             (map (fun row => map (fun k => nth k row NaN) [k0; k1; k2; k3; k4]) rows))
       (nth 0 Fastgreedy.colunas EmptyString)
       (fun v => Str (strip (Fastgreedy.astype_str str_float v))))
    (nth 1 Fastgreedy.colunas EmptyString)
    (fun v => Str (strip (Fastgreedy.astype_str str_float v)))
  = preparada str_float (mkDF Fastgreedy.colunas rows) k0 k1 k2 k3 k4.
Proof.
  rewrite (@transformar_mkDF _ _ _ _ 0%nat) by reflexivity.
  rewrite (@transformar_mkDF _ _ _ _ 1%nat) by reflexivity.
  unfold preparada. simpl values. rewrite !map_map. reflexivity.
Qed.

(** With its five columns in the sheet, the loader of the first script
    either hands back the prepared frame or raises with the sorted list
    of the rows that miss a critical value. *)
Lemma carregar_dados_forma (str_float : Q -> string) (path : string) (df : DataFrame) :
  (forall c, In c Fastgreedy.colunas -> tem_coluna c (columns df) = true) ->
  exists k0 k1 k2 k3 k4,
    posicao Fastgreedy.col_moradia (columns df) = Some k0 /\
    posicao Fastgreedy.col_transporte (columns df) = Some k1 /\
    posicao "Renda per capita" (columns df) = Some k2 /\
    posicao "Despesas per capita" (columns df) = Some k3 /\
    posicao "Valor Total dos bens familiares" (columns df) = Some k4 /\
    Fastgreedy.carregar_dados str_float path (Planilha df) =
      match sorted_set (flat_map (linhas_na (preparada str_float df k0 k1 k2 k3 k4))
                                 Fastgreedy.colunas_criticas) with
      | [] => Ok (preparada str_float df k0 k1 k2 k3 k4)
      | l => Raise (ValueError_linhas l)
      end.
Proof.
  intros Hc.
  destruct (tem_coluna_posicao _ _ (Hc Fastgreedy.col_moradia ltac:(simpl; tauto))) as [k0 H0].
  destruct (tem_coluna_posicao _ _ (Hc Fastgreedy.col_transporte ltac:(simpl; tauto))) as [k1 H1].
  destruct (tem_coluna_posicao _ _ (Hc "Renda per capita"%string ltac:(simpl; tauto))) as [k2 H2].
  destruct (tem_coluna_posicao _ _ (Hc "Despesas per capita"%string ltac:(simpl; tauto))) as [k3 H3].
  destruct (tem_coluna_posicao _ _ (Hc "Valor Total dos bens familiares"%string ltac:(simpl; tauto)))
    as [k4 H4].
  exists k0, k1, k2, k3, k4. repeat (split; [assumption |]).
  unfold Fastgreedy.carregar_dados.
  destruct (verificacao_passa Fastgreedy.colunas (columns df) Hc) as [us ->].
  cbv beta iota delta [bind].
  unfold selecionar. unfold Fastgreedy.colunas at 1. unfold mapM.
  rewrite H0, H1, H2, H3, H4.
  cbv beta iota.
  rewrite transformar_textos.
  destruct (sorted_set _); reflexivity.
Qed.

Lemma colunas_presentes_ou_falta (obrigatorias cols : list string) :
  (forall c, In c obrigatorias -> tem_coluna c cols = true) \/
  falta_coluna obrigatorias cols.
Proof.
  induction obrigatorias as [| h t IH].
  - left. intros c [].
  - destruct (tem_coluna h cols) eqn:Eh.
    + destruct IH as [IH | [c [Hc Hf]]].
      * left. intros c [<- | Hc]; [exact Eh | apply IH; exact Hc].
      * right. exists c. split; [right; exact Hc | exact Hf].
    + right. exists h. split; [left; reflexivity | exact Eh].
Qed.

(** Row [i] of the prepared frame keeps, in a critical column, the cell
    that the sheet has there. *)
Lemma preparada_critica (str_float : Q -> string) (df : DataFrame) (k0 k1 k2 k3 k4 : nat)
    (c : string) :
  posicao "Renda per capita" (columns df) = Some k2 ->
  posicao "Despesas per capita" (columns df) = Some k3 ->
  posicao "Valor Total dos bens familiares" (columns df) = Some k4 ->
  In c Fastgreedy.colunas_criticas ->
  exists kc kc',
    posicao c (columns df) = Some kc /\
    posicao c (columns (preparada str_float df k0 k1 k2 k3 k4)) = Some kc' /\
    forall row,
      nth kc' [ Str (strip (Fastgreedy.astype_str str_float (nth k0 row NaN)));
                Str (strip (Fastgreedy.astype_str str_float (nth k1 row NaN)));
                nth k2 row NaN; nth k3 row NaN; nth k4 row NaN ] NaN
      = nth kc row NaN.
Proof.
  intros H2 H3 H4 Hc. simpl in Hc.
  destruct Hc as [<- | [<- | [<- | []]]].
  - exists k2, 2%nat. split; [exact H2 | split; [reflexivity | intros row; reflexivity]].
  - exists k3, 3%nat. split; [exact H3 | split; [reflexivity | intros row; reflexivity]].
  - exists k4, 4%nat. split; [exact H4 | split; [reflexivity | intros row; reflexivity]].
Qed.



(** ** The similarity graph *)

Section Laco.

Variable m : matriz.
Variable limiar : Q.

Lemma passo_fold (i : nat) (js : list nat) (acc : list (nat * nat) * list Q) :
  fold_left (passo m limiar i) js acc =
  (fst acc ++ map fst (candidatos m limiar i js),
   snd acc ++ map snd (candidatos m limiar i js)).
Proof.
  revert acc. induction js as [| j t IH]; intros [e w]; simpl.
  - rewrite !app_nil_r. reflexivity.
  - rewrite IH. unfold passo, candidatos. simpl.
    destruct (entrada m i j) as [sim |]; [| reflexivity].
    destruct (Qle_bool limiar sim); [| reflexivity].
    simpl. rewrite <- !app_assoc. reflexivity.
Qed.

Lemma laco_fold (n : nat) (ls : list nat) (acc : list (nat * nat) * list Q) :
  fold_left (fun acc i => fold_left (passo m limiar i) (seq (S i) (n - S i)) acc) ls acc =
  (fst acc ++ map fst (flat_map (fun i => candidatos m limiar i (seq (S i) (n - S i))) ls),
   snd acc ++ map snd (flat_map (fun i => candidatos m limiar i (seq (S i) (n - S i))) ls)).
Proof.
  revert acc. induction ls as [| i t IH]; intros [e w]; simpl.
  - rewrite !app_nil_r. reflexivity.
  - rewrite passo_fold, IH. simpl. rewrite !map_app, <- !app_assoc. reflexivity.
Qed.

(** The two lists the loops build are the two projections of one list
    of weighted pairs. *)
Lemma laco_arestas_pesadas (n : nat) :
  laco m limiar n =
  (map fst (arestas_pesadas m limiar n), map snd (arestas_pesadas m limiar n)).
Proof. unfold laco. rewrite laco_fold. reflexivity. Qed.

Lemma In_candidatos (i : nat) (js : list nat) (a b : nat) (w : Q) :
  In ((a, b), w) (candidatos m limiar i js) <->
  a = i /\ In b js /\ entrada m i b = Some w /\ Qle_bool limiar w = true.
Proof.
  unfold candidatos. rewrite in_flat_map. split.
  - intros [j [Hj Hin]].
    destruct (entrada m i j) as [sim |] eqn:E; [| destruct Hin].
    destruct (Qle_bool limiar sim) eqn:Eq; [| destruct Hin].
    destruct Hin as [H | []]. injection H as <- <- <-. repeat split; assumption.
  - intros [-> [Hb [He Hq]]]. exists b. split; [exact Hb |].
    rewrite He, Hq. left. reflexivity.
Qed.

(** What the loops keep: exactly the pairs i < j < n whose matrix entry
    is a number that reaches the threshold, weighted by that entry. *)
Lemma In_arestas_pesadas (n a b : nat) (w : Q) :
  In ((a, b), w) (arestas_pesadas m limiar n) <->
  (a < b < n)%nat /\ entrada m a b = Some w /\ Qle_bool limiar w = true.
Proof.
  unfold arestas_pesadas. rewrite in_flat_map. split.
  - intros [i [Hi Hin]]. apply In_candidatos in Hin.
    destruct Hin as [-> [Hb [He Hq]]]. apply in_seq in Hi. apply in_seq in Hb.
    repeat split; try assumption; lia.
  - intros [[Hab Hbn] [He Hq]]. exists a. split; [apply in_seq; lia |].
    apply In_candidatos. repeat split; try assumption. apply in_seq. lia.
Qed.

End Laco.

Lemma NoDup_map_flat_map (A B C : Type) (g : B -> C) (key : C -> A)
    (f : A -> list B) (l : list A) :
  NoDup l ->
  (forall a, In a l -> NoDup (map g (f a))) ->
  (forall a b, In a l -> In b (f a) -> key (g b) = a) ->
  NoDup (map g (flat_map f l)).
Proof.
  induction l as [| a t IH]; simpl; intros Hnd Hf Hk; [constructor |].
  inversion Hnd as [| ? ? Hnotin Hnd']; subst.
  rewrite map_app. apply NoDup_app.
  - apply Hf. left. reflexivity.
  - apply IH; [exact Hnd' | intros; apply Hf; right; assumption
              | intros x b Hx Hb; apply (Hk x b); [right; exact Hx | exact Hb]].
  - intros c Hc1 Hc2. apply in_map_iff in Hc1. destruct Hc1 as [b1 [<- Hb1]].
    apply in_map_iff in Hc2. destruct Hc2 as [b2 [Heq Hb2]].
    apply in_flat_map in Hb2. destruct Hb2 as [x [Hx Hb2]].
    apply Hnotin.
    rewrite <- (Hk a b1 (or_introl eq_refl) Hb1), <- Heq.
    rewrite (Hk x b2 (or_intror Hx) Hb2). exact Hx.
Qed.

(** No pair is kept twice. *)
Lemma NoDup_arestas (m : matriz) (limiar : Q) (n : nat) :
  NoDup (map fst (arestas_pesadas m limiar n)).
Proof.
  unfold arestas_pesadas.
  apply (@NoDup_map_flat_map nat ((nat * nat) * Q) (nat * nat) fst fst).
  - apply seq_NoDup.
  - intros i _. unfold candidatos.
    apply (@NoDup_map_flat_map nat ((nat * nat) * Q) (nat * nat) fst snd).
    + apply seq_NoDup.
    + intros j _. destruct (entrada m i j) as [sim |]; [| constructor].
      destruct (Qle_bool limiar sim); simpl; repeat constructor. intros [].
    + intros j [[a b] w] _ Hb.
      destruct (entrada m i j) as [sim |]; [| destruct Hb].
      destruct (Qle_bool limiar sim); [| destruct Hb].
      destruct Hb as [H | []]. injection H as <- <- <-. reflexivity.
  - intros i [[a b] w] _ Hb. apply In_candidatos in Hb. destruct Hb as [-> _]. reflexivity.
Qed.

(** Assigning at least as many values as there are elements keeps the
    first ones, in order. *)
Lemma atribuir_seq_prefixo (A : Type) (k : nat) (vals : list A) (d : A) :
  (k <= List.length vals)%nat -> atribuir_seq k vals d = Some (firstn k vals).
Proof.
  intros Hk. unfold atribuir_seq.
  assert (E : map (fun i => nth (i mod List.length vals) vals d) (seq 0 k) = firstn k vals).
  { apply (@nth_ext _ _ _ (nth (0 mod List.length vals) vals d) d).
    - rewrite length_map, length_seq, firstn_length_le; [reflexivity | exact Hk].
    - intros i Hi. rewrite length_map, length_seq in Hi.
      rewrite (map_nth (fun i => nth (i mod List.length vals) vals d)).
      rewrite seq_nth by exact Hi. simpl.
      rewrite Nat.mod_small by lia.
      rewrite nth_firstn. destruct (Nat.ltb_spec i k); [reflexivity | lia]. }
  rewrite E. destruct vals as [| a t]; [| reflexivity].
  simpl in Hk. destruct k; [reflexivity | lia].
Qed.

Lemma cobertura_cons (a b : nat) (t : list (nat * nat)) :
  cobertura ((a, b) :: t) = Nat.max (S (Nat.max a b)) (cobertura t).
Proof. reflexivity. Qed.

Lemma vcount_limite (edges : list (nat * nat)) (d : bool) (n : nat) :
  (forall a b, In (a, b) edges -> (a < n)%nat /\ (b < n)%nat) ->
  (vcount (ig_Graph edges d) <= n)%nat.
Proof.
  unfold ig_Graph, vcount.
  induction edges as [| [a b] t IH]; intros H; [unfold cobertura; simpl; lia |].
  rewrite cobertura_cons.
  destruct (H a b (or_introl eq_refl)) as [Ha Hb].
  assert (IH' := IH (fun x y Hxy => H x y (or_intror Hxy))). lia.
Qed.

(** Every endpoint of an edge is a vertex. *)
Lemma vcount_cobre (edges : list (nat * nat)) (d : bool) (a b : nat) :
  In (a, b) edges -> (a < vcount (ig_Graph edges d))%nat /\ (b < vcount (ig_Graph edges d))%nat.
Proof.
  unfold ig_Graph, vcount.
  induction edges as [| [x y] t IH]; intros H; [destruct H |].
  rewrite cobertura_cons. destruct H as [H | H].
  - injection H as -> ->. lia.
  - specialize (IH H). lia.
Qed.

(** The graph that [construir_grafo] hands back, in closed form. *)
Lemma construir_grafo_de_forma (c : string) (df df_sim : DataFrame) (limiar : Q) :
  drop_coluna df c = Ok df_sim ->
  let A := arestas_pesadas (gower_matrix (values df_sim)) limiar (len df_sim) in
  construir_grafo_de c df limiar =
  Ok ({| vcount := vcount (ig_Graph (map fst A) false);
         directed := false;
         es := map fst A;
         es_weight := map snd A;
         vs_label := firstn (vcount (ig_Graph (map fst A) false))
                            (map str_nat (seq 0 (len df_sim))) |},
      map snd A).
Proof.
  intros Hd A. unfold construir_grafo_de. rewrite Hd.
  cbv beta iota delta [bind].
  rewrite laco_arestas_pesadas. fold A. cbv zeta. unfold fst at 1, snd at 1.
  unfold set_es_weight.
  replace (List.length (es (ig_Graph (map fst A) false)))
    with (List.length (map snd A)) by (simpl; rewrite !length_map; reflexivity).
  rewrite atribuir_seq_prefixo by lia. rewrite firstn_all.
  unfold set_vs_label. unfold vcount at 1.
  rewrite atribuir_seq_prefixo.
  - reflexivity.
  - rewrite length_map, length_seq. apply (vcount_limite (map fst A) false).
    intros a b Hab. apply in_map_iff in Hab. destruct Hab as [[[a' b'] w] [Heq Hin]].
    simpl in Heq. injection Heq as -> ->. apply In_arestas_pesadas in Hin. lia.
Qed.

(** [construir_grafo] raises only when the index column is not in the
    frame. *)
Lemma construir_grafo_de_total (c : string) (df : DataFrame) (limiar : Q) :
  tem_coluna c (columns df) = true ->
  exists g ws, construir_grafo_de c df limiar = Ok (g, ws).
Proof.
  intros H. destruct (tem_coluna_posicao _ _ H) as [k Hk].
  assert (Hd : drop_coluna df c =
               Ok (mkDF (remover k (columns df)) (map (remover k) (values df)))).
  { unfold drop_coluna. rewrite Hk. reflexivity. }
  rewrite (@construir_grafo_de_forma c df _ limiar Hd). eexists. eexists. reflexivity.
Qed.

Lemma construir_grafo_de_simples (c : string) (df : DataFrame) (limiar : Q)
    (g : Graph) (ws : list Q) :
  construir_grafo_de c df limiar = Ok (g, ws) ->
  grafo_simples g /\ ws = es_weight g.
Proof.
  intros H.
  destruct (drop_coluna df c) as [df_sim | e] eqn:Hd;
    [| unfold construir_grafo_de in H; rewrite Hd in H; discriminate H].
  rewrite (@construir_grafo_de_forma c df _ limiar Hd) in H. cbv zeta in H.
  injection H as <- <-. split; [| reflexivity].
  set (A := arestas_pesadas (gower_matrix (values df_sim)) limiar (len df_sim)).
  assert (Hes : forall k a b, nth_error (map fst A) k = Some (a, b) -> (a < b)%nat).
  { intros k a b Hk. apply nth_error_In in Hk. apply in_map_iff in Hk.
    destruct Hk as [[[a' b'] w] [Heq Hin]]. simpl in Heq. injection Heq as -> ->.
    apply In_arestas_pesadas in Hin. lia. }
  unfold grafo_simples. simpl.
  split; [reflexivity |]. split; [rewrite !length_map; reflexivity |].
  split; [| split].
  - intros i j w [k [a [b [He [Hw Hor]]]]]. exists k, a, b. simpl in *.
    split; [exact He |]. split; [exact Hw |].
    destruct Hor as [[-> ->] | [_ [-> ->]]]; [right | left]; auto.
  - intros i w [k [a [b [He [_ Hor]]]]]. simpl in *.
    apply Hes in He. destruct Hor as [[-> ->] | [_ [-> ->]]]; lia.
  - intros k1 k2 [a1 b1] [a2 b2] H1 H2 [Heq | Heq].
    + apply (proj1 (NoDup_nth_error (map fst A))).
      * apply NoDup_arestas.
      * apply nth_error_Some. rewrite H1. discriminate.
      * rewrite H1, H2, Heq. reflexivity.
    + simpl in Heq. injection Heq as -> ->.
      apply Hes in H1. apply Hes in H2. lia.
Qed.

(** C8. The graph built by [construir_grafo], in either script, is
    undirected and symmetric (an edge between i and j of weight w is an
    edge between j and i of weight w), has no self-loop and no two
    edges on the same pair of vertices; every edge carries one weight. *)
Theorem grafo_nao_direcionado_simples (df : DataFrame) (limiar : Q)
    (g : Graph) (ws : list Q) :
  (Fastgreedy.construir_grafo df limiar = Ok (g, ws) -> grafo_simples g) /\
  (Leiden.construir_grafo df limiar = Ok (g, ws) -> grafo_simples g).
Proof.
  split; intros H; exact (proj1 (construir_grafo_de_simples _ _ _ H)).
Qed.

Lemma grafo_nao_direcionado_simples_witness :
  grafo_simples
    {| vcount := 2; directed := false; es := [(0%nat, 1%nat)];
       es_weight := [4000000 # 5000000]; vs_label := ["0"%string; "1"%string] |}.
Proof.
  apply (proj1 (@grafo_nao_direcionado_simples
           (mkDF (Fastgreedy.colunas ++ ["Indice Vulnerabilidade"%string])
              [ [Str "alugada"; Str "onibus"; Num 0; Num 0; Num 0; Num (inject_Z 80)];
                [Str "quitada"; Str "carro"; Num 1000; Num 1000; Num 0; Num (inject_Z 50)];
                [Str "alugada"; Str "carro"; Num 500; Num 500; Num 0; Num (inject_Z 70)] ])
           SIMILARIDADE_LIMIAR
           {| vcount := 2; directed := false; es := [(0%nat, 1%nat)];
              es_weight := [4000000 # 5000000]; vs_label := ["0"%string; "1"%string] |}
           [4000000 # 5000000])).
  vm_compute. reflexivity.
Defined.

(** The edges and the weights that come out are exactly the pairs
    i < j < n whose entry in the matrix of [gower_matrix], a distance,
    reaches the threshold, each weighted by that entry. *)
Lemma aresta_sse_entrada (c : string) (df df_sim : DataFrame) (limiar : Q)
    (g : Graph) (ws : list Q) :
  drop_coluna df c = Ok df_sim ->
  construir_grafo_de c df limiar = Ok (g, ws) ->
  forall i j w,
    In ((i, j), w) (combine (es g) (es_weight g)) <->
    (i < j < len df_sim)%nat /\
    entrada (gower_matrix (values df_sim)) i j = Some w /\
    Qle_bool limiar w = true.
Proof.
  intros Hd H i j w.
  rewrite (@construir_grafo_de_forma c df _ limiar Hd) in H. cbv zeta in H.
  injection H as <- <-. simpl.
  rewrite <- In_arestas_pesadas.
  set (A := arestas_pesadas (gower_matrix (values df_sim)) limiar (len df_sim)).
  assert (E : combine (map fst A) (map snd A) = A).
  { induction A as [| [e x] t IH]; simpl; [reflexivity | rewrite IH; reflexivity]. }
  rewrite E. tauto.
Qed.

Lemma cobertura_atingida (edges : list (nat * nat)) :
  (0 < cobertura edges)%nat ->
  exists a b, In (a, b) edges /\ cobertura edges = S (Nat.max a b).
Proof.
  induction edges as [| [a b] t IH]; [unfold cobertura; simpl; lia |].
  rewrite cobertura_cons. intros _.
  destruct (Nat.le_gt_cases (cobertura t) (S (Nat.max a b))) as [Hle | Hgt].
  - exists a, b. split; [left; reflexivity | lia].
  - destruct IH as [x [y [Hin Heq]]]; [lia |].
    exists x, y. split; [right; exact Hin | lia].
Qed.

(** The graph never has more vertices than the frame has respondents,
    and it has as many exactly when the frame is empty or the last
    respondent is an endpoint of an edge. *)
Lemma vcount_respondentes (c : string) (df df_sim : DataFrame) (limiar : Q)
    (g : Graph) (ws : list Q) :
  drop_coluna df c = Ok df_sim ->
  construir_grafo_de c df limiar = Ok (g, ws) ->
  (vcount g <= len df_sim)%nat /\
  (vcount g = len df_sim <->
   len df_sim = 0%nat \/ exists a, In (a, (len df_sim - 1)%nat) (es g)).
Proof.
  intros Hd H.
  rewrite (@construir_grafo_de_forma c df _ limiar Hd) in H. cbv zeta in H.
  injection H as <- <-. simpl.
  set (A := arestas_pesadas (gower_matrix (values df_sim)) limiar (len df_sim)).
  assert (Hb : forall a b, In (a, b) (map fst A) -> (a < b < len df_sim)%nat).
  { intros a b Hab. apply in_map_iff in Hab. destruct Hab as [[[a' b'] w] [Heq Hin]].
    simpl in Heq. injection Heq as -> ->. apply In_arestas_pesadas in Hin. lia. }
  assert (Hle : (cobertura (map fst A) <= len df_sim)%nat).
  { apply (vcount_limite (map fst A) false). intros a b Hab. apply Hb in Hab. lia. }
  split; [exact Hle |]. split.
  - intros Heq. destruct (len df_sim) as [| n] eqn:En; [left; reflexivity | right].
    destruct (cobertura_atingida (map fst A)) as [a [b [Hin Hc]]]; [lia |].
    pose proof (Hb a b Hin) as Hab.
    exists a. replace (S n - 1)%nat with b by lia. exact Hin.
  - intros [H0 | [a Ha]]; [lia |].
    pose proof (Hb _ _ Ha) as Hab.
    destruct (vcount_cobre (map fst A) false _ _ Ha) as [_ Hc]. simpl in Hc. lia.
Qed.

(** ** Where the graph departs from the specification *)

(** C1. The matrix of [gower_matrix] holds distances, and
    [construir_grafo] compares them with the threshold as if they were
    similarities.  Two respondents with the same answers have
    similarity 1, which reaches the threshold 0.5, and get no edge;
    two respondents that differ in every field have similarity 0,
    below the threshold, and get an edge of weight 1. *)
Theorem construir_grafo_compara_distancia :
  (exists s, similaridade_spec (values planilha_identicos) 0 1 = Some s /\
             s == 1 /\ Qle_bool SIMILARIDADE_LIMIAR s = true) /\
  (exists g, bind (Fastgreedy.calcular_indice_vulnerabilidade planilha_identicos)
                  (fun df => Fastgreedy.construir_grafo df SIMILARIDADE_LIMIAR)
             = Ok (g, []) /\ es g = []) /\
  (exists s, similaridade_spec (values planilha_opostos) 0 1 = Some s /\
             s == 0 /\ Qle_bool SIMILARIDADE_LIMIAR s = false) /\
  (exists g w, bind (Fastgreedy.calcular_indice_vulnerabilidade planilha_opostos)
                    (fun df => Fastgreedy.construir_grafo df SIMILARIDADE_LIMIAR)
               = Ok (g, [w]) /\ es g = [(0%nat, 1%nat)] /\ es_weight g = [w] /\ w == 1).
Proof.
  split; [| split; [| split]].
  - eexists. split; [vm_compute; reflexivity |]. split; reflexivity.
  - eexists. split; [vm_compute; reflexivity | reflexivity].
  - eexists. split; [vm_compute; reflexivity |]. split; reflexivity.
  - eexists. eexists. split; [vm_compute; reflexivity |].
    split; [reflexivity |]. split; reflexivity.
Qed.

(** C2. With three respondents of whom the last is joined to no
    other, the graph has two vertices, so a detector that labels every
    vertex hands back two labels for three respondents, and the
    assignment of the group column raises: the third respondent is in
    no community. *)
Theorem ultimo_respondente_sem_comunidade
    (str_float : Q -> string) (community_fastgreedy : Graph -> list nat) :
  (forall g, List.length (community_fastgreedy g) = vcount g) ->
  (exists g ws,
     bind (Fastgreedy.calcular_indice_vulnerabilidade planilha_tres)
          (fun df => Fastgreedy.construir_grafo df SIMILARIDADE_LIMIAR) = Ok (g, ws) /\
     vcount g = 2%nat /\ len planilha_tres = 3%nat /\
     List.length (community_fastgreedy g) = 2%nat) /\
  Fastgreedy.principal str_float community_fastgreedy (Planilha planilha_tres)
  = Raise (ValueError_comprimento 2 3).
Proof.
  intros Hcf. split.
  - eexists. eexists. split; [vm_compute; reflexivity |].
    split; [reflexivity |]. split; [reflexivity |]. rewrite Hcf. reflexivity.
  - unfold Fastgreedy.principal.
    set (c := Fastgreedy.carregar_dados _ _ _). vm_compute in c. subst c.
    cbv beta iota delta [bind].
    set (c := Fastgreedy.calcular_indice_vulnerabilidade _). vm_compute in c. subst c.
    cbv beta iota delta [bind].
    set (c := Fastgreedy.construir_grafo _ _). vm_compute in c. subst c.
    cbv beta iota delta [bind fst snd].
    unfold Fastgreedy.rodar_fastgreedy, Fastgreedy.membership.
    unfold Fastgreedy.calcular_estatisticas_por_grupo, estatisticas_por_grupo.
    unfold atribuir_coluna. rewrite length_map, Hcf. reflexivity.
Qed.

Lemma ultimo_respondente_sem_comunidade_witness :
  Fastgreedy.principal str_float_nulo detector_unitario (Planilha planilha_tres)
  = Raise (ValueError_comprimento 2 3).
Proof.
  apply (proj2 (@ultimo_respondente_sem_comunidade str_float_nulo detector_unitario
                  (fun g => length_seq (vcount g) 0))).
Defined.

(** C5. A graph without edges comes out of [construir_grafo] without
    vertices, so a detector that labels every vertex hands back no
    label at all; with two respondents that no edge joins the
    assignment of the group column raises. *)
Theorem grafo_sem_arestas_sem_vertices
    (str_float : Q -> string) (community_fastgreedy : Graph -> list nat) :
  (forall g, List.length (community_fastgreedy g) = vcount g) ->
  (forall df limiar g ws,
     Fastgreedy.construir_grafo df limiar = Ok (g, ws) ->
     es g = [] -> vcount g = 0%nat /\ community_fastgreedy g = []) /\
  (exists g,
     bind (Fastgreedy.calcular_indice_vulnerabilidade planilha_identicos)
          (fun df => Fastgreedy.construir_grafo df SIMILARIDADE_LIMIAR) = Ok (g, []) /\
     es g = [] /\ vcount g = 0%nat /\ len planilha_identicos = 2%nat) /\
  Fastgreedy.principal str_float community_fastgreedy (Planilha planilha_identicos)
  = Raise (ValueError_comprimento 0 2).
Proof.
  intros Hcf. split; [| split].
  - intros df limiar g ws H Hes.
    assert (Hv : vcount g = 0%nat).
    { unfold Fastgreedy.construir_grafo in H.
      destruct (drop_coluna df "Indice Vulnerabilidade") as [df_sim | e] eqn:Hd;
        [| unfold construir_grafo_de in H; rewrite Hd in H; discriminate H].
      rewrite (@construir_grafo_de_forma _ df _ limiar Hd) in H. cbv zeta in H.
      injection H as <- <-. simpl in *. rewrite Hes. reflexivity. }
    split; [exact Hv |].
    specialize (Hcf g). rewrite Hv in Hcf.
    destruct (community_fastgreedy g); [reflexivity | discriminate Hcf].
  - eexists. split; [vm_compute; reflexivity |]. repeat split.
  - unfold Fastgreedy.principal.
    set (c := Fastgreedy.carregar_dados _ _ _). vm_compute in c. subst c.
    cbv beta iota delta [bind].
    set (c := Fastgreedy.calcular_indice_vulnerabilidade _). vm_compute in c. subst c.
    cbv beta iota delta [bind].
    set (c := Fastgreedy.construir_grafo _ _). vm_compute in c. subst c.
    cbv beta iota delta [bind fst snd].
    unfold Fastgreedy.rodar_fastgreedy, Fastgreedy.membership.
    unfold Fastgreedy.calcular_estatisticas_por_grupo, estatisticas_por_grupo.
    unfold atribuir_coluna. rewrite length_map, Hcf. reflexivity.
Qed.

Lemma grafo_sem_arestas_sem_vertices_witness :
  Fastgreedy.principal str_float_nulo detector_unitario (Planilha planilha_identicos)
  = Raise (ValueError_comprimento 0 2).
Proof.
  apply (proj2 (proj2 (@grafo_sem_arestas_sem_vertices str_float_nulo detector_unitario
                         (fun g => length_seq (vcount g) 0)))).
Defined.

(** * Further properties of the two scripts *)

From Stdlib Require Import Lqa Sorted.

Local Open Scope Q_scope.

(** ** The boolean tests on rationals *)

Lemma Qlt_bool_true (a b : Q) : Qlt_bool a b = true <-> a < b.
Proof.
  unfold Qlt_bool. rewrite negb_true_iff. split.
  - intros H. apply Qnot_le_lt. intros Hle. apply Qle_bool_iff in Hle. congruence.
  - intros H. destruct (Qle_bool b a) eqn:E; [| reflexivity].
    apply Qle_bool_iff in E. exfalso. apply (Qlt_not_le _ _ H E).
Qed.

Lemma Qlt_bool_false (a b : Q) : Qlt_bool a b = false <-> b <= a.
Proof.
  unfold Qlt_bool. rewrite negb_false_iff. apply Qle_bool_iff.
Qed.

Lemma Qle_bool_false (a b : Q) : Qle_bool a b = false <-> b < a.
Proof.
  split.
  - intros H. apply Qnot_le_lt. intros Hle. apply Qle_bool_iff in Hle. congruence.
  - intros H. destruct (Qle_bool a b) eqn:E; [| reflexivity].
    apply Qle_bool_iff in E. exfalso. apply (Qlt_not_le _ _ H E).
Qed.

Lemma Qeq_bool_false (a b : Q) : Qeq_bool a b = false <-> ~ a == b.
Proof.
  split.
  - intros H Heq. apply Qeq_bool_iff in Heq. congruence.
  - intros H. destruct (Qeq_bool a b) eqn:E; [| reflexivity].
    apply Qeq_bool_iff in E. contradiction.
Qed.

(** Split on every test in sight and read each outcome as an order
    fact. *)
Ltac testes :=
  repeat match goal with
         | H : context [if ?b then _ else _] |- _ =>
             let E := fresh "E" in destruct b eqn:E
         | |- context [if ?b then _ else _] =>
             let E := fresh "E" in destruct b eqn:E
         end;
  repeat match goal with
         | E : Qlt_bool _ _ = true |- _ => apply Qlt_bool_true in E
         | E : Qlt_bool _ _ = false |- _ => apply Qlt_bool_false in E
         | E : Qle_bool _ _ = true |- _ => apply Qle_bool_iff in E
         | E : Qle_bool _ _ = false |- _ => apply Qle_bool_false in E
         | E : Qeq_bool _ _ = true |- _ => apply Qeq_bool_iff in E
         | E : Qeq_bool _ _ = false |- _ => apply Qeq_bool_false in E
         end.

(** ** Monotonicity of the scores *)

(** X1. In both scripts a higher income per head never scores more
    than a lower one. *)
Theorem pontos_renda_monotona (r1 r2 : Q) (a1 a2 : Z) :
  r1 <= r2 ->
  (Fastgreedy.pontos_renda (Num r1) = Ok a1 -> Fastgreedy.pontos_renda (Num r2) = Ok a2 ->
   (a2 <= a1)%Z) /\
  (Leiden.pontos_renda (Num r1) = Ok a1 -> Leiden.pontos_renda (Num r2) = Ok a2 ->
   (a2 <= a1)%Z).
Proof.
  intros Hr. unfold Fastgreedy.pontos_renda, Leiden.pontos_renda, SALARIO_MINIMO.
  split; intros H1 H2; testes;
    injection H1 as <-; injection H2 as <-; try lia; exfalso; lra.
Qed.

Lemma pontos_renda_monotona_witness :
  ((20 <= 40)%Z) /\ ((30 <= 40)%Z).
Proof.
  split.
  - apply (proj1 (@pontos_renda_monotona 500 2000 40 20 ltac:(unfold Qle; simpl; lia)));
      reflexivity.
  - apply (proj2 (@pontos_renda_monotona 759 1000 40 30 ltac:(unfold Qle; simpl; lia)));
      reflexivity.
Defined.

(** X2. In both scripts, among non-negative values of the family
    assets, a higher value never scores more than a lower one. *)
Theorem pontos_bens_monotona (v1 v2 : Q) (d1 d2 : Z) :
  0 <= v1 -> v1 <= v2 ->
  (Fastgreedy.pontos_bens (Num v1) = Ok d1 -> Fastgreedy.pontos_bens (Num v2) = Ok d2 ->
   (d2 <= d1)%Z) /\
  (Leiden.pontos_bens (Num v1) = Ok d1 -> Leiden.pontos_bens (Num v2) = Ok d2 ->
   (d2 <= d1)%Z).
Proof.
  intros H0 Hv. unfold Fastgreedy.pontos_bens, Leiden.pontos_bens.
  split; intros H1 H2; testes;
    injection H1 as <-; injection H2 as <-; try lia; exfalso; lra.
Qed.

Lemma pontos_bens_monotona_witness :
  ((5 <= 15)%Z) /\ ((10 <= 15)%Z).
Proof.
  split.
  - apply (proj1 (@pontos_bens_monotona 0 50000 15 5 ltac:(unfold Qle; simpl; lia)
                    ltac:(unfold Qle; simpl; lia))); reflexivity.
  - apply (proj2 (@pontos_bens_monotona 0 20000 15 10 ltac:(unfold Qle; simpl; lia)
                    ltac:(unfold Qle; simpl; lia))); reflexivity.
Defined.

(** X3. For a positive income per head, higher expenses per head never
    score less than lower ones in [pontos_despesas]. *)
Theorem pontos_despesas_monotona (dp1 dp2 rp : Q) (c1 c2 : Z) :
  0 < rp -> dp1 <= dp2 ->
  Fastgreedy.pontos_despesas (Num dp1) (Num rp) = Ok c1 ->
  Fastgreedy.pontos_despesas (Num dp2) (Num rp) = Ok c2 ->
  (c1 <= c2)%Z.
Proof.
  intros Hrp Hd. unfold Fastgreedy.pontos_despesas. simpl.
  assert (Hq : dp1 / rp <= dp2 / rp).
  { unfold Qdiv. apply Qmult_le_compat_r; [exact Hd |].
    apply Qlt_le_weak. apply Qinv_lt_0_compat. exact Hrp. }
  revert Hq. generalize (dp1 / rp) (dp2 / rp). intros q1 q2 Hq.
  destruct (Qeq_bool rp 0) eqn:E0.
  - apply Qeq_bool_iff in E0. exfalso. lra.
  - intros H1 H2. testes; injection H1 as <-; injection H2 as <-; try lia; exfalso; lra.
Qed.

Lemma pontos_despesas_monotona_witness : (4 <= 10)%Z.
Proof.
  apply (@pontos_despesas_monotona 120 300 100 4 10);
    [unfold Qlt; simpl; lia | unfold Qle; simpl; lia | reflexivity | reflexivity].
Defined.

(** X4. On every income the second script scores at least what the
    first one scores, and the two agree except at the band limits
    759 and 1518, which the first script counts in the upper band and
    the second in the lower. *)
Theorem pontos_renda_entre_roteiros (r : Q) :
  exists a b : Z,
    Fastgreedy.pontos_renda (Num r) = Ok a /\
    Leiden.pontos_renda (Num r) = Ok b /\
    (a <= b)%Z /\
    (a = b \/ r == 759 \/ r == 1518).
Proof.
  unfold Fastgreedy.pontos_renda, Leiden.pontos_renda, SALARIO_MINIMO.
  testes; eexists; eexists; (split; [reflexivity |]); (split; [reflexivity |]);
    (split; [try lia; exfalso; lra |]);
    first [ left; reflexivity
          | right; left; lra
          | right; right; lra
          | exfalso; lra ].
Qed.

(** ** The social score of the second script *)

(** X5. [pontos_savs] reads its four columns with [row.get], so it
    never raises a KeyError: the only exception it can raise is the
    TypeError of a text compared with 0.  On a row whose header has
    none of the four columns the defaults apply and the score is 5
    (no graduate in the family), given that the transliteration of the
    empty string is empty. *)
Theorem pontos_savs_sem_colunas
    (unidecode : string -> string) (str_float : Q -> string)
    (cols : list string) (row : list valor) :
  (forall e, Leiden.pontos_savs unidecode str_float cols row = Raise e -> e = TypeError) /\
  (unidecode EmptyString = EmptyString ->
   tem_coluna Leiden.col_doenca cols = false ->
   tem_coluna Leiden.col_filhos cols = false ->
   tem_coluna Leiden.col_transporte cols = false ->
   tem_coluna Leiden.col_superior cols = false ->
   Leiden.pontos_savs unidecode str_float cols row = Ok 5%Z).
Proof.
  split.
  - intros e. unfold Leiden.pontos_savs.
    destruct (Leiden.maior_zero (celula_get cols row Leiden.col_doenca (Num 0))) as [b1 | e1] eqn:E1.
    + destruct (Leiden.maior_zero (celula_get cols row Leiden.col_filhos (Num 0))) as [b2 | e2] eqn:E2.
      * simpl. discriminate.
      * simpl. intros H. injection H as <-.
        unfold Leiden.maior_zero in E2.
        destruct (celula_get cols row Leiden.col_filhos (Num 0)); try discriminate E2.
        injection E2 as <-. reflexivity.
    + simpl. intros H. injection H as <-.
      unfold Leiden.maior_zero in E1.
      destruct (celula_get cols row Leiden.col_doenca (Num 0)); try discriminate E1.
      injection E1 as <-. reflexivity.
  - intros Hu Hd Hf Ht Hs. unfold Leiden.pontos_savs, celula_get.
    apply posicao_None in Hd, Hf, Ht, Hs. rewrite Hd, Hf, Ht, Hs.
    simpl. rewrite Hu. reflexivity.
Qed.

Lemma pontos_savs_sem_colunas_witness :
  Leiden.pontos_savs unidecode_ascii str_float_nulo ["id_discente"%string] [Num 17] = Ok 5%Z.
Proof.
  apply (proj2 (pontos_savs_sem_colunas unidecode_ascii str_float_nulo
                  ["id_discente"%string] [Num 17])); reflexivity.
Defined.

(** ** The loader of the second script *)

Lemma substituir_no_lugar (k : nat) (x : valor) (row : list valor) :
  is_str x = false -> is_str (nth k (substituir k x row) NaN) = false.
Proof.
  intros Hx. revert k. induction row as [| a t IH]; intros k; simpl.
  - destruct k; reflexivity.
  - destruct k as [| k']; simpl; [exact Hx | apply IH].
Qed.

Lemma substituir_alhures (k k' : nat) (x : valor) (row : list valor) :
  is_str x = false -> is_str (nth k row NaN) = false ->
  is_str (nth k (substituir k' x row) NaN) = false.
Proof.
  intros Hx. revert k k'. induction row as [| a t IH]; intros k k' Hk; simpl.
  - destruct k, k'; reflexivity.
  - destruct k' as [| k'']; destruct k as [| k0]; simpl in *;
      first [ exact Hx | exact Hk | apply IH; exact Hk ].
Qed.

Lemma to_numeric_fillna_numero (to_numeric_str : string -> option Q) (v : valor) :
  is_str (Leiden.to_numeric_fillna to_numeric_str v) = false.
Proof.
  destruct v as [| x | s]; simpl; try reflexivity.
  destruct (to_numeric_str s); reflexivity.
Qed.

Lemma celula_get_celula (cols : list string) (row : list valor) (c : string) (d v : valor) :
  celula cols row c = Ok v -> celula_get cols row c d = v.
Proof.
  unfold celula, celula_get. destruct (posicao c cols); intros H; [| discriminate H].
  injection H as <-. reflexivity.
Qed.

Lemma leiden_carregada_forma
    (unidecode : string -> string) (to_numeric_str : string -> option Q)
    (path : string) (df df' : DataFrame) :
  Leiden.carregar_dados unidecode to_numeric_str path (Planilha df) = Ok df' ->
  exists k1 k2 k3 k4 k5,
    let cols := map (fun col => unidecode (lower (strip col))) (columns df) in
    let f := Leiden.to_numeric_fillna to_numeric_str in
    let t := fun k row => substituir k (f (nth k row NaN)) row in
    (forall c, In c Leiden.colunas_obrigatorias -> tem_coluna c cols = true) /\
    posicao Leiden.col_renda cols = Some k1 /\
    posicao Leiden.col_bens cols = Some k2 /\
    posicao Leiden.col_filhos cols = Some k3 /\
    posicao Leiden.col_doenca cols = Some k4 /\
    posicao Leiden.col_superior cols = Some k5 /\
    df' = mkDF cols
            (filter (fun row => match nth k1 row NaN with
                                | Num x => Qle_bool x (1.5 * SALARIO_MINIMO)
                                | _ => false
                                end)
                    (map (fun row => t k5 (t k4 (t k3 (t k2 (t k1 row))))) (values df))).
Proof.
  intros H. unfold Leiden.carregar_dados in H. cbv zeta in H. unfold columns at 1 in H.
  set (cols := map (fun col => unidecode (lower (strip col))) (columns df)) in *.
  destruct (colunas_presentes_ou_falta Leiden.colunas_obrigatorias cols) as [Hc | Hf].
  - destruct (verificacao_passa _ _ Hc) as [us Hm]. rewrite Hm in H.
    cbv beta iota delta [bind] in H.
    match type of H with
    | match ?chk with _ => _ end = _ => destruct chk as [us' | e']; [| discriminate H]
    end.
    destruct (tem_coluna_posicao _ _ (Hc Leiden.col_renda ltac:(simpl; tauto))) as [k1 H1].
    destruct (tem_coluna_posicao _ _ (Hc Leiden.col_bens ltac:(simpl; tauto))) as [k2 H2].
    destruct (tem_coluna_posicao _ _ (Hc Leiden.col_filhos ltac:(simpl; tauto))) as [k3 H3].
    destruct (tem_coluna_posicao _ _ (Hc Leiden.col_doenca ltac:(simpl; tauto))) as [k4 H4].
    destruct (tem_coluna_posicao _ _ (Hc Leiden.col_superior ltac:(simpl; tauto))) as [k5 H5].
    exists k1, k2, k3, k4, k5. cbv zeta.
    repeat (split; [assumption |]).
    rewrite (@transformar_mkDF cols _ _ _ k1 H1) in H.
    rewrite (@transformar_mkDF cols _ _ _ k2 H2) in H.
    rewrite (@transformar_mkDF cols _ _ _ k3 H3) in H.
    rewrite (@transformar_mkDF cols _ _ _ k4 H4) in H.
    rewrite (@transformar_mkDF cols _ _ _ k5 H5) in H.
    unfold Leiden.filtrar_le in H. unfold columns at 1 in H. rewrite H1 in H.
    simpl columns in H. simpl values in H.
    injection H as <-. rewrite !map_map. reflexivity.
  - destruct (verificacao_falha Hf) as [c [_ [_ Hm]]]. rewrite Hm in H. discriminate H.
Qed.

(** What a row looks like when it comes out of the loader of the second
    script: every required column can be read, the income is a number
    no greater than one and a half minimum wages, and the other four
    coerced columns hold no text. *)
Lemma leiden_linha_carregada
    (unidecode : string -> string) (to_numeric_str : string -> option Q)
    (path : string) (df df' : DataFrame) :
  Leiden.carregar_dados unidecode to_numeric_str path (Planilha df) = Ok df' ->
  (forall c, In c Leiden.colunas_obrigatorias -> tem_coluna c (columns df') = true) /\
  (List.length (values df') <= List.length (values df))%nat /\
  forall row, In row (values df') ->
    (exists x, celula (columns df') row Leiden.col_renda = Ok (Num x) /\
               x <= 1.5 * SALARIO_MINIMO) /\
    (forall c, In c [Leiden.col_bens; Leiden.col_filhos; Leiden.col_doenca;
                     Leiden.col_superior] ->
       exists v, celula (columns df') row c = Ok v /\ is_str v = false).
Proof.
  intros H.
  destruct (leiden_carregada_forma _ _ _ _ H)
    as [k1 [k2 [k3 [k4 [k5 [Hc [H1 [H2 [H3 [H4 [H5 ->]]]]]]]]]]].
  cbv zeta in *. simpl columns. simpl values.
  set (f := Leiden.to_numeric_fillna to_numeric_str).
  set (t := fun k row => substituir k (f (nth k row NaN)) row).
  assert (A : forall k row, is_str (nth k (t k row) NaN) = false).
  { intros k row. apply substituir_no_lugar. apply to_numeric_fillna_numero. }
  assert (B : forall k k' row, is_str (nth k row NaN) = false ->
                               is_str (nth k (t k' row) NaN) = false).
  { intros k k' row. apply substituir_alhures. apply to_numeric_fillna_numero. }
  split; [exact Hc |]. split.
  - etransitivity; [apply filter_length_le |]. rewrite length_map. apply Nat.le_refl.
  - intros row Hrow. apply filter_In in Hrow. destruct Hrow as [Hin Hp].
    apply in_map_iff in Hin. destruct Hin as [r0 [<- _]].
    split.
    + unfold celula. rewrite H1.
      match type of Hp with
      | match ?v with _ => _ end = true => destruct v as [| x | s]
      end; try discriminate Hp.
      exists x. split; [reflexivity | apply Qle_bool_iff; exact Hp].
    + intros c Hcin. simpl in Hcin. unfold celula.
      destruct Hcin as [<- | [<- | [<- | [<- | []]]]].
      * rewrite H2. eexists. split; [reflexivity |]. do 3 apply B. apply A.
      * rewrite H3. eexists. split; [reflexivity |]. do 2 apply B. apply A.
      * rewrite H4. eexists. split; [reflexivity |]. apply B. apply A.
      * rewrite H5. eexists. split; [reflexivity |]. apply A.
Qed.

(** X6. A frame handed back by the loader of the second script has no
    more rows than the sheet, and in each of its rows the income per
    head is a number of at most 1.5 minimum wages (2277), so that its
    income score is 20, 30 or 40, never 0. *)
Theorem leiden_renda_filtrada
    (unidecode : string -> string) (to_numeric_str : string -> option Q)
    (path : string) (df df' : DataFrame) :
  Leiden.carregar_dados unidecode to_numeric_str path (Planilha df) = Ok df' ->
  (List.length (values df') <= List.length (values df))%nat /\
  forall row, In row (values df') ->
    exists (x : Q) (a : Z),
      celula (columns df') row Leiden.col_renda = Ok (Num x) /\
      x <= 2277 /\
      Leiden.pontos_renda (Num x) = Ok a /\ (a = 20 \/ a = 30 \/ a = 40)%Z.
Proof.
  intros H. destruct (leiden_linha_carregada _ _ _ _ H) as [_ [Hlen Hrows]].
  split; [exact Hlen |]. intros row Hrow.
  destruct (Hrows row Hrow) as [[x [Hx Hle]] _].
  unfold SALARIO_MINIMO in Hle.
  exists x. unfold Leiden.pontos_renda, SALARIO_MINIMO.
  testes; eexists; (split; [exact Hx |]); (split; [lra |]); (split; [reflexivity |]);
    first [ left; reflexivity | right; left; reflexivity | right; right; reflexivity
          | exfalso; lra ].
Qed.

Lemma leiden_renda_filtrada_witness :
  (List.length (values (mkDF Leiden.colunas_obrigatorias
      [ [Num 17; Str "escola publica"; Str "aluguel"; Str "propria";
         Num 0; Num 0; Num 30000; Num 0; Num 1; Str "onibus"] ]))
   <= List.length (values planilha_leiden_sem_renda))%nat /\
  forall row,
    In row (values (mkDF Leiden.colunas_obrigatorias
      [ [Num 17; Str "escola publica"; Str "aluguel"; Str "propria";
         Num 0; Num 0; Num 30000; Num 0; Num 1; Str "onibus"] ])) ->
    exists (x : Q) (a : Z),
      celula Leiden.colunas_obrigatorias row Leiden.col_renda = Ok (Num x) /\
      x <= 2277 /\
      Leiden.pontos_renda (Num x) = Ok a /\ (a = 20 \/ a = 30 \/ a = 40)%Z.
Proof.
  apply (@leiden_renda_filtrada unidecode_ascii to_numeric_nulo Leiden.EXCEL_PATH
           planilha_leiden_sem_renda
           (mkDF Leiden.colunas_obrigatorias
              [ [Num 17; Str "escola publica"; Str "aluguel"; Str "propria";
                 Num 0; Num 0; Num 30000; Num 0; Num 1; Str "onibus"] ])).
  vm_compute. reflexivity.
Defined.

Lemma leiden_pontuar_total
    (unidecode : string -> string) (str_float : Q -> string)
    (cols : list string) (row : list valor) :
  (forall c, In c Leiden.colunas_obrigatorias -> tem_coluna c cols = true) ->
  (forall c, In c [Leiden.col_renda; Leiden.col_bens; Leiden.col_filhos; Leiden.col_doenca] ->
     exists v, celula cols row c = Ok v /\ is_str v = false) ->
  exists z, Leiden.pontuar unidecode str_float cols row = Ok z.
Proof.
  intros Hc Hn.
  assert (Hcel : forall c, In c Leiden.colunas_obrigatorias -> exists x, celula cols row c = Ok x).
  { intros c Hin. unfold celula.
    destruct (tem_coluna_posicao _ _ (Hc c Hin)) as [k ->]. eexists; reflexivity. }
  destruct (Hn Leiden.col_renda ltac:(simpl; tauto)) as [r [Hr Hrs]].
  destruct (Hn Leiden.col_bens ltac:(simpl; tauto)) as [v [Hv Hvs]].
  destruct (Hn Leiden.col_filhos ltac:(simpl; tauto)) as [fi [Hfi Hfis]].
  destruct (Hn Leiden.col_doenca ltac:(simpl; tauto)) as [dn [Hdn Hdns]].
  destruct (Hcel Leiden.col_moradia_aluno ltac:(simpl; tauto)) as [ma Hma].
  destruct (Hcel Leiden.col_moradia_familia ltac:(simpl; tauto)) as [mf Hmf].
  destruct (Hcel Leiden.col_procedencia ltac:(simpl; tauto)) as [e He].
  assert (Ha : exists a, Leiden.pontos_renda r = Ok a).
  { unfold Leiden.pontos_renda. destruct r; try discriminate Hrs;
      repeat match goal with |- context [if ?b then _ else _] => destruct b end;
      eexists; reflexivity. }
  assert (Hd : exists d, Leiden.pontos_bens v = Ok d).
  { unfold Leiden.pontos_bens. destruct v; try discriminate Hvs;
      repeat match goal with |- context [if ?b then _ else _] => destruct b end;
      eexists; reflexivity. }
  assert (Hp : exists c, Leiden.pontos_procedencia unidecode e = Ok c).
  { unfold Leiden.pontos_procedencia. destruct e;
      repeat match goal with |- context [if ?b then _ else _] => destruct b end;
      eexists; reflexivity. }
  assert (Hs : exists s, Leiden.pontos_savs unidecode str_float cols row = Ok s).
  { unfold Leiden.pontos_savs.
    rewrite (celula_get_celula _ _ _ (Num 0) Hdn), (celula_get_celula _ _ _ (Num 0) Hfi).
    destruct dn; try discriminate Hdns; destruct fi; try discriminate Hfis;
      simpl; eexists; reflexivity. }
  destruct Ha as [a Ha]. destruct Hd as [d Hd]. destruct Hp as [c Hp]. destruct Hs as [s Hs].
  unfold Leiden.pontuar. rewrite Hr. simpl. rewrite Ha. simpl. rewrite Hma. simpl.
  rewrite Hmf. simpl. rewrite He. simpl. rewrite Hp. simpl. rewrite Hv. simpl.
  rewrite Hd. simpl. rewrite Hs. simpl. eexists. reflexivity.
Qed.

Lemma leiden_pontuar_renda
    (unidecode : string -> string) (str_float : Q -> string)
    (cols : list string) (row : list valor) (x : Q) (z : Z) :
  celula cols row Leiden.col_renda = Ok (Num x) ->
  x <= 1.5 * SALARIO_MINIMO ->
  Leiden.pontuar unidecode str_float cols row = Ok z ->
  (20 <= z <= 100)%Z.
Proof.
  intros Hx Hle H. unfold Leiden.pontuar in H.
  apply bind_Ok_inv in H. destruct H as [r [Hr H]].
  rewrite Hx in Hr. injection Hr as <-.
  repeat match type of H with
         | bind _ _ = Ok _ =>
             let y := fresh "y" in
             let Hy := fresh "Hy" in
             apply bind_Ok_inv in H; destruct H as [y [Hy H]]
         end.
  injection H as <-.
  match goal with
  | Hm : Leiden.pontos_renda (Num x) = Ok ?a |- _ =>
      assert (Ha : (20 <= a <= 40)%Z);
      [ revert Hm; unfold Leiden.pontos_renda; unfold SALARIO_MINIMO in *; intros Hm;
        testes; injection Hm as <-; try lia; exfalso; lra
      | clear Hm ]
  end.
  repeat match goal with
         | Hm : Leiden.pontos_moradia _ _ _ = Ok _ |- _ =>
             apply LeidenFacts.pontos_moradia_limites_leiden in Hm
         | Hm : Leiden.pontos_procedencia _ _ = Ok _ |- _ =>
             apply LeidenFacts.pontos_procedencia_limites_leiden in Hm
         | Hm : Leiden.pontos_bens _ = Ok _ |- _ =>
             apply LeidenFacts.pontos_bens_limites_leiden in Hm
         | Hm : Leiden.pontos_savs _ _ _ _ = Ok _ |- _ =>
             apply LeidenFacts.pontos_savs_limites_leiden in Hm
         end.
  lia.
Qed.

(** X7. In the second script the index can always be computed on the
    frame the loader hands back (no scoring function raises on it), and
    every index it writes lies between 20 and 100: the income filter of
    the loader guarantees at least the 20 points of the lowest income
    band. *)
Theorem leiden_indice_apos_carga
    (unidecode : string -> string) (str_float : Q -> string)
    (to_numeric_str : string -> option Q) (path : string) (df df_raw : DataFrame) :
  Leiden.carregar_dados unidecode to_numeric_str path (Planilha df) = Ok df_raw ->
  exists df_vul,
    Leiden.calcular_indice_vulnerabilidade unidecode str_float df_raw = Ok df_vul /\
    forall row', In row' (values df_vul) ->
      exists v : Z,
        celula (columns df_vul) row' "indice vulnerabilidade" = Ok (Num (inject_Z v)) /\
        (20 <= v <= 100)%Z.
Proof.
  intros H. destruct (leiden_linha_carregada _ _ _ _ H) as [Hc [_ Hrows]].
  destruct (coluna_de_indices_total
              (Leiden.pontuar unidecode str_float (columns df_raw))
              (Leiden.clip_upper 100) "indice vulnerabilidade" df_raw) as [df_vul Hv].
  { intros row Hrow. destruct (Hrows row Hrow) as [[x [Hx _]] Hoth].
    apply leiden_pontuar_total; [exact Hc |].
    intros c Hcin. simpl in Hcin. destruct Hcin as [<- | Hcin].
    - exists (Num x). split; [exact Hx | reflexivity].
    - apply Hoth. simpl. tauto. }
  exists df_vul. split; [exact Hv |].
  intros row' Hrow'.
  destruct (coluna_de_indices _ _ _ _ Hv row' Hrow') as [row [z [Hin [Hz Hcel]]]].
  destruct (Hrows row Hin) as [[x [Hx Hle]] _].
  exists (Leiden.clip_upper 100 z). split; [exact Hcel |].
  pose proof (leiden_pontuar_renda _ _ _ _ Hx Hle Hz) as Hb.
  unfold Leiden.clip_upper. lia.
Qed.

Lemma leiden_indice_apos_carga_witness :
  exists df_vul,
    Leiden.calcular_indice_vulnerabilidade unidecode_ascii str_float_nulo
      (mkDF Leiden.colunas_obrigatorias
         [ [Num 17; Str "escola publica"; Str "aluguel"; Str "propria";
            Num 0; Num 0; Num 30000; Num 0; Num 1; Str "onibus"] ]) = Ok df_vul /\
    forall row', In row' (values df_vul) ->
      exists v : Z,
        celula (columns df_vul) row' "indice vulnerabilidade" = Ok (Num (inject_Z v)) /\
        (20 <= v <= 100)%Z.
Proof.
  apply (@leiden_indice_apos_carga unidecode_ascii str_float_nulo to_numeric_nulo
           Leiden.EXCEL_PATH planilha_leiden_sem_renda).
  vm_compute. reflexivity.
Defined.

(** ** The loader of the first script *)

Lemma inserir_ordenada (x : nat) (l : list nat) :
  StronglySorted lt l -> StronglySorted lt (inserir x l).
Proof.
  induction 1 as [| y t Ht IH Hy]; simpl.
  - constructor; constructor.
  - destruct (Nat.ltb_spec x y) as [Hxy | Hxy].
    + constructor; [constructor; assumption |].
      constructor; [exact Hxy |].
      rewrite Forall_forall in Hy |- *. intros z Hz. specialize (Hy z Hz). lia.
    + destruct (Nat.eqb_spec x y) as [-> | Hne].
      * constructor; assumption.
      * constructor; [exact IH |].
        rewrite Forall_forall in Hy |- *. intros z Hz.
        apply In_inserir in Hz. destruct Hz as [-> | Hz]; [lia | apply Hy; exact Hz].
Qed.

Lemma sorted_set_ordenada (l : list nat) : StronglySorted lt (sorted_set l).
Proof.
  unfold sorted_set. induction l as [| x t IH]; simpl; [constructor |].
  apply inserir_ordenada. exact IH.
Qed.

Lemma isna_NaN (v : valor) : isna v = true <-> v = NaN.
Proof. destruct v; simpl; split; intros H; congruence. Qed.

(** The rows listed by the ValueError of the first loader. *)
Lemma linhas_invalidas_exatas
    (str_float : Q -> string) (path : string) (df : DataFrame) (l : list nat) :
  Fastgreedy.carregar_dados str_float path (Planilha df) = Raise (ValueError_linhas l) ->
  l <> [] /\
  StronglySorted lt l /\
  forall i, In i l <->
    exists row c, nth_error (values df) i = Some row /\
                  In c Fastgreedy.colunas_criticas /\
                  celula (columns df) row c = Ok NaN.
Proof.
  intros H.
  destruct (colunas_presentes_ou_falta Fastgreedy.colunas (columns df)) as [Hc | Hf].
  - destruct (carregar_dados_forma str_float path df Hc)
      as [k0 [k1 [k2 [k3 [k4 [_ [_ [H2 [H3 [H4 Hforma]]]]]]]]]].
    rewrite Hforma in H.
    remember (flat_map (linhas_na (preparada str_float df k0 k1 k2 k3 k4))
                       Fastgreedy.colunas_criticas) as L eqn:EL.
    destruct (sorted_set L) as [| x t] eqn:Es; [discriminate H |].
    injection H as <-. split; [discriminate |].
    split; [rewrite <- Es; apply sorted_set_ordenada |].
    intros i. rewrite <- Es, In_sorted_set, EL, in_flat_map. split.
    + intros [c [Hcrit Hin]].
      destruct (@preparada_critica str_float df k0 k1 k2 k3 k4 c H2 H3 H4 Hcrit)
        as [kc [kc' [Hkc [Hkc' Hnth]]]].
      apply (In_linhas_na _ _ i Hkc') in Hin. destruct Hin as [row' [Hrow' Hna]].
      unfold preparada in Hrow'. unfold values at 1 in Hrow'.
      rewrite nth_error_map in Hrow'.
      destruct (nth_error (values df) i) as [row |] eqn:Er; [| discriminate Hrow'].
      injection Hrow' as <-. rewrite Hnth in Hna.
      exists row, c. split; [reflexivity |]. split; [exact Hcrit |].
      unfold celula. rewrite Hkc. f_equal. apply isna_NaN. exact Hna.
    + intros [row [c [Hrow [Hcrit Hcel]]]].
      destruct (@preparada_critica str_float df k0 k1 k2 k3 k4 c H2 H3 H4 Hcrit)
        as [kc [kc' [Hkc [Hkc' Hnth]]]].
      exists c. split; [exact Hcrit |].
      apply (In_linhas_na _ _ i Hkc'). eexists. split.
      * unfold preparada. unfold values at 1. rewrite nth_error_map, Hrow. reflexivity.
      * rewrite Hnth. unfold celula in Hcel. rewrite Hkc in Hcel.
        injection Hcel as ->. reflexivity.
  - destruct (verificacao_falha Hf) as [c [_ [_ Hm]]].
    unfold Fastgreedy.carregar_dados in H. rewrite Hm in H. discriminate H.
Qed.




(** X8. When the loader of the first script raises for missing
    critical values, the rows it lists are exactly the rows of the
    sheet that miss a value in a critical column, each once and in
    increasing order. *)
Theorem carregar_dados_lista_linhas
    (str_float : Q -> string) (path : string) (df : DataFrame) (l : list nat) :
  Fastgreedy.carregar_dados str_float path (Planilha df) = Raise (ValueError_linhas l) ->
  l <> [] /\
  StronglySorted lt l /\
  forall i, In i l <->
    exists row c, nth_error (values df) i = Some row /\
                  In c Fastgreedy.colunas_criticas /\
                  celula (columns df) row c = Ok NaN.
Proof. apply linhas_invalidas_exatas. Qed.

Lemma carregar_dados_lista_linhas_witness :
  [1%nat] <> [] /\
  StronglySorted lt [1%nat] /\
  forall i, In i [1%nat] <->
    exists row c, nth_error (values planilha_sem_renda) i = Some row /\
                  In c Fastgreedy.colunas_criticas /\
                  celula (columns planilha_sem_renda) row c = Ok NaN.
Proof.
  apply (@carregar_dados_lista_linhas str_float_nulo Fastgreedy.EXCEL_PATH
           planilha_sem_renda [1%nat]).
  vm_compute. reflexivity.
Defined.



(** X9. A frame handed back by the loader of the first script has the
    five columns of interest, in the order of the script, and the rows
    of the sheet in their order; the three numeric cells of a row are
    the cells of the sheet, unchanged, and the two text cells are the
    sheet's cells written as text and stripped of the white space,
    ASCII or not, at both ends. *)
Theorem carregar_dados_preserva
    (str_float : Q -> string) (path : string) (df df' : DataFrame) :
  Fastgreedy.carregar_dados str_float path (Planilha df) = Ok df' ->
  columns df' = Fastgreedy.colunas /\
  List.length (values df') = List.length (values df) /\
  forall i row, nth_error (values df) i = Some row ->
    exists row', nth_error (values df') i = Some row' /\
      (forall c, In c Fastgreedy.colunas_criticas ->
         celula (columns df') row' c = celula (columns df) row c) /\
      (forall c m, In c [Fastgreedy.col_moradia; Fastgreedy.col_transporte] ->
         celula (columns df) row c = Ok m ->
         celula (columns df') row' c
         = Ok (Str (strip (Fastgreedy.astype_str str_float m)))).
Proof.
  intros H.
  destruct (colunas_presentes_ou_falta Fastgreedy.colunas (columns df)) as [Hc | Hf].
  - destruct (carregar_dados_forma str_float path df Hc)
      as [k0 [k1 [k2 [k3 [k4 [H0 [H1 [H2 [H3 [H4 Hforma]]]]]]]]]].
    rewrite Hforma in H.
    destruct (sorted_set _) as [| x t]; [| discriminate H].
    injection H as <-.
    split; [reflexivity |]. split; [unfold preparada; simpl; apply length_map |].
    intros i row Hrow. eexists. split.
    + unfold preparada. unfold values at 1. rewrite nth_error_map, Hrow. reflexivity.
    + split.
      * intros c Hcrit.
        destruct (@preparada_critica str_float df k0 k1 k2 k3 k4 c H2 H3 H4 Hcrit)
          as [kc [kc' [Hkc [Hkc' Hnth]]]].
        unfold celula. rewrite Hkc', Hkc, Hnth. reflexivity.
      * intros c m Hin Hm. simpl in Hin. unfold celula in Hm.
        destruct Hin as [<- | [<- | []]].
        -- rewrite H0 in Hm. injection Hm as <-. reflexivity.
        -- rewrite H1 in Hm. injection Hm as <-. reflexivity.
  - destruct (verificacao_falha Hf) as [c [_ [_ Hm]]].
    unfold Fastgreedy.carregar_dados in H. rewrite Hm in H. discriminate H.
Qed.

Lemma carregar_dados_preserva_witness :
  columns planilha_tres = Fastgreedy.colunas /\
  List.length (values planilha_tres) = List.length (values planilha_tres) /\
  forall i row, nth_error (values planilha_tres) i = Some row ->
    exists row', nth_error (values planilha_tres) i = Some row' /\
      (forall c, In c Fastgreedy.colunas_criticas ->
         celula (columns planilha_tres) row' c = celula (columns planilha_tres) row c) /\
      (forall c m, In c [Fastgreedy.col_moradia; Fastgreedy.col_transporte] ->
         celula (columns planilha_tres) row c = Ok m ->
         celula (columns planilha_tres) row' c
         = Ok (Str (strip (Fastgreedy.astype_str str_float_nulo m)))).
Proof.
  apply (@carregar_dados_preserva str_float_nulo Fastgreedy.EXCEL_PATH
           planilha_tres planilha_tres).
  vm_compute. reflexivity.
Defined.

Section TiraFatos.

Variable p1 : ascii -> bool.
Variable p2 : ascii -> ascii -> bool.
Variable p3 : ascii -> ascii -> ascii -> bool.

Lemma tira_eq (l : list ascii) :
  tira p1 p2 p3 l =
  match l with
  | [] => []
  | c :: t =>
      if p1 c then tira p1 p2 p3 t
      else match t with
           | [] => l
           | d :: t' =>
               if p2 c d then tira p1 p2 p3 t'
               else match t' with
                    | [] => l
                    | e :: t'' => if p3 c d e then tira p1 p2 p3 t'' else l
                    end
           end
  end.
Proof. destruct l; reflexivity. Qed.

(** What is left starts with no white space. *)
Lemma comeca_tira (n : nat) (l : list ascii) :
  (List.length l <= n)%nat -> comeca p1 p2 p3 (tira p1 p2 p3 l) = false.
Proof.
  revert l. induction n as [| n IH]; intros l Hl.
  - destruct l; [reflexivity | simpl in Hl; lia].
  - destruct l as [| c [| d [| e t]]]; simpl in Hl; rewrite tira_eq.
    + reflexivity.
    + destruct (p1 c) eqn:E1; [reflexivity |]. simpl. rewrite E1. reflexivity.
    + destruct (p1 c) eqn:E1; [apply IH; simpl; lia |].
      destruct (p2 c d) eqn:E2; [reflexivity |]. simpl. rewrite E1, E2. reflexivity.
    + destruct (p1 c) eqn:E1; [apply IH; simpl; lia |].
      destruct (p2 c d) eqn:E2; [apply IH; simpl; lia |].
      destruct (p3 c d e) eqn:E3; [apply IH; simpl; lia |].
      simpl. rewrite E1, E2, E3. reflexivity.
Qed.

(** A list that starts with no white space is left as it is. *)
Lemma tira_sem_espaco (l : list ascii) :
  comeca p1 p2 p3 l = false -> tira p1 p2 p3 l = l.
Proof.
  destruct l as [| c [| d [| e t]]]; simpl; intros H; try reflexivity.
  - apply orb_false_iff in H. destruct H as [-> _]. reflexivity.
  - apply orb_false_iff in H. destruct H as [-> H].
    apply orb_false_iff in H. destruct H as [-> _]. reflexivity.
  - apply orb_false_iff in H. destruct H as [-> H].
    apply orb_false_iff in H. destruct H as [-> ->]. reflexivity.
Qed.

(** What is left is an end of the list. *)
Lemma tira_final (n : nat) (l : list ascii) :
  (List.length l <= n)%nat -> exists pre, l = pre ++ tira p1 p2 p3 l.
Proof.
  revert l. induction n as [| n IH]; intros l Hl.
  - destruct l; [exists []; reflexivity | simpl in Hl; lia].
  - destruct l as [| c [| d [| e t]]]; simpl in Hl; rewrite tira_eq.
    + exists []. reflexivity.
    + destruct (p1 c); [exists [c] | exists []]; reflexivity.
    + destruct (p1 c).
      * destruct (IH [d] ltac:(simpl; lia)) as [pre Hpre].
        exists (c :: pre). rewrite <- app_comm_cons. f_equal. exact Hpre.
      * destruct (p2 c d); [exists [c; d] | exists []]; reflexivity.
    + destruct (p1 c).
      * destruct (IH (d :: e :: t) ltac:(simpl; lia)) as [pre Hpre].
        exists (c :: pre). rewrite <- app_comm_cons. f_equal. exact Hpre.
      * destruct (p2 c d).
        -- destruct (IH (e :: t) ltac:(simpl; lia)) as [pre Hpre].
           exists (c :: d :: pre). rewrite <- !app_comm_cons. do 2 f_equal. exact Hpre.
        -- destruct (p3 c d e).
           ++ destruct (IH t ltac:(simpl; lia)) as [pre Hpre].
              exists (c :: d :: e :: pre). rewrite <- !app_comm_cons. do 3 f_equal. exact Hpre.
           ++ exists []. reflexivity.
Qed.

(** A white space at the head of a list is at the head of every list
    it begins. *)
Lemma comeca_app (v w : list ascii) :
  comeca p1 p2 p3 v = true -> comeca p1 p2 p3 (v ++ w) = true.
Proof.
  destruct v as [| c [| d [| e t]]]; simpl; intros H; try discriminate H.
  - rewrite orb_false_r in H. rewrite H. reflexivity.
  - rewrite orb_false_r in H. apply orb_true_iff in H.
    destruct H as [-> | ->]; [reflexivity |]. simpl. apply orb_true_r.
  - exact H.
Qed.

End TiraFatos.

Lemma tira_tira (p1 : ascii -> bool) (p2 : ascii -> ascii -> bool)
    (p3 : ascii -> ascii -> ascii -> bool) (l : list ascii) :
  tira p1 p2 p3 (tira p1 p2 p3 l) = tira p1 p2 p3 l.
Proof.
  apply tira_sem_espaco. apply (comeca_tira p1 p2 p3 (n := List.length l)). apply Nat.le_refl.
Qed.

(** Stripping twice is stripping once. *)
Lemma strip_idempotente (s : string) : strip (strip s) = strip s.
Proof.
  unfold strip, rstrip, lstrip. rewrite !list_ascii_of_string_of_list_ascii.
  set (u := tira_esquerda (list_ascii_of_string s)).
  set (v := rev (tira_direita (rev u))).
  assert (Hu : comeca is_space espaco2 espaco3 u = false).
  { apply (comeca_tira is_space espaco2 espaco3 (n := List.length (list_ascii_of_string s))).
    apply Nat.le_refl. }
  assert (Hv : exists w, u = v ++ w).
  { destruct (tira_final is_space (fun d c => espaco2 c d) (fun e d c => espaco3 c d e)
                (n := List.length (rev u)) (rev u) (Nat.le_refl _)) as [pre Hpre].
    exists (rev pre). unfold v, tira_direita.
    rewrite <- rev_app_distr, <- Hpre, rev_involutive. reflexivity. }
  destruct Hv as [w Hw].
  assert (Hcv : comeca is_space espaco2 espaco3 v = false).
  { destruct (comeca is_space espaco2 espaco3 v) eqn:E; [| reflexivity].
    apply (comeca_app is_space espaco2 espaco3 v w) in E. rewrite <- Hw, Hu in E.
    discriminate E. }
  unfold tira_esquerda at 1. rewrite (tira_sem_espaco _ _ _ _ Hcv).
  unfold v at 1. rewrite rev_involutive. unfold tira_direita. rewrite tira_tira.
  reflexivity.
Qed.

(** A no-break space (U+00A0) in front and an em space (U+2003) and a
    blank behind are stripped like the ASCII white space. *)
Example strip_espacos_unicode :
  strip (String (ascii_of_nat 194) (String (ascii_of_nat 160)
           ("alugada" ++
            String (ascii_of_nat 226) (String (ascii_of_nat 128)
              (String (ascii_of_nat 131) " ")))))
  = "alugada"%string.
Proof. vm_compute. reflexivity. Qed.

Lemma preparada_fixa (str_float : Q -> string) (df : DataFrame) (k0 k1 k2 k3 k4 : nat) :
  preparada str_float (preparada str_float df k0 k1 k2 k3 k4) 0 1 2 3 4
  = preparada str_float df k0 k1 k2 k3 k4.
Proof.
  unfold preparada. simpl values. f_equal. rewrite map_map.
  apply map_ext. intros row. simpl. rewrite !strip_idempotente. reflexivity.
Qed.

(** X10. Loading is idempotent in the first script: a frame that the
    loader handed back, read again as a sheet, is accepted and handed
    back unchanged. *)
Theorem carregar_dados_idempotente
    (str_float : Q -> string) (path path' : string) (df df' : DataFrame) :
  Fastgreedy.carregar_dados str_float path (Planilha df) = Ok df' ->
  Fastgreedy.carregar_dados str_float path' (Planilha df') = Ok df'.
Proof.
  intros H.
  destruct (colunas_presentes_ou_falta Fastgreedy.colunas (columns df)) as [Hc | Hf].
  - destruct (carregar_dados_forma str_float path df Hc)
      as [k0 [k1 [k2 [k3 [k4 [_ [_ [_ [_ [_ Hforma]]]]]]]]]].
    rewrite Hforma in H.
    destruct (sorted_set _) as [| x t] eqn:Es; [| discriminate H].
    injection H as <-.
    set (P := preparada str_float df k0 k1 k2 k3 k4) in *.
    assert (Hc' : forall c, In c Fastgreedy.colunas -> tem_coluna c (columns P) = true).
    { intros c Hin. simpl in Hin.
      destruct Hin as [<- | [<- | [<- | [<- | [<- | []]]]]]; reflexivity. }
    destruct (carregar_dados_forma str_float path' P Hc')
      as [j0 [j1 [j2 [j3 [j4 [J0 [J1 [J2 [J3 [J4 Hforma']]]]]]]]]].
    vm_compute in J0, J1, J2, J3, J4.
    injection J0 as <-. injection J1 as <-. injection J2 as <-.
    injection J3 as <-. injection J4 as <-.
    rewrite Hforma'. unfold P. rewrite preparada_fixa. fold P. rewrite Es. reflexivity.
  - destruct (verificacao_falha Hf) as [c [_ [_ Hm]]].
    unfold Fastgreedy.carregar_dados in H. rewrite Hm in H. discriminate H.
Qed.

Lemma carregar_dados_idempotente_witness :
  Fastgreedy.carregar_dados str_float_nulo Fastgreedy.EXCEL_PATH (Planilha planilha_tres)
  = Ok planilha_tres.
Proof.
  apply (@carregar_dados_idempotente str_float_nulo Fastgreedy.EXCEL_PATH
           Fastgreedy.EXCEL_PATH planilha_tres planilha_tres).
  vm_compute. reflexivity.
Defined.

(** ** The similarity graph: edges, weights and vertices *)

Lemma candidatos_length (m : matriz) (limiar : Q) (i : nat) (js : list nat) :
  (List.length (candidatos m limiar i js) <= List.length js)%nat.
Proof.
  unfold candidatos. induction js as [| j t IH]; simpl; [lia |].
  rewrite length_app.
  destruct (entrada m i j) as [sim |]; [destruct (Qle_bool limiar sim) |]; simpl; lia.
Qed.

Lemma arestas_length_aux (m : matriz) (limiar : Q) (n k s : nat) :
  (s + k = n)%nat ->
  (2 * List.length (flat_map (fun i => candidatos m limiar i (seq (S i) (n - S i))) (seq s k))
   <= k * (k - 1))%nat.
Proof.
  revert s. induction k as [| k IH]; intros s Hs; [simpl; lia |].
  cbn [seq flat_map]. rewrite length_app.
  pose proof (candidatos_length m limiar s (seq (S s) (n - S s))) as Hc.
  rewrite length_seq in Hc.
  specialize (IH (S s) ltac:(lia)).
  replace (S k - 1)%nat with k by lia. rewrite Nat.mul_succ_l.
  assert (Hk : (k * (k - 1) + k = k * k)%nat).
  { destruct k as [| k']; [reflexivity |].
    replace (S k' - 1)%nat with k' by lia. lia. }
  lia.
Qed.

(** At most one edge per pair of respondents. *)
Lemma arestas_length (m : matriz) (limiar : Q) (n : nat) :
  (2 * List.length (arestas_pesadas m limiar n) <= n * (n - 1))%nat.
Proof. unfold arestas_pesadas. apply arestas_length_aux. reflexivity. Qed.

Lemma combine_fst_snd (A B : Type) (l : list (A * B)) :
  combine (map fst l) (map snd l) = l.
Proof.
  induction l as [| [a b] t IH]; simpl; [reflexivity | rewrite IH; reflexivity].
Qed.

(** X11. What [construir_grafo] keeps, in either script (they share
    the code): the edge list and the weight list have the same length
    and pair up as exactly the pairs i < j < n whose entry in the
    matrix of [gower_matrix] is a number that reaches the threshold,
    the weight being that entry; so every weight is at least the
    threshold, and there are at most n(n-1)/2 edges. *)
Theorem construir_grafo_arestas (c : string) (df df_sim : DataFrame) (limiar : Q)
    (g : Graph) (ws : list Q) :
  drop_coluna df c = Ok df_sim ->
  construir_grafo_de c df limiar = Ok (g, ws) ->
  ws = es_weight g /\
  List.length (es_weight g) = List.length (es g) /\
  (forall i j w,
     In ((i, j), w) (combine (es g) (es_weight g)) <->
     (i < j < len df_sim)%nat /\
     entrada (gower_matrix (values df_sim)) i j = Some w /\
     limiar <= w) /\
  (forall w, In w ws -> limiar <= w) /\
  (2 * List.length (es g) <= len df_sim * (len df_sim - 1))%nat.
Proof.
  intros Hd H.
  rewrite (@construir_grafo_de_forma c df _ limiar Hd) in H. cbv zeta in H.
  injection H as <- <-. simpl.
  set (A := arestas_pesadas (gower_matrix (values df_sim)) limiar (len df_sim)).
  split; [reflexivity |]. split; [rewrite !length_map; reflexivity |].
  split; [| split].
  - intros i j w. rewrite combine_fst_snd. unfold A.
    rewrite In_arestas_pesadas, Qle_bool_iff. tauto.
  - intros w Hw. apply in_map_iff in Hw. destruct Hw as [[[i j] w'] [Heq Hin]].
    simpl in Heq. subst w'. apply In_arestas_pesadas in Hin.
    apply Qle_bool_iff. tauto.
  - rewrite length_map. apply arestas_length.
Qed.

Lemma construir_grafo_arestas_witness :
  [4000000 # 5000000] = [4000000 # 5000000] /\
  List.length [4000000 # 5000000] = List.length [(0%nat, 1%nat)] /\
  (forall i j w,
     In ((i, j), w) (combine [(0%nat, 1%nat)] [4000000 # 5000000]) <->
     (i < j < len planilha_tres)%nat /\
     entrada (gower_matrix (values planilha_tres)) i j = Some w /\
     SIMILARIDADE_LIMIAR <= w) /\
  (forall w, In w [4000000 # 5000000] -> SIMILARIDADE_LIMIAR <= w) /\
  (2 * List.length [(0%nat, 1%nat)] <= len planilha_tres * (len planilha_tres - 1))%nat.
Proof.
  apply (@construir_grafo_arestas "Indice Vulnerabilidade"
           (mkDF (Fastgreedy.colunas ++ ["Indice Vulnerabilidade"%string])
              [ [Str "alugada"; Str "onibus"; Num 0; Num 0; Num 0; Num (inject_Z 80)];
                [Str "quitada"; Str "carro"; Num 1000; Num 1000; Num 0; Num (inject_Z 50)];
                [Str "alugada"; Str "carro"; Num 500; Num 500; Num 0; Num (inject_Z 70)] ])
           planilha_tres SIMILARIDADE_LIMIAR
           {| vcount := 2; directed := false; es := [(0%nat, 1%nat)];
              es_weight := [4000000 # 5000000]; vs_label := ["0"%string; "1"%string] |}
           [4000000 # 5000000]).
  - vm_compute. reflexivity.
  - vm_compute. reflexivity.
Defined.

Lemma cobertura_incl (l1 l2 : list (nat * nat)) :
  incl l2 l1 -> (cobertura l2 <= cobertura l1)%nat.
Proof.
  intros Hi. apply (vcount_limite l2 false). intros a b Hab.
  apply (vcount_cobre l1 false). apply Hi. exact Hab.
Qed.

(** X12. Raising the threshold can only remove edges: every weighted
    edge of the graph built with the higher threshold is a weighted
    edge, with the same weight, of the graph built with the lower one,
    and the graph has no more vertices. *)
Theorem construir_grafo_limiar_monotono (c : string) (df : DataFrame) (limiar1 limiar2 : Q)
    (g1 g2 : Graph) (ws1 ws2 : list Q) :
  limiar1 <= limiar2 ->
  construir_grafo_de c df limiar1 = Ok (g1, ws1) ->
  construir_grafo_de c df limiar2 = Ok (g2, ws2) ->
  incl (combine (es g2) (es_weight g2)) (combine (es g1) (es_weight g1)) /\
  (List.length (es g2) <= List.length (es g1))%nat /\
  (vcount g2 <= vcount g1)%nat.
Proof.
  intros Hl H1 H2.
  destruct (drop_coluna df c) as [df_sim | e] eqn:Hd;
    [| unfold construir_grafo_de in H1; rewrite Hd in H1; discriminate H1].
  rewrite (@construir_grafo_de_forma c df _ limiar1 Hd) in H1. cbv zeta in H1.
  rewrite (@construir_grafo_de_forma c df _ limiar2 Hd) in H2. cbv zeta in H2.
  injection H1 as <- <-. injection H2 as <- <-. simpl.
  set (A1 := arestas_pesadas (gower_matrix (values df_sim)) limiar1 (len df_sim)).
  set (A2 := arestas_pesadas (gower_matrix (values df_sim)) limiar2 (len df_sim)).
  assert (Hincl : incl A2 A1).
  { intros [[i j] w] Hin. unfold A1, A2 in *.
    apply In_arestas_pesadas in Hin. apply In_arestas_pesadas.
    destruct Hin as [Hij [He Hq]]. split; [exact Hij |]. split; [exact He |].
    apply Qle_bool_iff in Hq. apply Qle_bool_iff. lra. }
  assert (Hfst : incl (map fst A2) (map fst A1)).
  { intros e He. apply in_map_iff in He. destruct He as [x [<- Hx]].
    apply in_map. apply Hincl. exact Hx. }
  split; [rewrite !combine_fst_snd; exact Hincl |]. split.
  - apply NoDup_incl_length; [apply NoDup_arestas | exact Hfst].
  - apply cobertura_incl. exact Hfst.
Qed.

Lemma construir_grafo_limiar_monotono_witness :
  incl (combine (@nil (nat * nat)) (@nil Q)) (combine [(0%nat, 1%nat)] [4000000 # 5000000]) /\
  (List.length (@nil (nat * nat)) <= List.length [(0%nat, 1%nat)])%nat /\
  (0 <= 2)%nat.
Proof.
  apply (@construir_grafo_limiar_monotono "Indice Vulnerabilidade"
           (mkDF (Fastgreedy.colunas ++ ["Indice Vulnerabilidade"%string])
              [ [Str "alugada"; Str "onibus"; Num 0; Num 0; Num 0; Num (inject_Z 80)];
                [Str "quitada"; Str "carro"; Num 1000; Num 1000; Num 0; Num (inject_Z 50)];
                [Str "alugada"; Str "carro"; Num 500; Num 500; Num 0; Num (inject_Z 70)] ])
           0.5 0.9
           {| vcount := 2; directed := false; es := [(0%nat, 1%nat)];
              es_weight := [4000000 # 5000000]; vs_label := ["0"%string; "1"%string] |}
           {| vcount := 0; directed := false; es := [];
              es_weight := []; vs_label := [] |}
           [4000000 # 5000000] []).
  - unfold Qle. simpl. lia.
  - vm_compute. reflexivity.
  - vm_compute. reflexivity.
Defined.

Lemma firstn_seq_le (k s n : nat) : (k <= n)%nat -> firstn k (seq s n) = seq s k.
Proof.
  revert s n. induction k as [| k IH]; intros s n Hk; [reflexivity |].
  destruct n as [| n]; [lia |]. simpl. rewrite IH by lia. reflexivity.
Qed.

(** X13. The vertices of the graph built by [construir_grafo]: there
    are never more of them than respondents, and there are as many
    exactly when the frame is empty or the last respondent is an
    endpoint of an edge; every endpoint of an edge is a vertex; and the
    labels are the vertex numbers 0, 1, ... written in decimal. *)
Theorem construir_grafo_vertices (c : string) (df df_sim : DataFrame) (limiar : Q)
    (g : Graph) (ws : list Q) :
  drop_coluna df c = Ok df_sim ->
  construir_grafo_de c df limiar = Ok (g, ws) ->
  (vcount g <= len df_sim)%nat /\
  (vcount g = len df_sim <->
   len df_sim = 0%nat \/ exists a, In (a, (len df_sim - 1)%nat) (es g)) /\
  (forall a b, In (a, b) (es g) -> (a < vcount g)%nat /\ (b < vcount g)%nat) /\
  vs_label g = map str_nat (seq 0 (vcount g)).
Proof.
  intros Hd H.
  destruct (@vcount_respondentes c df df_sim limiar g ws Hd H) as [Hle Hiff].
  split; [exact Hle |]. split; [exact Hiff |].
  rewrite (@construir_grafo_de_forma c df _ limiar Hd) in H. cbv zeta in H.
  injection H as <- <-. simpl in *. split.
  - intros a b Hab. apply (vcount_cobre _ false). exact Hab.
  - rewrite firstn_map, firstn_seq_le by exact Hle. reflexivity.
Qed.

Lemma construir_grafo_vertices_witness :
  (2 <= len planilha_tres)%nat /\
  (2%nat = len planilha_tres <->
   len planilha_tres = 0%nat \/ exists a, In (a, (len planilha_tres - 1)%nat) [(0%nat, 1%nat)]) /\
  (forall a b, In (a, b) [(0%nat, 1%nat)] -> (a < 2)%nat /\ (b < 2)%nat) /\
  ["0"%string; "1"%string] = map str_nat (seq 0 2).
Proof.
  apply (@construir_grafo_vertices "Indice Vulnerabilidade"
           (mkDF (Fastgreedy.colunas ++ ["Indice Vulnerabilidade"%string])
              [ [Str "alugada"; Str "onibus"; Num 0; Num 0; Num 0; Num (inject_Z 80)];
                [Str "quitada"; Str "carro"; Num 1000; Num 1000; Num 0; Num (inject_Z 50)];
                [Str "alugada"; Str "carro"; Num 500; Num 500; Num 0; Num (inject_Z 70)] ])
           planilha_tres SIMILARIDADE_LIMIAR
           {| vcount := 2; directed := false; es := [(0%nat, 1%nat)];
              es_weight := [4000000 # 5000000]; vs_label := ["0"%string; "1"%string] |}
           [4000000 # 5000000]).
  - vm_compute. reflexivity.
  - vm_compute. reflexivity.
Defined.

(** ** The main flow of the first script *)

Lemma atribuir_coluna_comprimento (df df' : DataFrame) (c : string) (col : list valor) :
  atribuir_coluna df c col = Ok df' -> List.length col = len df /\ len df' = len df.
Proof.
  intros H. pose proof (atribuir_coluna_le _ _ _ H) as [Hl _].
  unfold atribuir_coluna in H.
  destruct (List.length col =? len df)%nat eqn:E; simpl in H; [| discriminate H].
  apply Nat.eqb_eq in E. unfold len in *. split; [exact E | lia].
Qed.

Lemma calcular_indice_comprimento (df df' : DataFrame) :
  Fastgreedy.calcular_indice_vulnerabilidade df = Ok df' -> len df' = len df.
Proof.
  unfold Fastgreedy.calcular_indice_vulnerabilidade. intros H.
  apply bind_Ok_inv in H. destruct H as [zs [_ H]].
  apply atribuir_coluna_comprimento in H. tauto.
Qed.

Lemma drop_coluna_comprimento (df df' : DataFrame) (c : string) :
  drop_coluna df c = Ok df' -> len df' = len df.
Proof.
  unfold drop_coluna. destruct (posicao c (columns df)); intros H; [| discriminate H].
  injection H as <-. unfold len. simpl. apply length_map.
Qed.

Lemma carregar_dados_comprimento (str_float : Q -> string) (path : string)
    (df df' : DataFrame) :
  Fastgreedy.carregar_dados str_float path (Planilha df) = Ok df' -> len df' = len df.
Proof.
  intros H.
  destruct (colunas_presentes_ou_falta Fastgreedy.colunas (columns df)) as [Hc | Hf].
  - destruct (carregar_dados_forma str_float path df Hc)
      as [k0 [k1 [k2 [k3 [k4 [_ [_ [_ [_ [_ Hforma]]]]]]]]]].
    rewrite Hforma in H. destruct (sorted_set _); [| discriminate H].
    injection H as <-. unfold len, preparada. simpl. apply length_map.
  - destruct (verificacao_falha Hf) as [c [_ [_ Hm]]].
    unfold Fastgreedy.carregar_dados in H. rewrite Hm in H. discriminate H.
Qed.

(** X14. The main flow of the first script runs to the end only if
    the graph has one vertex per respondent: whatever the detector,
    provided it labels every vertex of the graph it is given, a run
    that hands back statistics for a sheet with respondents is a run in
    which the last respondent is an endpoint of an edge. *)
Theorem principal_exige_ultimo_ligado
    (str_float : Q -> string) (community_fastgreedy : Graph -> list nat)
    (df df_annotated : DataFrame) (stats : list estatistica) :
  (forall g, List.length (community_fastgreedy g) = vcount g) ->
  (0 < len df)%nat ->
  Fastgreedy.principal str_float community_fastgreedy (Planilha df) = Ok (df_annotated, stats) ->
  exists df_raw df_vul g ws,
    Fastgreedy.carregar_dados str_float Fastgreedy.EXCEL_PATH (Planilha df) = Ok df_raw /\
    Fastgreedy.calcular_indice_vulnerabilidade df_raw = Ok df_vul /\
    Fastgreedy.construir_grafo df_vul SIMILARIDADE_LIMIAR = Ok (g, ws) /\
    vcount g = len df /\
    len df_annotated = len df /\
    exists a, In (a, (len df - 1)%nat) (es g).
Proof.
  intros Hcf Hpos H. unfold Fastgreedy.principal in H.
  apply bind_Ok_inv in H. destruct H as [df_raw [Hraw H]].
  apply bind_Ok_inv in H. destruct H as [df_vul [Hvul H]].
  apply bind_Ok_inv in H. destruct H as [[g ws] [Hg H]].
  simpl fst in H. simpl snd in H.
  unfold Fastgreedy.rodar_fastgreedy, Fastgreedy.membership in H.
  unfold Fastgreedy.calcular_estatisticas_por_grupo, estatisticas_por_grupo in H.
  apply bind_Ok_inv in H. destruct H as [df_a [Ha H]].
  destruct (posicao "Indice Vulnerabilidade" (columns df_a)); [| discriminate H].
  cbv zeta in H. destruct (existsb is_str _); [discriminate H |].
  injection H as <- _.
  apply atribuir_coluna_comprimento in Ha. destruct Ha as [Hlen Hlen'].
  rewrite length_map, Hcf in Hlen.
  pose proof (carregar_dados_comprimento _ _ _ Hraw) as L1.
  pose proof (calcular_indice_comprimento _ Hvul) as L2.
  exists df_raw, df_vul, g, ws.
  split; [exact Hraw |]. split; [exact Hvul |]. split; [exact Hg |].
  split; [lia |]. split; [lia |].
  unfold Fastgreedy.construir_grafo in Hg.
  destruct (drop_coluna df_vul "Indice Vulnerabilidade") as [df_sim | e] eqn:Hd;
    [| unfold construir_grafo_de in Hg; rewrite Hd in Hg; discriminate Hg].
  pose proof (drop_coluna_comprimento _ _ Hd) as L3.
  destruct (@vcount_respondentes _ df_vul df_sim SIMILARIDADE_LIMIAR g ws Hd Hg) as [_ Hiff].
  destruct (proj1 Hiff ltac:(lia)) as [H0 | [a Hin]]; [lia |].
  exists a. replace (len df) with (len df_sim) by lia. exact Hin.
Qed.

Lemma principal_exige_ultimo_ligado_witness :
  exists df_annotated df_raw df_vul g ws,
    Fastgreedy.carregar_dados str_float_nulo Fastgreedy.EXCEL_PATH (Planilha planilha_opostos)
    = Ok df_raw /\
    Fastgreedy.calcular_indice_vulnerabilidade df_raw = Ok df_vul /\
    Fastgreedy.construir_grafo df_vul SIMILARIDADE_LIMIAR = Ok (g, ws) /\
    vcount g = len planilha_opostos /\
    len df_annotated = len planilha_opostos /\
    exists a, In (a, (len planilha_opostos - 1)%nat) (es g).
Proof.
  eexists.
  eapply (@principal_exige_ultimo_ligado str_float_nulo detector_unitario planilha_opostos).
  - intros g. apply length_seq.
  - unfold len. simpl. lia.
  - vm_compute. reflexivity.
Defined.

(** ** Annotation and statistics per group *)

Lemma posicao_app_outro (c c' : string) (cols : list string) (k : nat) :
  posicao c' cols = Some k -> posicao c' (cols ++ [c]) = Some k.
Proof.
  revert k. induction cols as [| h t IH]; simpl; intros k H; [discriminate H |].
  destruct (String.eqb c' h); [exact H |].
  destruct (posicao c' t) as [k' |]; [| discriminate H].
  rewrite (IH k' eq_refl). exact H.
Qed.

Lemma posicao_app_ausente (c c' : string) (cols : list string) :
  posicao c' cols = None -> String.eqb c' c = false -> posicao c' (cols ++ [c]) = None.
Proof.
  induction cols as [| h t IH]; simpl; intros H Hne.
  - rewrite Hne. reflexivity.
  - destruct (String.eqb c' h); [discriminate H |].
    destruct (posicao c' t); [discriminate H |]. rewrite (IH eq_refl Hne). reflexivity.
Qed.

Lemma nth_alinhar (w k : nat) (row : list valor) :
  (k < w)%nat -> nth k (alinhar w row) NaN = nth k row NaN.
Proof.
  intros Hk. unfold alinhar. rewrite nth_firstn.
  destruct (Nat.ltb_spec k w) as [_ | Hge]; [| lia].
  destruct (Nat.lt_ge_cases k (List.length row)) as [Hlt | Hge].
  - apply app_nth1. exact Hlt.
  - rewrite app_nth2 by exact Hge. rewrite nth_repeat.
    symmetry. apply nth_overflow. exact Hge.
Qed.

Lemma nth_substituir_outro (A : Type) (k k' : nat) (x d : A) (l : list A) :
  k <> k' -> nth k (substituir k' x l) d = nth k l d.
Proof.
  revert k k'. induction l as [| a t IH]; intros k k' Hne; simpl.
  - destruct k'; reflexivity.
  - destruct k' as [| j]; destruct k as [| i]; simpl; try reflexivity; try lia.
    apply IH. lia.
Qed.

Lemma nth_error_combine (A B : Type) (l : list A) (l' : list B) (i : nat) (a : A) (b : B) :
  nth_error (combine l l') i = Some (a, b) <->
  nth_error l i = Some a /\ nth_error l' i = Some b.
Proof.
  revert l' i. induction l as [| x t IH]; intros [| y t'] [| i]; simpl;
    try (split; [discriminate | intros [H1 H2]; discriminate]).
  - split; [intros H; injection H as <- <-; tauto | intros [H1 H2]; congruence].
  - apply IH.
Qed.

(** Assigning column [c] leaves the other columns of every row as they
    were. *)
Lemma atribuir_coluna_outras (df df' : DataFrame) (c c' : string) (col : list valor) (k : nat) :
  atribuir_coluna df c col = Ok df' ->
  String.eqb c' c = false ->
  posicao c' (columns df) = Some k ->
  posicao c' (columns df') = Some k /\
  forall i row', nth_error (values df') i = Some row' ->
    exists row, nth_error (values df) i = Some row /\ nth k row' NaN = nth k row NaN.
Proof.
  intros H Hne Hk. pose proof (posicao_Some _ _ Hk) as [Hkw _].
  unfold atribuir_coluna in H.
  destruct (negb (List.length col =? len df)%nat); [discriminate H |].
  destruct (posicao c (columns df)) as [kc |] eqn:Ec; injection H as <-; simpl.
  - split; [exact Hk |]. intros i row' Hi. rewrite nth_error_map in Hi.
    destruct (nth_error (combine (values df) col) i) as [[r v] |] eqn:E; [| discriminate Hi].
    injection Hi as <-. apply nth_error_combine in E. destruct E as [Er _].
    exists r. split; [exact Er |]. simpl.
    rewrite nth_substituir_outro; [apply nth_alinhar; exact Hkw |].
    intros ->. pose proof (posicao_Some _ _ Ec) as [_ Hc].
    pose proof (posicao_Some _ _ Hk) as [_ Hc']. rewrite Hc in Hc'. injection Hc' as ->.
    rewrite String.eqb_refl in Hne. discriminate Hne.
  - split; [apply posicao_app_outro; exact Hk |]. intros i row' Hi.
    rewrite nth_error_map in Hi.
    destruct (nth_error (combine (values df) col) i) as [[r v] |] eqn:E; [| discriminate Hi].
    injection Hi as <-. apply nth_error_combine in E. destruct E as [Er _].
    exists r. split; [exact Er |]. simpl.
    rewrite app_nth1 by (rewrite alinhar_length; exact Hkw).
    apply nth_alinhar. exact Hkw.
Qed.

Lemma atribuir_coluna_ausente (df df' : DataFrame) (c c' : string) (col : list valor) :
  atribuir_coluna df c col = Ok df' ->
  String.eqb c' c = false ->
  posicao c' (columns df) = None ->
  posicao c' (columns df') = None.
Proof.
  intros H Hne Hk. unfold atribuir_coluna in H.
  destruct (negb (List.length col =? len df)%nat); [discriminate H |].
  destruct (posicao c (columns df)) as [kc |]; injection H as <-; simpl.
  - exact Hk.
  - apply posicao_app_ausente; assumption.
Qed.

Lemma atribuir_coluna_coluna (df df' : DataFrame) (c c' : string) (col : list valor) (k : nat) :
  atribuir_coluna df c col = Ok df' ->
  String.eqb c' c = false ->
  posicao c' (columns df) = Some k ->
  coluna (values df') k = coluna (values df) k.
Proof.
  intros H Hne Hk.
  destruct (atribuir_coluna_outras _ _ _ _ H Hne Hk) as [_ Hrows].
  destruct (atribuir_coluna_comprimento _ _ _ H) as [_ Hlen]. unfold len in Hlen.
  unfold coluna. apply nth_error_ext. intros i. rewrite !nth_error_map.
  destruct (nth_error (values df') i) as [row' |] eqn:E.
  - destruct (Hrows i row' E) as [row [-> Hn]]. simpl. rewrite Hn. reflexivity.
  - apply nth_error_None in E. rewrite Hlen in E. apply nth_error_None in E.
    rewrite E. reflexivity.
Qed.

(** The statistics in closed form: when the group column and the index
    column are distinct, the groups are read off the label list and the
    index values off the frame that was given. *)
Lemma estatisticas_forma (cg ci : string) (df a : DataFrame) (m : list nat)
    (stats : list estatistica) :
  String.eqb ci cg = false ->
  estatisticas_por_grupo cg ci df m = Ok (a, stats) ->
  exists k,
    posicao ci (columns df) = Some k /\
    List.length m = len df /\
    atribuir_coluna df cg (map (fun g => Num (inject_Z (Z.of_nat g))) m) = Ok a /\
    stats = map (fun grp =>
                   let vs := do_grupo grp m (coluna (values df) k) in
                   mkEstat grp (media vs) (variancia vs) (List.length vs))
                (sorted_set m).
Proof.
  intros Hne H. unfold estatisticas_por_grupo in H.
  apply bind_Ok_inv in H. destruct H as [a' [Ha H]].
  destruct (posicao ci (columns df)) as [k |] eqn:Ek.
  - destruct (atribuir_coluna_outras _ _ _ _ Ha Hne Ek) as [Hk' _].
    rewrite Hk' in H. cbv zeta in H.
    destruct (existsb is_str (coluna (values a') k)); [discriminate H |].
    injection H as <- <-.
    exists k. split; [reflexivity |].
    destruct (atribuir_coluna_comprimento _ _ _ Ha) as [Hl _].
    rewrite length_map in Hl. split; [exact Hl |]. split; [exact Ha |].
    rewrite (atribuir_coluna_coluna _ _ _ _ Ha Hne Ek). reflexivity.
  - rewrite (atribuir_coluna_ausente _ _ _ _ Ha Hne Ek) in H. discriminate H.
Qed.

Lemma sorted_set_NoDup (l : list nat) : NoDup (sorted_set l).
Proof.
  pose proof (sorted_set_ordenada l) as H.
  induction H as [| x t Ht IH Hx]; constructor; [| exact IH].
  intros Hin. rewrite Forall_forall in Hx. specialize (Hx x Hin). lia.
Qed.

Lemma conta_ausente (B : Type) (g0 : nat) (v : B) (t : list (nat * B)) (ks : list nat) :
  ~ In g0 ks ->
  map (fun g => List.length (filter (fun gv => (fst gv =? g)%nat) ((g0, v) :: t))) ks
  = map (fun g => List.length (filter (fun gv => (fst gv =? g)%nat) t)) ks.
Proof.
  intros Hn. apply map_ext_in. intros k Hk. simpl.
  destruct (Nat.eqb_spec g0 k) as [-> | _]; [contradiction | reflexivity].
Qed.

Lemma conta_um (B : Type) (g0 : nat) (v : B) (t : list (nat * B)) (keys : list nat) :
  NoDup keys -> In g0 keys ->
  list_sum (map (fun g => List.length (filter (fun gv => (fst gv =? g)%nat) ((g0, v) :: t)))
                keys)
  = S (list_sum (map (fun g => List.length (filter (fun gv => (fst gv =? g)%nat) t)) keys)).
Proof.
  induction 1 as [| k ks Hnotin Hnd IH]; intros Hin; [destruct Hin |].
  unfold list_sum in *. cbn [map fold_right].
  destruct (Nat.eq_dec g0 k) as [-> | Hne].
  - rewrite (@conta_ausente B k v t ks Hnotin). simpl. rewrite Nat.eqb_refl. reflexivity.
  - destruct Hin as [-> | Hin]; [contradiction |].
    rewrite (IH Hin). simpl.
    destruct (Nat.eqb_spec g0 k) as [-> | _]; [contradiction | lia].
Qed.

(** Counting the pairs of a list key by key, over a duplicate-free list
    of keys that covers them, counts every pair once. *)
Lemma soma_por_chave (B : Type) (keys : list nat) (L : list (nat * B)) :
  NoDup keys ->
  (forall x, In x L -> In (fst x) keys) ->
  list_sum (map (fun g => List.length (filter (fun gv => (fst gv =? g)%nat) L)) keys)
  = List.length L.
Proof.
  intros Hnd. induction L as [| [g0 v] t IH]; intros Hcov.
  - clear Hcov Hnd. simpl. induction keys as [| k ks IHk]; [reflexivity |].
    simpl. exact IHk.
  - rewrite conta_um; [| exact Hnd | apply (Hcov (g0, v)); left; reflexivity].
    rewrite IH by (intros x Hx; apply Hcov; right; exact Hx). reflexivity.
Qed.

Lemma numeros_todos (l : list valor) :
  Forall (fun v => exists x, v = Num x) l -> List.length (numeros l) = List.length l.
Proof.
  induction 1 as [| v t [x ->] _ IH]; simpl; [reflexivity |]. rewrite IH. reflexivity.
Qed.

Lemma In_numeros (l : list valor) (x : Q) : In x (numeros l) <-> In (Num x) l.
Proof.
  unfold numeros. rewrite in_flat_map. split.
  - intros [v [Hv Hx]]. destruct v as [| y | s]; simpl in Hx;
      [destruct Hx | | destruct Hx].
    destruct Hx as [-> | []]. exact Hv.
  - intros H. exists (Num x). split; [exact H | left; reflexivity].
Qed.

Lemma soma_limites (lo hi : Q) (l : list Q) :
  Forall (fun x => lo <= x <= hi) l ->
  lo * inject_Z (Z.of_nat (List.length l)) <= soma l /\
  soma l <= hi * inject_Z (Z.of_nat (List.length l)).
Proof.
  induction 1 as [| x t [Hl Hh] _ [IHl IHh]].
  - unfold soma. cbn [List.length fold_right Z.of_nat]. change (inject_Z 0) with 0.
    split; lra.
  - unfold soma in *. cbn [List.length fold_right].
    rewrite Nat2Z.inj_succ. unfold Z.succ. rewrite inject_Z_plus.
    change (inject_Z 1) with 1. split; lra.
Qed.

(** The mean of a non-empty list of numbers between two bounds lies
    between the bounds. *)
Lemma media_limites (lo hi : Q) (l : list Q) :
  l <> [] -> Forall (fun x => lo <= x <= hi) l ->
  exists mu, media l = Some mu /\ lo <= mu <= hi.
Proof.
  intros Hne Hall. destruct (soma_limites Hall) as [Hl Hh].
  destruct l as [| x t]; [contradiction |].
  unfold media. eexists. split; [reflexivity |].
  set (n := inject_Z (Z.of_nat (List.length (x :: t)))) in *.
  assert (Hn : 0 < n).
  { unfold n. change 0 with (inject_Z 0). rewrite <- Zlt_Qlt. simpl List.length. lia. }
  split.
  - apply Qle_shift_div_l; assumption.
  - apply Qle_shift_div_r; assumption.
Qed.

Lemma variancia_None (l : list Q) : variancia l = None <-> (List.length l < 2)%nat.
Proof.
  unfold variancia, media. destruct l as [| x [| y t]]; simpl.
  - split; [lia | reflexivity].
  - split; [lia | reflexivity].
  - split; [discriminate | lia].
Qed.

Lemma media_None (l : list Q) : media l = None <-> List.length l = 0%nat.
Proof.
  unfold media. destruct l; simpl; split; try reflexivity; try discriminate.
Qed.

Lemma In_combine_existe (A B : Type) (l : list A) (l' : list B) (a : A) :
  List.length l = List.length l' -> In a l -> exists b, In (a, b) (combine l l').
Proof.
  revert l'. induction l as [| x t IH]; intros [| y t'] Hlen Hin; simpl in *;
    try discriminate; [destruct Hin |].
  destruct Hin as [-> | Hin].
  - exists y. left. reflexivity.
  - destruct (IH t' ltac:(lia) Hin) as [b Hb]. exists b. right. exact Hb.
Qed.

(** The shape of the statistics: one entry per label that occurs, in
    increasing order of the label; no variance for a group of fewer
    than two values, no mean for a group without values. *)
Lemma estatisticas_grupos_geral (cg ci : string) (df a : DataFrame) (m : list nat)
    (stats : list estatistica) :
  String.eqb ci cg = false ->
  estatisticas_por_grupo cg ci df m = Ok (a, stats) ->
  map Grupo stats = sorted_set m /\
  forall s, In s stats ->
    (Variancia s = None <-> (N_de_Estudantes s < 2)%nat) /\
    (Media s = None <-> N_de_Estudantes s = 0%nat).
Proof.
  intros Hne H. destruct (estatisticas_forma _ _ _ _ Hne H) as [k [_ [_ [_ ->]]]].
  split.
  - rewrite map_map. simpl. apply map_id.
  - intros s Hs. apply in_map_iff in Hs. destruct Hs as [grp [<- _]]. simpl.
    split; [apply variancia_None | apply media_None].
Qed.

(** With a number between [lo] and [hi] as the index of every
    respondent: the group sizes add up to the number of respondents,
    every listed group has at least one respondent, and its mean lies
    between [lo] and [hi]. *)
Lemma estatisticas_numericas_geral (cg ci : string) (df a : DataFrame) (m : list nat)
    (stats : list estatistica) (lo hi : Q) :
  String.eqb ci cg = false ->
  (forall row, In row (values df) ->
     exists x, celula (columns df) row ci = Ok (Num x) /\ lo <= x <= hi) ->
  estatisticas_por_grupo cg ci df m = Ok (a, stats) ->
  list_sum (map N_de_Estudantes stats) = len df /\
  forall s, In s stats ->
    (1 <= N_de_Estudantes s)%nat /\
    exists mu, Media s = Some mu /\ lo <= mu <= hi.
Proof.
  intros Hne Hnum H.
  destruct (estatisticas_forma _ _ _ _ Hne H) as [k [Hk [Hlen [_ ->]]]].
  set (indices := coluna (values df) k).
  assert (Hind : forall v, In v indices -> exists x, v = Num x /\ lo <= x <= hi).
  { intros v Hv. unfold indices, coluna in Hv. apply in_map_iff in Hv.
    destruct Hv as [row [<- Hrow]]. destruct (Hnum row Hrow) as [x [Hx Hb]].
    unfold celula in Hx. rewrite Hk in Hx. injection Hx as Hx.
    exists x. split; assumption. }
  assert (Hli : List.length indices = List.length m).
  { unfold indices, coluna. rewrite length_map. unfold len in Hlen. lia. }
  assert (Hsnd : forall grp,
             Forall (fun v => exists x, v = Num x)
                    (map snd (filter (fun gv => (fst gv =? grp)%nat) (combine m indices)))).
  { intros grp. apply Forall_forall. intros v Hv. apply in_map_iff in Hv.
    destruct Hv as [[g v'] [<- Hin]]. apply filter_In in Hin. destruct Hin as [Hin _].
    apply in_combine_r in Hin. destruct (Hind _ Hin) as [x [-> _]]. exists x. reflexivity. }
  assert (Hcount : forall grp,
             List.length (do_grupo grp m indices)
             = List.length (filter (fun gv => (fst gv =? grp)%nat) (combine m indices))).
  { intros grp. unfold do_grupo. rewrite numeros_todos by apply Hsnd.
    apply length_map. }
  split.
  - rewrite map_map. simpl.
    rewrite (map_ext _ (fun g => List.length (filter (fun gv => (fst gv =? g)%nat)
                                                 (combine m indices)))) by exact Hcount.
    rewrite soma_por_chave.
    + rewrite length_combine. unfold len in *. lia.
    + apply sorted_set_NoDup.
    + intros [g v] Hin. apply In_sorted_set. apply in_combine_l in Hin. exact Hin.
  - intros s Hs. apply in_map_iff in Hs. destruct Hs as [grp [<- Hgrp]]. simpl.
    apply (proj1 (In_sorted_set grp m)) in Hgrp.
    destruct (@In_combine_existe _ _ m indices grp (eq_sym Hli) Hgrp) as [v Hv].
    assert (Hpos : (1 <= List.length (do_grupo grp m indices))%nat).
    { rewrite Hcount.
      assert (Hf : In (grp, v) (filter (fun gv => (fst gv =? grp)%nat) (combine m indices))).
      { apply filter_In. split; [exact Hv | apply Nat.eqb_refl]. }
      destruct (filter _ _); [destruct Hf | simpl; lia]. }
    split; [exact Hpos |].
    apply media_limites.
    + intros E. rewrite E in Hpos. simpl in Hpos. lia.
    + apply Forall_forall. intros x Hx. unfold do_grupo in Hx.
      apply In_numeros in Hx. apply in_map_iff in Hx.
      destruct Hx as [[g v'] [Hv' Hin]]. simpl in Hv'. subst v'.
      apply filter_In in Hin. destruct Hin as [Hin _]. apply in_combine_r in Hin.
      destruct (Hind _ Hin) as [y [Hy Hb]]. injection Hy as ->. exact Hb.
Qed.

Lemma existsb_is_str_coluna (cols : list string) (X : list (list valor)) (c : string)
    (k : nat) :
  posicao c cols = Some k ->
  existsb is_str (coluna X k) = true <->
  exists row s, In row X /\ celula cols row c = Ok (Str s).
Proof.
  intros Hk. unfold coluna, celula. rewrite Hk. rewrite existsb_exists. split.
  - intros [v [Hv Hs]]. apply in_map_iff in Hv. destruct Hv as [row [<- Hrow]].
    destruct (nth k row NaN) as [| x | s] eqn:E; try discriminate Hs.
    exists row, s. split; [exact Hrow | rewrite E; reflexivity].
  - intros [row [s [Hrow Hs]]]. injection Hs as Hs.
    exists (Str s). split; [| reflexivity].
    apply in_map_iff. exists row. split; assumption.
Qed.

(** X15. [calcular_estatisticas_por_grupo] of the first script, on a
    frame whose column names are distinct.  It fails in three ways: with
    a ValueError when the frame has rows and the number of labels is not
    their number; the numbers agreeing, with a KeyError when the frame
    has no index column; and with a TypeError when some cell of the
    index column is a text, of which no mean can be taken.  Otherwise,
    the numbers agreeing and the index column free of text, it hands
    back the annotated frame, with as many rows, and the statistics. *)
Theorem estatisticas_erros (df : DataFrame) (m : list nat) :
  NoDup (columns df) ->
  ((0 < len df)%nat ->
   List.length m <> len df ->
   Fastgreedy.calcular_estatisticas_por_grupo df m
   = Raise (ValueError_comprimento (List.length m) (len df))) /\
  (List.length m = len df ->
   tem_coluna "Indice Vulnerabilidade" (columns df) = false ->
   Fastgreedy.calcular_estatisticas_por_grupo df m
   = Raise (KeyError "Indice Vulnerabilidade")) /\
  (List.length m = len df ->
   (exists row s, In row (values df) /\
      celula (columns df) row "Indice Vulnerabilidade" = Ok (Str s)) ->
   Fastgreedy.calcular_estatisticas_por_grupo df m = Raise TypeError) /\
  (List.length m = len df ->
   tem_coluna "Indice Vulnerabilidade" (columns df) = true ->
   (forall row s, In row (values df) ->
      celula (columns df) row "Indice Vulnerabilidade" <> Ok (Str s)) ->
   exists a stats,
     Fastgreedy.calcular_estatisticas_por_grupo df m = Ok (a, stats) /\ len a = len df).
Proof.
  intros _.
  unfold Fastgreedy.calcular_estatisticas_por_grupo, estatisticas_por_grupo.
  set (col := map (fun k => Num (inject_Z (Z.of_nat k))) m).
  assert (Hcol : List.length col = List.length m) by apply length_map.
  assert (Hatr : List.length m = len df ->
                 exists a, atribuir_coluna df "Grupo FastGreedy" col = Ok a).
  { intros Hlen. unfold atribuir_coluna. rewrite Hcol, Hlen, Nat.eqb_refl. simpl.
    destruct (posicao "Grupo FastGreedy" (columns df)); eexists; reflexivity. }
  split; [| split; [| split]].
  - intros _ Hne. unfold atribuir_coluna. rewrite Hcol.
    destruct (Nat.eqb_spec (List.length m) (len df)) as [E | _]; [contradiction |].
    reflexivity.
  - intros Hlen Hc. apply posicao_None in Hc.
    destruct (Hatr Hlen) as [a Ha]. rewrite Ha. simpl.
    rewrite (@atribuir_coluna_ausente df a "Grupo FastGreedy" "Indice Vulnerabilidade" col
               Ha eq_refl Hc).
    reflexivity.
  - intros Hlen [row [s [Hrow Hs]]].
    destruct (posicao "Indice Vulnerabilidade" (columns df)) as [k |] eqn:Hk;
      [| unfold celula in Hs; rewrite Hk in Hs; discriminate Hs].
    destruct (Hatr Hlen) as [a Ha]. rewrite Ha. simpl.
    destruct (@atribuir_coluna_outras df a "Grupo FastGreedy" "Indice Vulnerabilidade" col k
                Ha eq_refl Hk) as [Hk' _].
    rewrite Hk'.
    rewrite (@atribuir_coluna_coluna df a "Grupo FastGreedy" "Indice Vulnerabilidade" col k
               Ha eq_refl Hk).
    replace (existsb is_str (coluna (values df) k)) with true; [reflexivity |].
    symmetry. apply (proj2 (@existsb_is_str_coluna (columns df) (values df) _ k Hk)).
    exists row, s. split; assumption.
  - intros Hlen Hc Hnum. destruct (tem_coluna_posicao _ _ Hc) as [k Hk].
    destruct (Hatr Hlen) as [a Ha]. rewrite Ha. simpl.
    destruct (@atribuir_coluna_outras df a "Grupo FastGreedy" "Indice Vulnerabilidade" col k
                Ha eq_refl Hk) as [Hk' _].
    rewrite Hk'.
    rewrite (@atribuir_coluna_coluna df a "Grupo FastGreedy" "Indice Vulnerabilidade" col k
               Ha eq_refl Hk).
    destruct (existsb is_str (coluna (values df) k)) eqn:Es.
    + apply (proj1 (@existsb_is_str_coluna (columns df) (values df) _ k Hk)) in Es.
      destruct Es as [row [s [Hrow Hs]]]. destruct (Hnum row s Hrow Hs).
    + eexists. eexists. split; [reflexivity |].
      apply (atribuir_coluna_comprimento _ _ _ Ha).
Qed.

Lemma estatisticas_erros_witness :
  Fastgreedy.calcular_estatisticas_por_grupo planilha_tres [0%nat; 1%nat]
  = Raise (ValueError_comprimento 2 3) /\
  Fastgreedy.calcular_estatisticas_por_grupo planilha_tres [0%nat; 0%nat; 1%nat]
  = Raise (KeyError "Indice Vulnerabilidade") /\
  Fastgreedy.calcular_estatisticas_por_grupo planilha_indice_texto [0%nat; 1%nat]
  = Raise TypeError /\
  exists a stats,
    Fastgreedy.calcular_estatisticas_por_grupo planilha_indice_numerico [0%nat; 1%nat]
    = Ok (a, stats) /\ len a = len planilha_indice_numerico.
Proof.
  assert (D3 : NoDup (columns planilha_tres)).
  { repeat (constructor; [simpl; intuition discriminate |]). constructor. }
  assert (Dt : NoDup (columns planilha_indice_texto)).
  { repeat (constructor; [simpl; intuition discriminate |]). constructor. }
  assert (Dn : NoDup (columns planilha_indice_numerico)).
  { repeat (constructor; [simpl; intuition discriminate |]). constructor. }
  split; [| split; [| split]].
  - apply (proj1 (@estatisticas_erros planilha_tres [0%nat; 1%nat] D3)).
    + unfold len. simpl. lia.
    + unfold len. simpl. lia.
  - apply (proj1 (proj2 (@estatisticas_erros planilha_tres [0%nat; 0%nat; 1%nat] D3)));
      reflexivity.
  - apply (proj1 (proj2 (proj2 (@estatisticas_erros planilha_indice_texto [0%nat; 1%nat] Dt)))).
    + reflexivity.
    + exists [Num 1; Str "sem indice"], "sem indice"%string.
      split; [right; left; reflexivity | reflexivity].
  - apply (proj2 (proj2 (proj2 (@estatisticas_erros planilha_indice_numerico [0%nat; 1%nat] Dn)))).
    + reflexivity.
    + reflexivity.
    + intros row s [<- | [<- | []]]; vm_compute; discriminate.
Defined.

(** X16. The statistics list one entry per community label that
    occurs, each label once and in increasing order; an entry has no
    variance (a standard deviation that is NaN) exactly when its group
    has fewer than two values, which is not an error, and no mean only
    when it has none.  The two scripts share the code. *)
Theorem estatisticas_grupos (df a : DataFrame) (m : list nat) (stats : list estatistica) :
  Fastgreedy.calcular_estatisticas_por_grupo df m = Ok (a, stats) \/
  Leiden.calcular_estatisticas_por_grupo df m = Ok (a, stats) ->
  StronglySorted lt (map Grupo stats) /\
  (forall g, In g (map Grupo stats) <-> In g m) /\
  forall s, In s stats ->
    (Variancia s = None <-> (N_de_Estudantes s < 2)%nat) /\
    (Media s = None <-> N_de_Estudantes s = 0%nat).
Proof.
  intros H.
  assert (G : map Grupo stats = sorted_set m /\
              forall s, In s stats ->
                (Variancia s = None <-> (N_de_Estudantes s < 2)%nat) /\
                (Media s = None <-> N_de_Estudantes s = 0%nat)).
  { destruct H as [H | H].
    - exact (@estatisticas_grupos_geral "Grupo FastGreedy" "Indice Vulnerabilidade"
               df a m stats eq_refl H).
    - exact (@estatisticas_grupos_geral "grupo leiden" "indice vulnerabilidade"
               df a m stats eq_refl H). }
  destruct G as [-> G]. split; [apply sorted_set_ordenada |].
  split; [intros g; apply In_sorted_set | exact G].
Qed.

Lemma estatisticas_grupos_witness :
  exists stats,
    StronglySorted lt (map Grupo stats) /\
    (forall g, In g (map Grupo stats) <-> In g [1%nat; 0%nat; 1%nat]) /\
    forall s, In s stats ->
      (Variancia s = None <-> (N_de_Estudantes s < 2)%nat) /\
      (Media s = None <-> N_de_Estudantes s = 0%nat).
Proof.
  eexists.
  eapply (@estatisticas_grupos
            (mkDF (Fastgreedy.colunas ++ ["Indice Vulnerabilidade"%string])
               [ [Str "alugada"; Str "onibus"; Num 0; Num 0; Num 0; Num (inject_Z 80)];
                 [Str "quitada"; Str "carro"; Num 1000; Num 1000; Num 0; Num (inject_Z 50)];
                 [Str "alugada"; Str "carro"; Num 500; Num 500; Num 0; Num (inject_Z 70)] ])).
  left. vm_compute. reflexivity.
Defined.

(** X17. Statistics of the index the script computed: in the first
    script the group sizes add up to the number of respondents, every
    listed group has at least one respondent and its mean index lies
    between 0 and 80; in the second script the same holds with means
    between 0 and 100. *)
Theorem estatisticas_do_indice
    (unidecode : string -> string) (str_float : Q -> string)
    (df df_vul a : DataFrame) (m : list nat) (stats : list estatistica) :
  (Fastgreedy.calcular_indice_vulnerabilidade df = Ok df_vul ->
   Fastgreedy.calcular_estatisticas_por_grupo df_vul m = Ok (a, stats) ->
   list_sum (map N_de_Estudantes stats) = len df /\
   forall s, In s stats ->
     (1 <= N_de_Estudantes s)%nat /\
     exists mu, Media s = Some mu /\ 0 <= mu <= 80) /\
  (Leiden.calcular_indice_vulnerabilidade unidecode str_float df = Ok df_vul ->
   Leiden.calcular_estatisticas_por_grupo df_vul m = Ok (a, stats) ->
   list_sum (map N_de_Estudantes stats) = len df /\
   forall s, In s stats ->
     (1 <= N_de_Estudantes s)%nat /\
     exists mu, Media s = Some mu /\ 0 <= mu <= 100).
Proof.
  split; intros Hv Hs.
  - assert (Hnum : forall row, In row (values df_vul) ->
               exists x, celula (columns df_vul) row "Indice Vulnerabilidade" = Ok (Num x) /\
                         0 <= x <= 80).
    { intros row' Hin.
      destruct (coluna_de_indices (Fastgreedy.pontuar (columns df)) (fun z => z)
                  "Indice Vulnerabilidade" df Hv row' Hin) as [row [z [_ [Hz Hc]]]].
      destruct (FastgreedyFacts.pontuar_decomposto _ _ Hz) as [p [q [r [t [-> Hb]]]]].
      exists (inject_Z (p + q + r + t)). split; [exact Hc |].
      change 0 with (inject_Z 0). change 80 with (inject_Z 80).
      rewrite <- !Zle_Qle. lia. }
    rewrite <- (calcular_indice_comprimento _ Hv).
    exact (@estatisticas_numericas_geral "Grupo FastGreedy" "Indice Vulnerabilidade"
             df_vul a m stats 0 80 eq_refl Hnum Hs).
  - assert (Hnum : forall row, In row (values df_vul) ->
               exists x, celula (columns df_vul) row "indice vulnerabilidade" = Ok (Num x) /\
                         0 <= x <= 100).
    { intros row' Hin.
      destruct (coluna_de_indices (Leiden.pontuar unidecode str_float (columns df))
                  (Leiden.clip_upper 100) "indice vulnerabilidade" df Hv row' Hin)
        as [row [z [_ [Hz Hc]]]].
      destruct (LeidenFacts.pontuar_decomposto_leiden _ _ _ _ Hz)
        as [p [q [r [t [u [-> Hb]]]]]].
      eexists. split; [exact Hc |].
      change 0 with (inject_Z 0). change 100 with (inject_Z 100).
      rewrite <- !Zle_Qle. unfold Leiden.clip_upper. lia. }
    assert (Hlen : len df_vul = len df).
    { unfold Leiden.calcular_indice_vulnerabilidade in Hv.
      apply bind_Ok_inv in Hv. destruct Hv as [zs [_ Hv]].
      apply atribuir_coluna_comprimento in Hv. tauto. }
    rewrite <- Hlen.
    exact (@estatisticas_numericas_geral "grupo leiden" "indice vulnerabilidade"
             df_vul a m stats 0 100 eq_refl Hnum Hs).
Qed.

Lemma estatisticas_do_indice_witness :
  (exists stats,
     list_sum (map N_de_Estudantes stats) = len planilha_tres /\
     forall s, In s stats ->
       (1 <= N_de_Estudantes s)%nat /\
       exists mu, Media s = Some mu /\ 0 <= mu <= 80) /\
  (exists stats,
     list_sum (map N_de_Estudantes stats) = len planilha_leiden_sem_renda /\
     forall s, In s stats ->
       (1 <= N_de_Estudantes s)%nat /\
       exists mu, Media s = Some mu /\ 0 <= mu <= 100).
Proof.
  split.
  - eexists.
    eapply (proj1 (@estatisticas_do_indice unidecode_ascii str_float_nulo
                     planilha_tres _ _ [1%nat; 0%nat; 1%nat] _)).
    + vm_compute. reflexivity.
    + vm_compute. reflexivity.
  - eexists.
    eapply (proj2 (@estatisticas_do_indice unidecode_ascii str_float_nulo
                     planilha_leiden_sem_renda _ _ [0%nat] _)).
    + vm_compute. reflexivity.
    + vm_compute. reflexivity.
Defined.

(** X18. The annotated frame that [calcular_estatisticas_por_grupo]
    hands back has the rows of the frame it was given, in order: row i
    carries the i-th label in the group column, and every other column
    of the frame reads as before. *)
Theorem anotacao_por_grupo (df a : DataFrame) (m : list nat) (stats : list estatistica) :
  Fastgreedy.calcular_estatisticas_por_grupo df m = Ok (a, stats) ->
  len a = len df /\
  forall i row', nth_error (values a) i = Some row' ->
    exists g row,
      nth_error m i = Some g /\
      nth_error (values df) i = Some row /\
      celula (columns a) row' "Grupo FastGreedy" = Ok (Num (inject_Z (Z.of_nat g))) /\
      forall c, String.eqb c "Grupo FastGreedy" = false ->
                tem_coluna c (columns df) = true ->
                celula (columns a) row' c = celula (columns df) row c.
Proof.
  intros H.
  destruct (@estatisticas_forma "Grupo FastGreedy" "Indice Vulnerabilidade" df a m stats
              eq_refl H) as [k [_ [_ [Ha _]]]].
  destruct (atribuir_coluna_comprimento _ _ _ Ha) as [_ Hlen].
  split; [exact Hlen |].
  intros i row' Hi.
  destruct (atribuir_coluna_le _ _ _ Ha) as [_ Hle].
  destruct (Hle i row' Hi) as [v [Hv Hcel]].
  rewrite nth_error_map in Hv.
  destruct (nth_error m i) as [g |] eqn:Eg; [| discriminate Hv].
  injection Hv as <-.
  assert (Hrow : exists row, nth_error (values df) i = Some row).
  { destruct (nth_error (values df) i) as [row |] eqn:E; [exists row; reflexivity |].
    apply nth_error_None in E. unfold len in Hlen. rewrite <- Hlen in E.
    apply nth_error_None in E. rewrite E in Hi. discriminate Hi. }
  destruct Hrow as [row Hrow].
  exists g, row. split; [reflexivity |]. split; [exact Hrow |]. split; [exact Hcel |].
  intros c Hne Hc. destruct (tem_coluna_posicao _ _ Hc) as [kc Hkc].
  destruct (atribuir_coluna_outras _ _ _ _ Ha Hne Hkc) as [Hkc' Hrows].
  destruct (Hrows i row' Hi) as [row0 [Hrow0 Hn]].
  rewrite Hrow in Hrow0. injection Hrow0 as <-.
  unfold celula. rewrite Hkc', Hkc, Hn. reflexivity.
Qed.

Lemma anotacao_por_grupo_witness :
  exists a,
    len a = 3%nat /\
    forall i row', nth_error (values a) i = Some row' ->
      exists g row,
        nth_error [1%nat; 0%nat; 1%nat] i = Some g /\
        nth_error
          [ [Str "alugada"; Str "onibus"; Num 0; Num 0; Num 0; Num (inject_Z 80)];
            [Str "quitada"; Str "carro"; Num 1000; Num 1000; Num 0; Num (inject_Z 50)];
            [Str "alugada"; Str "carro"; Num 500; Num 500; Num 0; Num (inject_Z 70)] ] i
        = Some row /\
        celula (columns a) row' "Grupo FastGreedy" = Ok (Num (inject_Z (Z.of_nat g))) /\
        forall c, String.eqb c "Grupo FastGreedy" = false ->
                  tem_coluna c (Fastgreedy.colunas ++ ["Indice Vulnerabilidade"%string]) = true ->
                  celula (columns a) row' c
                  = celula (Fastgreedy.colunas ++ ["Indice Vulnerabilidade"%string]) row c.
Proof.
  eexists.
  eapply (@anotacao_por_grupo
            (mkDF (Fastgreedy.colunas ++ ["Indice Vulnerabilidade"%string])
               [ [Str "alugada"; Str "onibus"; Num 0; Num 0; Num 0; Num (inject_Z 80)];
                 [Str "quitada"; Str "carro"; Num 1000; Num 1000; Num 0; Num (inject_Z 50)];
                 [Str "alugada"; Str "carro"; Num 500; Num 500; Num 0; Num (inject_Z 70)] ])
            _ [1%nat; 0%nat; 1%nat] _).
  vm_compute. reflexivity.
Defined.

(** ** The index, row by row, and the flow up to the graph *)

Lemma atribuir_coluna_presente (df df' : DataFrame) (c : string) (col : list valor) :
  atribuir_coluna df c col = Ok df' -> tem_coluna c (columns df') = true.
Proof.
  unfold atribuir_coluna.
  destruct (negb (List.length col =? len df)%nat); [discriminate |].
  destruct (posicao c (columns df)) as [k |] eqn:E; intros H; injection H as <-; simpl.
  - destruct (tem_coluna c (columns df)) eqn:Et; [reflexivity |].
    apply posicao_None in Et. rewrite E in Et. discriminate Et.
  - destruct (tem_coluna c (columns df ++ [c])) eqn:Et; [reflexivity |].
    apply posicao_None in Et. rewrite (posicao_app_novo _ _ E) in Et. discriminate Et.
Qed.

(** X19. In the first script the index of row i is the score of row i
    of the frame that was given: the rows keep their order and their
    number, the new column holds the sum of the four scores of the
    row's own cells, and every other column reads as before. *)
Theorem indice_linha_a_linha (df df' : DataFrame) :
  Fastgreedy.calcular_indice_vulnerabilidade df = Ok df' ->
  len df' = len df /\
  forall i row', nth_error (values df') i = Some row' ->
    exists row z,
      nth_error (values df) i = Some row /\
      Fastgreedy.pontuar (columns df) row = Ok z /\
      celula (columns df') row' "Indice Vulnerabilidade" = Ok (Num (inject_Z z)) /\
      forall c, String.eqb c "Indice Vulnerabilidade" = false ->
                tem_coluna c (columns df) = true ->
                celula (columns df') row' c = celula (columns df) row c.
Proof.
  intros H. split; [apply calcular_indice_comprimento; exact H |].
  unfold Fastgreedy.calcular_indice_vulnerabilidade in H.
  apply bind_Ok_inv in H. destruct H as [zs [Hm Ha]].
  apply mapM_Ok_Forall2 in Hm.
  intros i row' Hi.
  destruct (atribuir_coluna_le _ _ _ Ha) as [_ Hle].
  destruct (Hle i row' Hi) as [v [Hv Hcel]].
  rewrite nth_error_map in Hv.
  destruct (nth_error zs i) as [z |] eqn:Ez; [| discriminate Hv].
  injection Hv as <-.
  destruct (Forall2_nth_error_r i Hm Ez) as [row [Hrow Hz]].
  exists row, z. split; [exact Hrow |]. split; [exact Hz |]. split; [exact Hcel |].
  intros c Hne Hc. destruct (tem_coluna_posicao _ _ Hc) as [kc Hkc].
  destruct (atribuir_coluna_outras _ _ _ _ Ha Hne Hkc) as [Hkc' Hrows].
  destruct (Hrows i row' Hi) as [row0 [Hrow0 Hn]].
  rewrite Hrow in Hrow0. injection Hrow0 as <-.
  unfold celula. rewrite Hkc', Hkc, Hn. reflexivity.
Qed.

Lemma indice_linha_a_linha_witness :
  len (mkDF (Fastgreedy.colunas ++ ["Indice Vulnerabilidade"%string])
         [ [Str "alugada"; Str "onibus"; Num 800; Num 400; Num 5000; Num (inject_Z 55)];
           [Str "alugada"; Str "onibus"; Num 800; Num 400; Num 5000; Num (inject_Z 55)] ])
  = len planilha_identicos.
Proof.
  apply (@indice_linha_a_linha planilha_identicos
           (mkDF (Fastgreedy.colunas ++ ["Indice Vulnerabilidade"%string])
              [ [Str "alugada"; Str "onibus"; Num 800; Num 400; Num 5000; Num (inject_Z 55)];
                [Str "alugada"; Str "onibus"; Num 800; Num 400; Num 5000; Num (inject_Z 55)] ])).
  vm_compute. reflexivity.
Defined.

(** X20. The first three stages of the first script compose: when
    the loader accepts a sheet with at least one respondent whose three
    numeric columns hold no text, the index is computed on the loaded
    frame and the graph is built on the indexed frame, nothing being
    raised; the graph has at most one vertex per respondent of the
    sheet.  (A sheet of headers alone is left out: the distance has
    nothing to range over there.) *)
Theorem fluxo_ate_o_grafo
    (str_float : Q -> string) (path : string) (df df_raw : DataFrame) :
  (0 < len df)%nat ->
  (forall row, In row (values df) -> linha_numerica (columns df) row) ->
  Fastgreedy.carregar_dados str_float path (Planilha df) = Ok df_raw ->
  exists df_vul g ws,
    Fastgreedy.calcular_indice_vulnerabilidade df_raw = Ok df_vul /\
    Fastgreedy.construir_grafo df_vul SIMILARIDADE_LIMIAR = Ok (g, ws) /\
    len df_vul = len df /\
    (vcount g <= len df)%nat.
Proof.
  intros _ Hnum H.
  assert (Hraw : (forall c, In c Fastgreedy.colunas -> tem_coluna c (columns df_raw) = true) /\
                 (forall row, In row (values df_raw) -> linha_numerica (columns df_raw) row)).
  { destruct (colunas_presentes_ou_falta Fastgreedy.colunas (columns df)) as [Hc | Hf].
    - destruct (carregar_dados_forma str_float path df Hc)
        as [k0 [k1 [k2 [k3 [k4 [_ [_ [H2 [H3 [H4 Hforma]]]]]]]]]].
      rewrite Hforma in H. destruct (sorted_set _); [| discriminate H].
      injection H as <-. split.
      + intros c Hin. simpl in Hin.
        destruct Hin as [<- | [<- | [<- | [<- | [<- | []]]]]]; reflexivity.
      + intros row' Hrow' c Hcrit v Hv.
        unfold preparada in Hrow'. unfold values at 1 in Hrow'.
        apply in_map_iff in Hrow'. destruct Hrow' as [row [<- Hrow]].
        destruct (@preparada_critica str_float df k0 k1 k2 k3 k4 c H2 H3 H4 Hcrit)
          as [kc [kc' [Hkc [Hkc' Hnth]]]].
        unfold celula in Hv. rewrite Hkc' in Hv. injection Hv as <-.
        specialize (Hnth row). simpl in Hnth. rewrite Hnth.
        apply (Hnum row Hrow c Hcrit). unfold celula. rewrite Hkc. reflexivity.
    - destruct (verificacao_falha Hf) as [c [_ [_ Hm]]].
      unfold Fastgreedy.carregar_dados in H. rewrite Hm in H. discriminate H. }
  destruct Hraw as [Hc Hn].
  destruct (indice_fastgreedy_total df_raw Hc Hn) as [df_vul Hvul].
  assert (Hidx : tem_coluna "Indice Vulnerabilidade" (columns df_vul) = true).
  { unfold Fastgreedy.calcular_indice_vulnerabilidade in Hvul.
    apply bind_Ok_inv in Hvul. destruct Hvul as [zs [_ Ha]].
    apply (atribuir_coluna_presente _ _ _ Ha). }
  destruct (construir_grafo_de_total "Indice Vulnerabilidade" df_vul SIMILARIDADE_LIMIAR Hidx)
    as [g [ws Hg]].
  exists df_vul, g, ws. split; [exact Hvul |]. split; [exact Hg |].
  pose proof (carregar_dados_comprimento _ _ _ H) as L1.
  pose proof (calcular_indice_comprimento _ Hvul) as L2.
  split; [lia |].
  unfold Fastgreedy.construir_grafo in Hg.
  destruct (drop_coluna df_vul "Indice Vulnerabilidade") as [df_sim | e] eqn:Hd;
    [| unfold construir_grafo_de in Hg; rewrite Hd in Hg; discriminate Hg].
  pose proof (drop_coluna_comprimento _ _ Hd) as L3.
  destruct (@vcount_respondentes _ df_vul df_sim SIMILARIDADE_LIMIAR g ws Hd Hg) as [Hle _].
  lia.
Qed.

Lemma fluxo_ate_o_grafo_witness :
  exists df_vul g ws,
    Fastgreedy.calcular_indice_vulnerabilidade planilha_tres = Ok df_vul /\
    Fastgreedy.construir_grafo df_vul SIMILARIDADE_LIMIAR = Ok (g, ws) /\
    len df_vul = len planilha_tres /\
    (vcount g <= len planilha_tres)%nat.
Proof.
  apply (@fluxo_ate_o_grafo str_float_nulo Fastgreedy.EXCEL_PATH planilha_tres planilha_tres).
  - unfold len. simpl. lia.
  - intros row Hrow c Hc v Hv. simpl in Hrow, Hc.
    destruct Hrow as [<- | [<- | [<- | []]]];
      destruct Hc as [<- | [<- | [<- | []]]];
      vm_compute in Hv; injection Hv as <-; reflexivity.
  - vm_compute. reflexivity.
Defined.

(** ** Computing the index twice *)

Lemma alinhar_exato (w : nat) (row : list valor) :
  List.length row = w -> alinhar w row = row.
Proof.
  intros <-. unfold alinhar. rewrite firstn_app, Nat.sub_diag, firstn_all. simpl.
  apply app_nil_r.
Qed.

Lemma substituir_length (A : Type) (k : nat) (x : A) (l : list A) :
  List.length (substituir k x l) = List.length l.
Proof.
  revert k. induction l as [| a t IH]; intros k; simpl.
  - destruct k; reflexivity.
  - destruct k as [| k']; simpl; [reflexivity | rewrite IH; reflexivity].
Qed.

Lemma substituir_substituir (A : Type) (k : nat) (x : A) (l : list A) :
  substituir k x (substituir k x l) = substituir k x l.
Proof.
  revert k. induction l as [| a t IH]; intros k; simpl.
  - destruct k; reflexivity.
  - destruct k as [| k']; simpl; [reflexivity | rewrite IH; reflexivity].
Qed.

Lemma substituir_ultimo (A : Type) (x y : A) (l : list A) :
  substituir (List.length l) x (l ++ [y]) = l ++ [x].
Proof.
  induction l as [| a t IH]; simpl; [reflexivity | rewrite IH; reflexivity].
Qed.

Lemma combine_map_l (A B C : Type) (f : A * B -> C) (l : list A) (l' : list B) :
  combine (map f (combine l l')) l'
  = map (fun ab => (f ab, snd ab)) (combine l l').
Proof.
  revert l'. induction l as [| a t IH]; intros [| b t']; simpl; try reflexivity.
  rewrite IH. reflexivity.
Qed.

(** Assigning to a frame the column it was just given changes
    nothing. *)
Lemma atribuir_coluna_fixa (df df1 : DataFrame) (c : string) (col : list valor) :
  atribuir_coluna df c col = Ok df1 -> atribuir_coluna df1 c col = Ok df1.
Proof.
  intros H. destruct (atribuir_coluna_comprimento _ _ _ H) as [Hl Hl1].
  unfold atribuir_coluna in *. rewrite Hl, Hl1, Nat.eqb_refl in *. simpl in *.
  destruct (posicao c (columns df)) as [k |] eqn:Ek; injection H as <-; simpl.
  - rewrite Ek. f_equal. f_equal. rewrite combine_map_l, map_map.
    apply map_ext. intros [r v]. simpl.
    rewrite alinhar_exato by (rewrite substituir_length; apply alinhar_length).
    apply substituir_substituir.
  - rewrite (posicao_app_novo _ _ Ek). f_equal. f_equal.
    rewrite combine_map_l, map_map. apply map_ext. intros [r v]. simpl.
    rewrite alinhar_exato
      by (rewrite !length_app, alinhar_length; simpl; lia).
    rewrite <- (alinhar_length (List.length (columns df)) r) at 1.
    apply substituir_ultimo.
Qed.

Lemma Forall2_mapM (A B : Type) (f : A -> result B) (l : list A) (l' : list B) :
  Forall2 (fun a b => f a = Ok b) l l' -> mapM f l = Ok l'.
Proof.
  induction 1 as [| a b t t' Hab _ IH]; simpl; [reflexivity |].
  rewrite Hab, IH. reflexivity.
Qed.

Lemma celula_Ok_presente (cols : list string) (row : list valor) (c : string) (v : valor) :
  celula cols row c = Ok v -> tem_coluna c cols = true.
Proof.
  unfold celula. intros H. destruct (tem_coluna c cols) eqn:E; [reflexivity |].
  apply posicao_None in E. rewrite E in H. discriminate H.
Qed.

(** The score of a row depends on the frame only through the four
    columns it reads. *)
Lemma pontuar_mesmas_celulas (cols cols' : list string) (row row' : list valor) (z : Z) :
  (forall c, In c Fastgreedy.colunas -> tem_coluna c cols = true ->
     celula cols' row' c = celula cols row c) ->
  Fastgreedy.pontuar cols row = Ok z ->
  Fastgreedy.pontuar cols' row' = Ok z.
Proof.
  intros Heq H. unfold Fastgreedy.pontuar in *.
  assert (E : forall c, In c Fastgreedy.colunas ->
                celula cols row c = Raise (KeyError c) \/
                celula cols' row' c = celula cols row c).
  { intros c Hin. destruct (tem_coluna c cols) eqn:Et; [right; apply Heq; assumption |].
    left. unfold celula. apply posicao_None in Et. rewrite Et. reflexivity. }
  destruct (E "Renda per capita"%string ltac:(simpl; tauto)) as [E1 | E1];
    [rewrite E1 in H; discriminate H |].
  rewrite E1. destruct (celula cols row "Renda per capita") as [r |]; [| discriminate H].
  simpl in *. destruct (Fastgreedy.pontos_renda r) as [p1 |]; [| discriminate H].
  simpl in *.
  destruct (E Fastgreedy.col_moradia ltac:(simpl; tauto)) as [E2 | E2];
    [rewrite E2 in H; discriminate H |].
  rewrite E2. destruct (celula cols row Fastgreedy.col_moradia) as [mo |]; [| discriminate H].
  simpl in *. destruct (Fastgreedy.pontos_moradia mo) as [p2 |]; [| discriminate H].
  simpl in *.
  destruct (E "Despesas per capita"%string ltac:(simpl; tauto)) as [E3 | E3];
    [rewrite E3 in H; discriminate H |].
  rewrite E3. destruct (celula cols row "Despesas per capita") as [dp |]; [| discriminate H].
  simpl in *. destruct (Fastgreedy.pontos_despesas dp r) as [p3 |]; [| discriminate H].
  simpl in *.
  destruct (E "Valor Total dos bens familiares"%string ltac:(simpl; tauto)) as [E4 | E4];
    [rewrite E4 in H; discriminate H |].
  rewrite E4. exact H.
Qed.

Lemma Forall2_de_nth_error (A B : Type) (R : A -> B -> Prop) (l : list A) (l' : list B) :
  List.length l = List.length l' ->
  (forall i a b, nth_error l i = Some a -> nth_error l' i = Some b -> R a b) ->
  Forall2 R l l'.
Proof.
  revert l'. induction l as [| a t IH]; intros [| b t'] Hlen H; simpl in Hlen;
    try discriminate; constructor.
  - apply (H 0%nat); reflexivity.
  - apply IH; [lia |]. intros i x y Hx Hy. apply (H (S i)); assumption.
Qed.

(** X21. Computing the index is idempotent in the first script: on a
    frame that already carries the index column, computed by the
    script, computing it again hands back the same frame. *)
Theorem calcular_indice_idempotente (df df1 : DataFrame) :
  Fastgreedy.calcular_indice_vulnerabilidade df = Ok df1 ->
  Fastgreedy.calcular_indice_vulnerabilidade df1 = Ok df1.
Proof.
  intros H. pose proof (calcular_indice_comprimento _ H) as Hlen.
  unfold Fastgreedy.calcular_indice_vulnerabilidade in *.
  apply bind_Ok_inv in H. destruct H as [zs [Hm Ha]].
  apply mapM_Ok_Forall2 in Hm.
  assert (Hm1 : Forall2 (fun row' z => Fastgreedy.pontuar (columns df1) row' = Ok z)
                        (values df1) zs).
  { apply Forall2_de_nth_error.
    - apply Forall2_length in Hm. unfold len in Hlen. lia.
    - intros i row' z Hi Hz.
      destruct (Forall2_nth_error_r i Hm Hz) as [row [Hrow Hp]].
      apply (@pontuar_mesmas_celulas (columns df) (columns df1) row row' z); [| exact Hp].
      intros c Hin Hc. destruct (tem_coluna_posicao _ _ Hc) as [kc Hkc].
      assert (Hne : String.eqb c "Indice Vulnerabilidade" = false).
      { simpl in Hin. destruct Hin as [<- | [<- | [<- | [<- | [<- | []]]]]]; reflexivity. }
      destruct (atribuir_coluna_outras _ _ _ _ Ha Hne Hkc) as [Hkc' Hrows].
      destruct (Hrows i row' Hi) as [row0 [Hrow0 Hn]].
      rewrite Hrow in Hrow0. injection Hrow0 as <-.
      unfold celula. rewrite Hkc', Hkc, Hn. reflexivity. }
  rewrite (Forall2_mapM _ Hm1). simpl. eapply atribuir_coluna_fixa. exact Ha.
Qed.

Lemma calcular_indice_idempotente_witness :
  Fastgreedy.calcular_indice_vulnerabilidade
    (mkDF (Fastgreedy.colunas ++ ["Indice Vulnerabilidade"%string])
       [ [Str "alugada"; Str "onibus"; Num 800; Num 400; Num 5000; Num (inject_Z 55)];
         [Str "alugada"; Str "onibus"; Num 800; Num 400; Num 5000; Num (inject_Z 55)] ])
  = Ok (mkDF (Fastgreedy.colunas ++ ["Indice Vulnerabilidade"%string])
          [ [Str "alugada"; Str "onibus"; Num 800; Num 400; Num 5000; Num (inject_Z 55)];
            [Str "alugada"; Str "onibus"; Num 800; Num 400; Num 5000; Num (inject_Z 55)] ]).
Proof.
  apply (@calcular_indice_idempotente planilha_identicos).
  vm_compute. reflexivity.
Defined.
